(** * Personalized learning platform: content cache, dialogue log and
      style recommendation

    Shallow embedding of [backend/database.py], [backend/main.py] and
    [backend/socratic_graph.py].

    - Python values that travel through [json.dumps]/[json.loads] are
      values of [json]; Python's [None] is [JNull].
    - Python exceptions are values of [exn]; fallible code returns [res].
    - The SQLite file is a record [db] of three tables, every table a list
      of rows in rowid (insertion) order.  The surrogate [id] columns are
      not stored: no statement reads them except [COUNT(id)], which counts
      rows because [id] is a primary key and never NULL.
    - A Python [int] is a value of [Z].  An SQLite INTEGER is a signed
      64-bit integer: the [sqlite3] module raises [OverflowError] when a
      statement binds an [int] outside that range, and no stored row holds
      one.
    - SQLite's [AVG] is a double: the scores are added up in double
      precision in rowid order and the sum is divided by the count.  The
      doubles are those of [SpecFloat] with 53 bits of precision.
    - Every function of the backend opens its own connection and runs one
      statement, so a statement is one atomic [action]; a request handler is
      a finite tree [prog] of actions.  [exec] runs a tree against a world
      (store plus event trace), lets other requests change the store before
      each action, and asks an [oracle] for the answers of the OpenAI
      collaborators. *)

From Stdlib Require Import ZArith QArith List String Ascii Bool Arith Lia Lqa.
From Stdlib Require Import Floats.SpecFloat.
From Stdlib Require DecimalString DecimalFacts DecimalPos.
Import ListNotations.
Set Warnings "-register-all".
Local Open Scope string_scope.
Local Open Scope Z_scope.

(** ** Python values and exceptions *)

Inductive exn : Type :=
| IntegrityError
| OverflowError
| ValueError
| TypeError
| JSONDecodeError
| OperationalError
| HTTPException (status_code : Z) (detail : string)
| OpenAIError (msg : string).

Inductive res (A : Type) : Type :=
| Ok (a : A)
| Raise (e : exn).
Arguments Ok {A} a.
Arguments Raise {A} e.

Inductive json : Type :=
| JNull
| JBool (b : bool)
| JInt (n : Z)
| JStr (s : string)
| JList (items : list json)
| JDict (items : list (string * json)).

(** Python truth value of a JSON-shaped object ([if x:]). *)
Definition truthy (x : json) : bool :=
  match x with
  | JNull => false
  | JBool b => b
  | JInt n => negb (n =? 0)
  | JStr s => negb (s =? "")%string
  | JList items => match items with [] => false | _ => true end
  | JDict items => match items with [] => false | _ => true end
  end.

(** Truth value of a [str]. *)
Definition str_truthy (s : string) : bool := negb (s =? "")%string.

(** The parts of the Python standard library the backend calls.
    [json_loads] and [int_of_str] return [None] where Python raises
    [JSONDecodeError] and [ValueError]; [int_of_str s] is
    [int(s.strip())]. *)
Class PyLib : Type := {
  json_dumps : json -> string;
  json_dumps_indent2 : json -> string;
  json_loads : string -> option json;
  int_of_str : string -> option Z
}.

(** ** The SQLite store ([database.init_db]) *)

Record lesson_row : Type := {
  l_id : Z;
  l_lesson_title : string;
  l_course_id : Z;
  l_original_text : string
}.

Record content_row : Type := {
  gc_lesson_id : Z;
  gc_style : string;
  gc_content_type : string;
  gc_data : string;
  gc_quiz_data : option string
}.

Record dialogue_row : Type := {
  sd_lesson_id : Z;
  sd_session_id : string;
  sd_style : string;
  sd_conversation_history : string;
  sd_understanding_score : option Z
}.

Record db : Type := {
  lessons : list lesson_row;
  generated_content : list content_row;
  socratic_dialogues : list dialogue_row
}.

Definition empty_db : db :=
  {| lessons := []; generated_content := []; socratic_dialogues := [] |}.

(** ** SQL statements *)

Definition int64_min : Z := - 2 ^ 63.
Definition int64_max : Z := 2 ^ 63 - 1.

(** A Python [int] binds to an SQLite INTEGER only inside the signed 64-bit
    range; the [sqlite3] module raises [OverflowError] otherwise, before
    the statement runs. *)
Definition fits_int64 (n : Z) : bool := (int64_min <=? n) && (n <=? int64_max).

(** The outcome of a statement that binds the integer [n]. *)
Definition binding {X : Type} (n : Z) (d : db) (outcome : res X * db) : res X * db :=
  if fits_int64 n then outcome else (Raise OverflowError, d).

Definition content_key_is (lesson_id : Z) (style : string) (r : content_row) : bool :=
  (gc_lesson_id r =? lesson_id) && (gc_style r =? style)%string.

(** [SELECT content_type, data, quiz_data FROM generated_content
     WHERE lesson_id = ? AND style = ?] followed by [fetchone()].  The
    stored ids are 64-bit integers, so an id outside that range is the id
    of no row. *)
Definition sql_select_cached (lesson_id : Z) (style : string) (d : db)
  : option (string * string * option string) :=
  if fits_int64 lesson_id then
    match find (content_key_is lesson_id style) (generated_content d) with
    | Some r => Some (gc_content_type r, gc_data r, gc_quiz_data r)
    | None => None
    end
  else None.

(** [INSERT INTO generated_content (...) VALUES (?, ?, ?, ?, ?)] under the
    table's [UNIQUE(lesson_id, style)] constraint; [lesson_id] is the one
    integer the statement binds. *)
Definition sql_insert_content (r : content_row) (d : db) : res unit * db :=
  binding (gc_lesson_id r) d
    (if existsb (content_key_is (gc_lesson_id r) (gc_style r)) (generated_content d)
     then (Raise IntegrityError, d)
     else (Ok tt,
           {| lessons := lessons d;
              generated_content := generated_content d ++ [r];
              socratic_dialogues := socratic_dialogues d |})).

(** [SELECT lesson_title, original_text FROM lessons WHERE id = ?]. *)
Definition sql_select_lesson (lesson_id : Z) (d : db) : option (string * string) :=
  if fits_int64 lesson_id then
    match find (fun l => l_id l =? lesson_id) (lessons d) with
    | Some l => Some (l_lesson_title l, l_original_text l)
    | None => None
    end
  else None.

(** [SELECT lesson_title FROM lessons WHERE id = ?]. *)
Definition sql_select_lesson_title (lesson_id : Z) (d : db) : option string :=
  if fits_int64 lesson_id then
    match find (fun l => l_id l =? lesson_id) (lessons d) with
    | Some l => Some (l_lesson_title l)
    | None => None
    end
  else None.

(** [DELETE FROM lessons WHERE id = ?].  The connection never issues
    [PRAGMA foreign_keys = ON], so SQLite does not enforce the foreign key
    of [socratic_dialogues]; [generated_content] declares none. *)
Definition sql_delete_lesson (lesson_id : Z) (d : db) : db :=
  {| lessons := filter (fun l => negb (l_id l =? lesson_id)) (lessons d);
     generated_content := generated_content d;
     socratic_dialogues := socratic_dialogues d |}.

(** [INSERT INTO socratic_dialogues (...) VALUES (?, ?, ?, ?, ?)]; the
    statement binds two integers, [lesson_id] and the score. *)
Definition sql_insert_dialogue (lesson_id : Z) (session_id style history : string)
    (score : Z) (d : db) : res unit * db :=
  binding lesson_id d
    (binding score d
       (Ok tt,
        {| lessons := lessons d;
           generated_content := generated_content d;
           socratic_dialogues :=
             socratic_dialogues d ++
             [{| sd_lesson_id := lesson_id; sd_session_id := session_id;
                 sd_style := style; sd_conversation_history := history;
                 sd_understanding_score := Some score |}] |})).

(** *** The aggregate query of [recommend_style] *)

Definition non_null (xs : list (option Z)) : list Z :=
  flat_map (fun o => match o with Some z => [z] | None => [] end) xs.

Definition sum_Z (xs : list Z) : Z := fold_right Z.add 0 xs.

(** The double nearest to an integer ([(double)v] in C). *)
Definition double_of_int (z : Z) : spec_float := binary_normalize 53 1024 z 0 false.

(** The rational a double stands for.  Sums and quotients of 64-bit
    integers are finite, so infinities and NaN do not occur. *)
Definition double_value (x : spec_float) : Q :=
  match x with
  | S754_finite s m e =>
      let v := if s then Z.neg m else Z.pos m in
      match e with
      | Z0 => inject_Z v
      | Zpos p => inject_Z (v * 2 ^ Zpos p)
      | Zneg p => v # (2 ^ p)
      end
  | _ => 0%Q
  end.

(** [rSum += v] for every input in turn, from [0.0]. *)
Definition double_sum (vs : list Z) : spec_float :=
  fold_left (fun acc v => SFadd 53 1024 acc (double_of_int v)) vs (S754_zero false).

(** [rSum / (double)cnt]. *)
Definition double_avg (vs : list Z) : Q :=
  double_value (SFdiv 53 1024 (double_sum vs) (double_of_int (Z.of_nat (List.length vs)))).

(** [AVG(x)]: NULL inputs are skipped, a group without a non-NULL input
    yields NULL, and the average of integers is the double SQLite's
    [avgFinalize] returns: the running double sum of the inputs, in the
    order of the scan, over their number.  (From SQLite 3.44 on the sum of
    integers is kept as a 64-bit integer and converted once; the two agree
    whenever the running sums stay within 2^53.) *)
Definition sql_avg (xs : list (option Z)) : option Q :=
  match non_null xs with
  | [] => None
  | vs => Some (double_avg vs)
  end.

Record agg_row : Type := {
  ag_style : string;
  ag_avg : option Q;
  ag_count : nat
}.

(** [WHERE lesson_id = ?]: the records of one lesson, in rowid order; an id
    outside the 64-bit range is the id of no record. *)
Definition lesson_dialogues (lesson_id : Z) (d : db) : list dialogue_row :=
  if fits_int64 lesson_id
  then filter (fun r => sd_lesson_id r =? lesson_id) (socratic_dialogues d)
  else [].

Definition style_group (style : string) (rows : list dialogue_row) : list dialogue_row :=
  filter (fun r => (sd_style r =? style)%string) rows.

Definition distinct_styles (rows : list dialogue_row) : list string :=
  nodup string_dec (map sd_style rows).

(** [GROUP BY style] with the two aggregates the statement uses. *)
Definition group_by_style (rows : list dialogue_row) : list agg_row :=
  map (fun s =>
         let g := style_group s rows in
         {| ag_style := s;
            ag_avg := sql_avg (map sd_understanding_score g);
            ag_count := List.length g |})
      (distinct_styles rows).

(** [avg_score DESC]: SQLite orders NULL below every number, so NULL
    averages come last. *)
Definition avg_desc (a b : option Q) : comparison :=
  match a, b with
  | Some x, Some y => (y ?= x)%Q
  | Some _, None => Lt
  | None, Some _ => Gt
  | None, None => Eq
  end.

(** [ORDER BY avg_score DESC, COUNT(id) DESC]. *)
Definition order_by (a b : agg_row) : comparison :=
  match avg_desc (ag_avg a) (ag_avg b) with
  | Eq => Nat.compare (ag_count b) (ag_count a)
  | c => c
  end.

Definition sorts_before (a b : agg_row) : bool :=
  match order_by a b with Gt => false | _ => true end.

Fixpoint insert_sorted (r : agg_row) (l : list agg_row) : list agg_row :=
  match l with
  | [] => [r]
  | x :: l' => if sorts_before r x then r :: l else x :: insert_sorted r l'
  end.

(** The sorter; rows that compare equal keep their relative order (SQL
    leaves their order open). *)
Definition sort_rows (l : list agg_row) : list agg_row :=
  fold_right insert_sorted [] l.

(** The whole statement followed by [fetchone()]. *)
Definition sql_style_averages (lesson_id : Z) (d : db) : option (string * option Q) :=
  match sort_rows (group_by_style (lesson_dialogues lesson_id d)) with
  | [] => None
  | r :: _ => Some (ag_style r, ag_avg r)
  end.

(** ** Request handlers as trees of atomic actions *)

(** One constructor per statement or collaborator call of the backend, in
    the order of appearance in the source; the index is the type of the
    answer. *)
Inductive action : Type -> Type :=
| SelectCachedContent (lesson_id : Z) (style : string)
    : action (option (string * string * option string))
| InsertGeneratedContent (row : content_row) : action unit
| SelectLessonTitle (lesson_id : Z) : action (option string)
| SelectLesson (lesson_id : Z) : action (option (string * string))
| DeleteLesson (lesson_id : Z) : action unit
| InsertDialogue (lesson_id : Z) (session_id style history : string) (score : Z)
    : action unit
| SelectStyleAverages (lesson_id : Z) : action (option (string * option Q))
| ChatCompletion (model : string) (messages : list (string * string)) : action string
| ImagesGenerate (model prompt : string) : action string
| SpeechToFile (model voice input : string) : action string
| GraderInvoke (prompt : string) : action string.

Inductive event : Type :=
| Ev {X : Type} (a : action X).

Inductive prog (A : Type) : Type :=
| Ret (a : A)
| Throw (e : exn)
| Step {X : Type} (a : action X) (k : res X -> prog A).
Arguments Ret {A} a.
Arguments Throw {A} e.
Arguments Step {A X} a k.

Fixpoint bind {A B : Type} (p : prog A) (f : A -> prog B) : prog B :=
  match p with
  | Ret a => f a
  | Throw e => Throw e
  | Step a k => Step a (fun r => bind (k r) f)
  end.

(** [try: p  except Exception as e: h e]. *)
Fixpoint try_except {A : Type} (p : prog A) (h : exn -> prog A) : prog A :=
  match p with
  | Ret a => Ret a
  | Throw e => h e
  | Step a k => Step a (fun r => try_except (k r) h)
  end.

(** Run one action and raise what it raises. *)
Definition perform {X : Type} (a : action X) : prog X :=
  Step a (fun r => match r with Ok x => Ret x | Raise e => Throw e end).

Declare Scope prog_scope.
Delimit Scope prog_scope with prog.
Notation "x <- p ;; q" := (bind p (fun x => q))
  (at level 61, p at next level, right associativity) : prog_scope.
Notation "p ;;; q" := (bind p (fun _ => q))
  (at level 61, right associativity) : prog_scope.
Local Open Scope prog_scope.

(** The OpenAI collaborators.  Each answer may depend on the time of the
    call (the number of events before it), so two calls with equal
    arguments may answer differently. *)
Record oracle : Type := {
  chat_completion : nat -> string -> list (string * string) -> res string;
  images_generate : nat -> string -> string -> res string;
  speech_to_file : nat -> string -> string -> string -> res string;
  grader_invoke : nat -> string -> res string
}.

(** The trace lists the events performed so far, newest first. *)
Record world : Type := {
  store : db;
  trace : list event
}.

Definition clock (w : world) : nat := List.length (trace w).

(** The answer to one action at time [t] and the store it leaves.  A
    statement that binds a lesson id outside the 64-bit range raises
    [OverflowError] before it runs, and the store is as it was. *)
Definition handle (orc : oracle) {X : Type} (a : action X) (t : nat) (d : db)
  : res X * db :=
  match a in action X0 return res X0 * db with
  | SelectCachedContent l s => binding l d (Ok (sql_select_cached l s d), d)
  | InsertGeneratedContent r => sql_insert_content r d
  | SelectLessonTitle l => binding l d (Ok (sql_select_lesson_title l d), d)
  | SelectLesson l => binding l d (Ok (sql_select_lesson l d), d)
  | DeleteLesson l => binding l d (Ok tt, sql_delete_lesson l d)
  | InsertDialogue l sid s h sc => sql_insert_dialogue l sid s h sc d
  | SelectStyleAverages l => binding l d (Ok (sql_style_averages l d), d)
  | ChatCompletion m msgs => (chat_completion orc t m msgs, d)
  | ImagesGenerate m p => (images_generate orc t m p, d)
  | SpeechToFile m v i => (speech_to_file orc t m v i, d)
  | GraderInvoke p => (grader_invoke orc t p, d)
  end.

(** [exec orc env p w] runs [p] from [w].  Before the action performed at
    time [t] the other requests in flight change the store by [env t]. *)
Fixpoint exec (orc : oracle) (env : nat -> db -> db) {A : Type} (p : prog A) (w : world)
  : res A * world :=
  match p with
  | Ret a => (Ok a, w)
  | Throw e => (Raise e, w)
  | Step a k =>
      let '(r, d) := handle orc a (clock w) (env (clock w) (store w)) in
      exec orc env (k r) {| store := d; trace := Ev a :: trace w |}
  end.

Definition alone : nat -> db -> db := fun _ d => d.

(** A request served with no other request in flight. *)
Definition run (orc : oracle) {A : Type} (p : prog A) (w : world) : res A * world :=
  exec orc alone p w.

Definition is_generation (e : event) : bool :=
  match e with
  | Ev (ChatCompletion _ _) | Ev (ImagesGenerate _ _) | Ev (SpeechToFile _ _ _)
  | Ev (GraderInvoke _) => true
  | Ev _ => false
  end.

Definition is_cache_read (e : event) : bool :=
  match e with
  | Ev (SelectCachedContent _ _) => true
  | Ev _ => false
  end.

(** ** The backend *)

Definition nl : string := String (ascii_of_nat 10) "".

Record cached : Type := {
  content_type : string;
  data : json;
  quiz_data : json
}.

Record AdaptationRequest : Type := {
  ar_lesson_id : Z;
  ar_style : string
}.

Record SocraticRequest : Type := {
  sr_lesson_id : Z;
  sr_style : string;
  sr_chat_history : list json
}.

Record adapted_content : Type := {
  ac_lesson_id : Z;
  ac_lesson_title : string;
  ac_learning_style : string;
  ac_content_type : string;
  ac_data : json
}.

Record SocraticState : Type := {
  st_lesson_title : string;
  st_lesson_text : string;
  st_chat_history : list json;
  st_understanding_score : Z
}.

Section Backend.
Context {py : PyLib}.

Definition loads (s : string) : prog json :=
  match json_loads s with
  | Some v => Ret v
  | None => Throw JSONDecodeError
  end.

Definition py_int (s : string) : prog Z :=
  match int_of_str s with
  | Some n => Ret n
  | None => Throw ValueError
  end.

(** *** database.py *)

Definition get_cached_content (lesson_id : Z) (style : string) : prog (option cached) :=
  result <- perform (SelectCachedContent lesson_id style) ;;
  match result with
  | Some (r0, r1, r2) =>
      quiz <- match r2 with
              | Some q => if str_truthy q then loads q else Ret JNull
              | None => Ret JNull
              end ;;
      d <- loads r1 ;;
      Ret (Some {| content_type := r0; data := d; quiz_data := quiz |})
  | None => Ret None
  end.

Definition cache_content (lesson_id : Z) (style content_type : string)
    (data quiz_data : json) : prog unit :=
  try_except
    (let data_json := json_dumps data in
     let quiz_json := if truthy quiz_data then Some (json_dumps quiz_data) else None in
     perform (InsertGeneratedContent
                {| gc_lesson_id := lesson_id; gc_style := style;
                   gc_content_type := content_type; gc_data := data_json;
                   gc_quiz_data := quiz_json |}))
    (fun e => match e with
              | IntegrityError => Ret tt
              | _ => Throw e
              end).

(** *** main.py *)

Definition generate_text_from_gpt (prompt : string) : prog string :=
  perform (ChatCompletion "gpt-4o"
             [("system", "You are a helpful AI assistant."); ("user", prompt)]).

Definition generate_image_from_dalle (prompt : string) : prog string :=
  perform (ImagesGenerate "dall-e-3" prompt).

Definition generate_audio_from_openai (prompt : string) : prog json :=
  script_text <- generate_text_from_gpt prompt ;;
  file_name <- perform (SpeechToFile "tts-1" "alloy" script_text) ;;
  let audio_url := "/temp_audio/" ++ file_name in
  Ret (JDict [("url", JStr audio_url); ("transcript", JStr script_text)]).

Definition delete_lesson (lesson_id : Z) : prog unit :=
  perform (DeleteLesson lesson_id).

(** Lines 176-190 of [generate_adapted_content]: the generation step, which
    the specification calls [generate_fn]. *)
Definition generate_fn (style original_text : string) : prog (string * json) :=
  if (style =? "Visual")%string then
    let prompt := "Based on the following text, create a simple, clear educational infographic. Text: '"
                  ++ original_text ++ "'" in
    url <- generate_image_from_dalle prompt ;;
    Ret ("image", JDict [("url", JStr url)])
  else if (style =? "Auditory")%string then
    let prompt := "Based on the following text, create a short, engaging audio script. Text: '"
                  ++ original_text ++ "'" in
    content_data <- generate_audio_from_openai prompt ;;
    Ret ("audio", content_data)
  else
    let prompt := "Rewrite the following text in a clear, well-structured format. Text: '"
                  ++ original_text ++ "'" in
    text <- generate_text_from_gpt prompt ;;
    Ret ("text", JDict [("text", JStr text)]).

(** Lines 156-164: the cache path. *)
Definition serve_from_cache (lesson_id : Z) (style : string) (c : cached)
  : prog adapted_content :=
  lesson_title_tuple <- perform (SelectLessonTitle lesson_id) ;;
  let lesson_title := match lesson_title_tuple with
                      | Some t => t
                      | None => "Unknown Topic"
                      end in
  Ret {| ac_lesson_id := lesson_id; ac_lesson_title := lesson_title;
         ac_learning_style := style; ac_content_type := content_type c;
         ac_data := data c |}.

(** Lines 166-194: the path taken after a cache miss. *)
Definition generate_and_cache (lesson_id : Z) (style : string) : prog adapted_content :=
  lesson_row <- perform (SelectLesson lesson_id) ;;
  match lesson_row with
  | None => Throw (HTTPException 404 "Lesson not found")
  | Some (lesson_title, original_text) =>
      generated <- generate_fn style original_text ;;
      let '(content_type, content_data) := generated in
      cache_content lesson_id style content_type content_data JNull ;;;
      Ret {| ac_lesson_id := lesson_id; ac_lesson_title := lesson_title;
             ac_learning_style := style; ac_content_type := content_type;
             ac_data := content_data |}
  end.

Definition generate_adapted_content (request : AdaptationRequest) : prog adapted_content :=
  let lesson_id := ar_lesson_id request in
  let style := ar_style request in
  c <- get_cached_content lesson_id style ;;
  match c with
  | Some hit => serve_from_cache lesson_id style hit
  | None => generate_and_cache lesson_id style
  end.

Definition grader_prompt_of (chat_history : list json) : string :=
  nl ++ "    Based on the following conversation, rate the student's understanding on a scale of 1 to 5."
  ++ nl ++ "    Respond ONLY with a single number."
  ++ nl ++ "    Conversation: " ++ json_dumps_indent2 (JList chat_history)
  ++ nl ++ "    ".

Definition grade_conversation (request : SocraticRequest) : prog Z :=
  let grader_prompt := grader_prompt_of (sr_chat_history request) in
  try_except
    (score_str <- generate_text_from_gpt grader_prompt ;;
     score <- py_int score_str ;;
     perform (InsertDialogue (sr_lesson_id request) "session_placeholder"
                (sr_style request) (json_dumps (JList (sr_chat_history request)))
                score) ;;;
     Ret score)
    (fun _ => Ret 0).

Definition recommend_style (lesson_id : Z) : prog (option string) :=
  result <- perform (SelectStyleAverages lesson_id) ;;
  match result with
  | Some (style, avg_score) =>
      match avg_score with
      | Some a => if Qle_bool 4 a then Ret (Some style) else Ret None
      | None => Throw TypeError
      end
  | None => Ret None
  end.

(** *** socratic_graph.py *)

Definition grader_node (state : SocraticState) : prog SocraticState :=
  let grader_prompt :=
    nl ++ "    Based on the following conversation, rate the student's understanding on a scale of 1 to 5 (1=no understanding, 5=excellent)."
    ++ nl ++ "    Respond ONLY with a single number."
    ++ nl ++ "    Conversation: " ++ json_dumps_indent2 (JList (st_chat_history state))
    ++ nl ++ "    " in
  content <- perform (GraderInvoke grader_prompt) ;;
  score <- try_except (py_int content)
             (fun e => match e with ValueError => Ret 0 | _ => Throw e end) ;;
  Ret {| st_lesson_title := st_lesson_title state;
         st_lesson_text := st_lesson_text state;
         st_chat_history := st_chat_history state;
         st_understanding_score := score |}.

End Backend.

(** ** A reference instance of the library interface

    Python's [json.dumps] (default separators and [ensure_ascii], and
    [indent=2]), [json.loads] and [int(s.strip())], used to evaluate the
    backend on concrete requests.  A character of a [string] stands for
    the code point of its number, so the strings are those over the code
    points below 256; numbers are integers. *)
Module PyRef.

Definition dq : ascii := ascii_of_nat 34.
Definition bs : ascii := ascii_of_nat 92.
Definition dq_s : string := String dq "".
Definition bs_s : string := String bs "".

Definition hex_digit (n : nat) : ascii :=
  if (n <? 10)%nat then ascii_of_nat (48 + n) else ascii_of_nat (87 + n).

(** [ensure_ascii=True]: every character outside the printable ASCII range
    is escaped. *)
Definition escape_char (c : ascii) : string :=
  let n := nat_of_ascii c in
  if (c =? dq)%char then bs_s ++ dq_s
  else if (c =? bs)%char then bs_s ++ bs_s
  else if (n =? 10)%nat then bs_s ++ "n"
  else if (n =? 13)%nat then bs_s ++ "r"
  else if (n =? 9)%nat then bs_s ++ "t"
  else if (n =? 8)%nat then bs_s ++ "b"
  else if (n =? 12)%nat then bs_s ++ "f"
  else if ((n <? 32) || (126 <? n))%nat
       then bs_s ++ "u00" ++ String (hex_digit (n / 16)) (String (hex_digit (n mod 16)) "")
  else String c "".

Fixpoint escape (s : string) : string :=
  match s with
  | EmptyString => ""
  | String c s' => escape_char c ++ escape s'
  end.

Definition quote (s : string) : string := dq_s ++ escape s ++ dq_s.

(** [str(n)] for an [int]: the decimal digits, after a minus sign for a
    negative number. *)
Definition string_of_Z (n : Z) : string :=
  DecimalString.NilZero.string_of_int (Z.to_int n).

Fixpoint spaces (n : nat) : string :=
  match n with
  | O => ""
  | S m => " " ++ spaces m
  end.

Fixpoint join (sep : string) (l : list string) : string :=
  match l with
  | [] => ""
  | [x] => x
  | x :: l' => x ++ sep ++ join sep l'
  end.

(** [indent = None] is [json.dumps(v)]; [indent = Some k] is
    [json.dumps(v, indent=k)]. *)
Fixpoint dumps_at (indent : option nat) (level : nat) (v : json) : string :=
  let inner := match indent with
               | Some k => nl ++ spaces (k * S level)
               | None => ""
               end in
  let outer := match indent with
               | Some k => nl ++ spaces (k * level)
               | None => ""
               end in
  let item_sep := match indent with
                  | Some _ => "," ++ inner
                  | None => ", "
                  end in
  match v with
  | JNull => "null"
  | JBool true => "true"
  | JBool false => "false"
  | JInt n => string_of_Z n
  | JStr s => quote s
  | JList [] => "[]"
  | JList items =>
      "[" ++ inner ++ join item_sep (map (dumps_at indent (S level)) items)
      ++ outer ++ "]"
  | JDict [] => "{}"
  | JDict items =>
      "{" ++ inner
      ++ join item_sep
           (map (fun kv => quote (fst kv) ++ ": " ++ dumps_at indent (S level) (snd kv))
                items)
      ++ outer ++ "}"
  end.

Definition dumps (v : json) : string := dumps_at None 0 v.
Definition dumps_indent2 (v : json) : string := dumps_at (Some 2%nat) 0 v.

Definition is_json_space (c : ascii) : bool :=
  let n := nat_of_ascii c in
  ((n =? 32) || (n =? 9) || (n =? 10) || (n =? 13))%nat.

Fixpoint skip_ws (s : string) : string :=
  match s with
  | String c s' => if is_json_space c then skip_ws s' else s
  | EmptyString => s
  end.

Definition is_digit (c : ascii) : bool :=
  let n := nat_of_ascii c in ((48 <=? n) && (n <=? 57))%nat.

Definition digit_val (c : ascii) : Z := Z.of_nat (nat_of_ascii c - 48).

Definition hex_val (c : ascii) : option nat :=
  let n := nat_of_ascii c in
  if ((48 <=? n) && (n <=? 57))%nat then Some (n - 48)%nat
  else if ((97 <=? n) && (n <=? 102))%nat then Some (n - 87)%nat
  else if ((65 <=? n) && (n <=? 70))%nat then Some (n - 55)%nat
  else None.

Inductive str_state : Type :=
| Plain
| AfterBackslash
| InHex (remaining acc : nat).

Definition cons_char (c : ascii) (r : option (string * string)) : option (string * string) :=
  match r with
  | Some (t, rest) => Some (String c t, rest)
  | None => None
  end.

(** The characters after an opening quote, up to the closing one; an
    escape of a code point from 256 on has no character to stand for it
    and is not decoded. *)
Fixpoint parse_chars (st : str_state) (s : string) : option (string * string) :=
  match s with
  | EmptyString => None
  | String c s' =>
      match st with
      | Plain =>
          if (c =? dq)%char then Some ("", s')
          else if (c =? bs)%char then parse_chars AfterBackslash s'
          else if (nat_of_ascii c <? 32)%nat then None
          else cons_char c (parse_chars Plain s')
      | AfterBackslash =>
          if (c =? dq)%char then cons_char dq (parse_chars Plain s')
          else if (c =? bs)%char then cons_char bs (parse_chars Plain s')
          else if (c =? "/")%char then cons_char "/" (parse_chars Plain s')
          else if (c =? "n")%char then cons_char (ascii_of_nat 10) (parse_chars Plain s')
          else if (c =? "r")%char then cons_char (ascii_of_nat 13) (parse_chars Plain s')
          else if (c =? "t")%char then cons_char (ascii_of_nat 9) (parse_chars Plain s')
          else if (c =? "b")%char then cons_char (ascii_of_nat 8) (parse_chars Plain s')
          else if (c =? "f")%char then cons_char (ascii_of_nat 12) (parse_chars Plain s')
          else if (c =? "u")%char then parse_chars (InHex 4 0) s'
          else None
      | InHex k acc =>
          match hex_val c, k with
          | Some h, S O =>
              if (16 * acc + h <? 256)%nat
              then cons_char (ascii_of_nat (16 * acc + h)) (parse_chars Plain s')
              else None
          | Some h, S k' => parse_chars (InHex k' (16 * acc + h)) s'
          | _, _ => None
          end
      end
  end.

Fixpoint parse_digits (s : string) (acc : Z) : Z * string :=
  match s with
  | String c s' => if is_digit c then parse_digits s' (10 * acc + digit_val c) else (acc, s)
  | EmptyString => (acc, s)
  end.

(** JSON integers: an optional minus sign, then [0] or a digit string
    without a leading zero. *)
Definition parse_number (s : string) : option (Z * string) :=
  let unsigned (t : string) :=
    match t with
    | String c t' =>
        if (c =? "0")%char then
          match t' with
          | String c' _ => if is_digit c' then None else Some (0, t')
          | EmptyString => Some (0, t')
          end
        else if is_digit c then Some (parse_digits t' (digit_val c))
        else None
    | EmptyString => None
    end in
  match s with
  | String c s' =>
      if (c =? "-")%char
      then match unsigned s' with
           | Some (n, r) => Some (- n, r)
           | None => None
           end
      else unsigned s
  | EmptyString => None
  end.

Fixpoint expect (word s : string) : option string :=
  match word, s with
  | EmptyString, _ => Some s
  | String a w', String b s' => if (a =? b)%char then expect w' s' else None
  | String _ _, EmptyString => None
  end.

(** [d[k] = v] on the items of a [dict]: a key met again keeps its place
    and takes the new value. *)
Fixpoint dict_set (k : string) (v : json) (items : list (string * json))
  : list (string * json) :=
  match items with
  | [] => [(k, v)]
  | (k', v') :: rest =>
      if (k' =? k)%string then (k', v) :: rest else (k', v') :: dict_set k v rest
  end.

(** [dict(pairs)]. *)
Definition dict_of_pairs (pairs : list (string * json)) : list (string * json) :=
  fold_left (fun items kv => dict_set (fst kv) (snd kv) items) pairs [].

(** The text after optional whitespace and the character [c], if [c]
    comes next. *)
Definition closes (c : ascii) (s : string) : option string :=
  match skip_ws s with
  | String c' r => if (c' =? c)%char then Some r else None
  | EmptyString => None
  end.

Fixpoint parse_value (fuel : nat) (s : string) : option (json * string) :=
  match fuel with
  | O => None
  | S f =>
      match skip_ws s with
      | EmptyString => None
      | String c rest =>
          if (c =? "n")%char then option_map (pair JNull) (expect "ull" rest)
          else if (c =? "t")%char then option_map (pair (JBool true)) (expect "rue" rest)
          else if (c =? "f")%char then option_map (pair (JBool false)) (expect "alse" rest)
          else if (c =? dq)%char then
            match parse_chars Plain rest with
            | Some (t, r) => Some (JStr t, r)
            | None => None
            end
          else if (c =? "[")%char then
            match closes "]" rest with
            | Some r => Some (JList [], r)
            | None => match parse_items f rest with
                      | Some (items, r) => Some (JList items, r)
                      | None => None
                      end
            end
          else if (c =? "{")%char then
            match closes "}" rest with
            | Some r => Some (JDict [], r)
            | None => match parse_members f rest with
                      | Some (pairs, r) => Some (JDict (dict_of_pairs pairs), r)
                      | None => None
                      end
            end
          else match parse_number (String c rest) with
               | Some (n, r) => Some (JInt n, r)
               | None => None
               end
      end
  end
with parse_items (fuel : nat) (s : string) : option (list json * string) :=
  match fuel with
  | O => None
  | S f =>
      match parse_value f s with
      | Some (v, r) =>
          match closes "," r with
          | Some r' =>
              match parse_items f r' with
              | Some (vs, r'') => Some (v :: vs, r'')
              | None => None
              end
          | None =>
              match closes "]" r with
              | Some r' => Some ([v], r')
              | None => None
              end
          end
      | None => None
      end
  end
with parse_members (fuel : nat) (s : string) : option (list (string * json) * string) :=
  match fuel with
  | O => None
  | S f =>
      match closes dq s with
      | Some rest =>
          match parse_chars Plain rest with
          | Some (k, r) =>
              match closes ":" r with
              | Some r1 =>
                  match parse_value f r1 with
                  | Some (v, r2) =>
                      match closes "," r2 with
                      | Some r3 =>
                          match parse_members f r3 with
                          | Some (kvs, r4) => Some ((k, v) :: kvs, r4)
                          | None => None
                          end
                      | None =>
                          match closes "}" r2 with
                          | Some r3 => Some ([(k, v)], r3)
                          | None => None
                          end
                      end
                  | None => None
                  end
              | None => None
              end
          | None => None
          end
      | None => None
      end
  end.

Definition loads (s : string) : option json :=
  match parse_value (S (String.length s)) s with
  | Some (v, r) => match skip_ws r with
                   | EmptyString => Some v
                   | _ => None
                   end
  | None => None
  end.

(** [str.strip()]: the characters [str.isspace] accepts below code point
    256. *)
Definition is_py_space (c : ascii) : bool :=
  let n := nat_of_ascii c in
  ((n =? 32) || ((9 <=? n) && (n <=? 13)) || ((28 <=? n) && (n <=? 31))
   || (n =? 133) || (n =? 160))%nat.

Fixpoint lstrip (s : string) : string :=
  match s with
  | String c s' => if is_py_space c then lstrip s' else s
  | EmptyString => s
  end.

Fixpoint rstrip (s : string) : string :=
  match s with
  | String c s' =>
      match rstrip s' with
      | EmptyString => if is_py_space c then "" else String c ""
      | t => String c t
      end
  | EmptyString => s
  end.

Definition strip (s : string) : string := rstrip (lstrip s).

(** Digits of a decimal [int] literal; single underscores may separate
    digits. *)
Fixpoint int_digits (s : string) (acc : Z) (after_underscore : bool) : option Z :=
  match s with
  | EmptyString => if after_underscore then None else Some acc
  | String c s' =>
      if is_digit c then int_digits s' (10 * acc + digit_val c) false
      else if (c =? "_")%char
           then if after_underscore then None else int_digits s' acc true
      else None
  end.

Fixpoint count_digits (s : string) : nat :=
  match s with
  | EmptyString => O
  | String c s' => if is_digit c then S (count_digits s') else count_digits s'
  end.

(** CPython converts a decimal string of more than 4300 digits to an
    [int] only on request ([sys.set_int_max_str_digits]) and raises
    [ValueError] otherwise. *)
Definition int_max_str_digits : nat := 4300.

Definition int_literal (s : string) : option Z :=
  match s with
  | String c s' =>
      if is_digit c
      then if (int_max_str_digits <? count_digits s)%nat then None
           else int_digits s' (digit_val c) false
      else None
  | EmptyString => None
  end.

(** [int(s.strip())]. *)
Definition int_of_stripped (s : string) : option Z :=
  match strip s with
  | String c r =>
      if (c =? "-")%char then option_map Z.opp (int_literal r)
      else if (c =? "+")%char then int_literal r
      else int_literal (String c r)
  | EmptyString => None
  end.

#[export] Instance lib : PyLib := {|
  json_dumps := dumps;
  json_dumps_indent2 := dumps_indent2;
  json_loads := loads;
  int_of_str := int_of_stripped
|}.

End PyRef.

(** ** Vocabulary of the statements *)

Definition world_of (d : db) : world := {| store := d; trace := [] |}.

(** The world after one more event that left the store as it was. *)
Definition logged {X : Type} (a : action X) (w : world) : world :=
  {| store := store w; trace := Ev a :: trace w |}.

Definition generation_calls (w : world) : list event := filter is_generation (trace w).
Definition cache_reads (w : world) : list event := filter is_cache_read (trace w).

(** Rows of the content cache stored under one key. *)
Definition key_rows (lesson_id : Z) (style : string) (d : db) : list content_row :=
  filter (content_key_is lesson_id style) (generated_content d).

(** Dialogue records present in [w'] beyond those of [w]. *)
Definition appended_dialogues (w w' : world) : list dialogue_row :=
  skipn (List.length (socratic_dialogues (store w))) (socratic_dialogues (store w')).

(** The record [grade_conversation] inserts for a parsed score. *)
Definition graded_record {py : PyLib} (request : SocraticRequest) (score : Z) : dialogue_row :=
  {| sd_lesson_id := sr_lesson_id request;
     sd_session_id := "session_placeholder";
     sd_style := sr_style request;
     sd_conversation_history := json_dumps (JList (sr_chat_history request));
     sd_understanding_score := Some score |}.

(** The answer of the grading collaborator to a grading request made at
    time [t]. *)
Definition grader_answer {py : PyLib} (orc : oracle) (t : nat) (request : SocraticRequest)
  : res string :=
  chat_completion orc t "gpt-4o"
    [("system", "You are a helpful AI assistant.");
     ("user", grader_prompt_of (sr_chat_history request))].

Definition record_count (lesson_id : Z) (style : string) (d : db) : nat :=
  List.length (style_group style (lesson_dialogues lesson_id d)).

Definition score_total (lesson_id : Z) (style : string) (d : db) : Z :=
  sum_Z (non_null (map sd_understanding_score
                       (style_group style (lesson_dialogues lesson_id d)))).

(** Mean understanding score of the records of one lesson and style. *)
Definition mean_score (lesson_id : Z) (style : string) (d : db) : Q :=
  inject_Z (score_total lesson_id style d) / inject_Z (Z.of_nat (record_count lesson_id style d)).

(** SQLite's average of the scores of one lesson and style: the double
    [AVG(understanding_score)] yields for that group. *)
Definition double_mean (lesson_id : Z) (style : string) (d : db) : Q :=
  double_avg (non_null (map sd_understanding_score
                          (style_group style (lesson_dialogues lesson_id d)))).

(** The double [rSum / (double)cnt] for an integer sum and a count. *)
Definition double_quotient (t : Z) (n : nat) : Q :=
  double_value (SFdiv 53 1024 (double_of_int t) (double_of_int (Z.of_nat n))).

Definition same_double (x y : spec_float) : bool :=
  match x, y with
  | S754_zero a, S754_zero b => Bool.eqb a b
  | S754_infinity a, S754_infinity b => Bool.eqb a b
  | S754_nan, S754_nan => true
  | S754_finite a m e, S754_finite b m' e' => Bool.eqb a b && Pos.eqb m m' && Z.eqb e e'
  | _, _ => false
  end.

(** The integers from 0 to [n]. *)
Definition upto (n : nat) : list Z := map Z.of_nat (seq 0 (S n)).

(** Adding the score [b] to the running sum [a] is exact in doubles. *)
Definition sum_exact_at (a b : Z) : bool :=
  same_double (SFadd 53 1024 (double_of_int a) (double_of_int b)) (double_of_int (a + b)).

(** The double average of [n] scores of sum [t] is at least 4, or at most
    3, exactly when [t] is at least 4 times, or at most 3 times, [n]. *)
Definition quotient_agrees_at (n : nat) (t : Z) : bool :=
  Bool.eqb (Qle_bool 4 (double_quotient t n)) (4 * Z.of_nat n <=? t)
  && Bool.eqb (Qle_bool (double_quotient t n) 3) (t <=? 3 * Z.of_nat n).

(** The records of one lesson and style are at most 100 and their scores
    lie between 0 and 5: the scores the grader is asked for, and the
    sentinel. *)
Definition nominal (lesson_id : Z) (style : string) (d : db) : Prop :=
  (record_count lesson_id style d <= 100)%nat /\
  Forall (fun r => exists n, sd_understanding_score r = Some n /\ 0 <= n <= 5)
         (style_group style (lesson_dialogues lesson_id d)).

(** Every record of the lesson carries a score. *)
Definition graded (lesson_id : Z) (d : db) : Prop :=
  Forall (fun r => sd_understanding_score r <> None) (lesson_dialogues lesson_id d).

(** What [get_cached_content] reads back for a [quiz_data] argument of
    [cache_content]. *)
Definition stored_quiz (quiz_data : json) : json :=
  if truthy quiz_data then quiz_data else JNull.

(** The row [cache_content] tries to insert. *)
Definition content_row_of {py : PyLib} (lesson_id : Z) (style content_type : string)
    (data quiz_data : json) : content_row :=
  {| gc_lesson_id := lesson_id; gc_style := style; gc_content_type := content_type;
     gc_data := json_dumps data;
     gc_quiz_data := if truthy quiz_data then Some (json_dumps quiz_data) else None |}.

Fixpoint distinct (keys : list string) : bool :=
  match keys with
  | [] => true
  | k :: rest => negb (existsb (String.eqb k) rest) && distinct rest
  end.

(** The terms of [json] that stand for a Python value [json.dumps]
    prints and [json.loads] reads under CPython's default limits: a [dict]
    holds a key once, an [int] has at most 4300 decimal digits
    ([sys.get_int_max_str_digits]), and the nesting stays far below the
    recursion limit, here within [depth] levels. *)
Fixpoint within_limits (depth : nat) (v : json) : bool :=
  match v with
  | JNull | JBool _ | JStr _ => true
  | JInt n => Z.abs n <? 10 ^ 4300
  | JList items =>
      match depth with
      | O => false
      | S k => forallb (within_limits k) items
      end
  | JDict items =>
      match depth with
      | O => false
      | S k => distinct (map fst items)
               && forallb (fun kv => within_limits k (snd kv)) items
      end
  end.

Definition serializable (v : json) : Prop := within_limits 100 v = true.

(** Number of values and items of a term: the calls [json.loads] nests to
    read it. *)
Fixpoint json_size (v : json) : nat :=
  match v with
  | JList items => S (fold_right (fun x n => S (json_size x + n)) 0%nat items)
  | JDict items => S (fold_right (fun kv n => S (json_size (snd kv) + n)) 0%nat items)
  | _ => 1%nat
  end.

(** The text does not go on with a digit. *)
Definition no_digit_head (s : string) : Prop :=
  match s with
  | String c _ => PyRef.is_digit c = false
  | EmptyString => True
  end.

(** [a] is placed no later than [b] by the [ORDER BY] clause. *)
Definition ranks_no_later (a b : agg_row) : Prop :=
  match ag_avg a, ag_avg b with
  | Some x, Some y => (y < x)%Q \/ ((y == x)%Q /\ (ag_count b <= ag_count a)%nat)
  | Some _, None => True
  | None, Some _ => False
  | None, None => (ag_count b <= ag_count a)%nat
  end.

(** *** Concrete requests and collaborators *)

Definition always (answer : res string) : oracle :=
  {| chat_completion := fun _ _ _ => answer;
     images_generate := fun _ _ _ => answer;
     speech_to_file := fun _ _ _ _ => answer;
     grader_invoke := fun _ _ => answer |}.

Definition cell_lesson : lesson_row :=
  {| l_id := 7; l_lesson_title := "What is a Cell?"; l_course_id := 1;
     l_original_text := "A cell is the basic unit of life." |}.

Definition one_lesson : db :=
  {| lessons := [cell_lesson]; generated_content := []; socratic_dialogues := [] |}.

Definition visual_request : AdaptationRequest := {| ar_lesson_id := 7; ar_style := "Visual" |}.

Definition grading_request : SocraticRequest :=
  {| sr_lesson_id := 7; sr_style := "Visual";
     sr_chat_history := [JList [JStr "assistant"; JStr "What is a cell?"];
                         JList [JStr "user"; JStr "The unit of life."]] |}.

Definition infographic : json := JDict [("url", JStr "https://img.example/cell.png")].

Definition cell_quiz : json :=
  JDict [("questions", JList [JDict [("q", JStr "What is a cell?"); ("answer", JInt 2)]])].

(** Another request that commits its own image for the same key just
    before this request's third action (time 2). *)
Definition rival_row : content_row :=
  {| gc_lesson_id := 7; gc_style := "Visual"; gc_content_type := "image";
     gc_data := "{" ++ PyRef.dq_s ++ "url" ++ PyRef.dq_s ++ ": "
                ++ PyRef.dq_s ++ "https://img.example/rival.png" ++ PyRef.dq_s ++ "}";
     gc_quiz_data := None |}.

Definition racing_writer : nat -> db -> db :=
  fun t d => if (t =? 2)%nat then snd (sql_insert_content rival_row d) else d.

Definition image_url : res string := Ok "https://img.example/cell.png".

(** The store after lesson 7 was adapted once for the Visual style and
    then deleted. *)
Definition cached_world : world :=
  snd (run (always image_url) (generate_adapted_content (py := PyRef.lib) visual_request)
         (world_of one_lesson)).

Definition orphan_world : world :=
  snd (run (always image_url) (delete_lesson 7) cached_world).

Definition scored (lesson_id : Z) (style : string) (score : Z) : dialogue_row :=
  {| sd_lesson_id := lesson_id; sd_session_id := "session_placeholder";
     sd_style := style; sd_conversation_history := "[]";
     sd_understanding_score := Some score |}.

(** The logs of section 8 of the specification: lesson 1 has Visual
    5, 5, 4, 5 and Auditory 3, 2; lesson 2 has Visual 3, 4; lesson 3 has
    A 4, 4 and B 4, 4, 4, 4; lesson 4 has no record. *)
Definition sample_log : db :=
  {| lessons := [];
     generated_content := [];
     socratic_dialogues :=
       [scored 1 "Visual" 5; scored 3 "A" 4; scored 1 "Auditory" 3; scored 2 "Visual" 3;
        scored 1 "Visual" 5; scored 3 "B" 4; scored 3 "B" 4; scored 1 "Visual" 4;
        scored 2 "Visual" 4; scored 3 "A" 4; scored 1 "Auditory" 2; scored 3 "B" 4;
        scored 1 "Visual" 5; scored 3 "B" 4] |}.

(** Two styles of lesson 1 with large scores: the exact means are
    2^51 + 1/3 for A and 2^51 + 1/2 for B. *)
Definition large_score_log : db :=
  {| lessons := [];
     generated_content := [];
     socratic_dialogues :=
       [scored 1 "A" (2 ^ 51); scored 1 "B" (2 ^ 51); scored 1 "A" (2 ^ 51);
        scored 1 "B" (2 ^ 51 + 1); scored 1 "A" (2 ^ 51 + 1)] |}.

Definition far_lesson_id : Z := 2 ^ 63.

(** *** Further vocabulary *)

(** No two rows of the content cache share a (lesson, style) key. *)
Definition unique_keys (d : db) : Prop :=
  NoDup (map (fun r => (gc_lesson_id r, gc_style r)) (generated_content d)).

(** The lesson has records and none of them carries a score. *)
Definition ungraded (lesson_id : Z) (d : db) : Prop :=
  lesson_dialogues lesson_id d <> [] /\
  Forall (fun r => sd_understanding_score r = None) (lesson_dialogues lesson_id d).

Definition audio_request : AdaptationRequest := {| ar_lesson_id := 7; ar_style := "Auditory" |}.

Definition other_lesson_grading : SocraticRequest :=
  {| sr_lesson_id := 2; sr_style := "Auditory"; sr_chat_history := [] |}.

Definition null_scored_log : db :=
  {| lessons := []; generated_content := [];
     socratic_dialogues :=
       [{| sd_lesson_id := 5; sd_session_id := "s"; sd_style := "Visual";
           sd_conversation_history := "[]"; sd_understanding_score := None |}] |}.

(** *** simulate_data.py

    [random.choice(seq)] is [seq[k]] for an index [k] below [len(seq)]
    drawn by the generator; [rng n] stands for the [n]-th draw of the
    run. *)
Definition random_choice {A : Type} (rng : nat -> nat) (n : nat) (seq : list A) (default : A)
  : A :=
  nth (rng n mod List.length seq) seq default.

Definition lessons_to_test : list Z := [1; 2; 3].
Definition num_students_per_group : nat := 50.
Definition sim_styles : list string := ["Visual"; "Auditory"; "Reading/Writing"].

(** [optimal_styles.get(lesson_id)]. *)
Definition optimal_styles (lesson_id : Z) : option string :=
  if lesson_id =? 1 then Some "Visual"
  else if lesson_id =? 2 then Some "Reading/Writing"
  else if lesson_id =? 3 then Some "Auditory"
  else None.

(** One pass of the inner loop: two draws and one INSERT.  The state is
    the number of draws made and the rows inserted so far. *)
Definition simulate_lesson {py : PyLib} (rng : nat -> nat) (i : nat)
    (acc : nat * list dialogue_row) (lesson_id : Z) : nat * list dialogue_row :=
  let '(n, rows) := acc in
  let session_id := "simulated_session_" ++ PyRef.string_of_Z (Z.of_nat i) in
  let chosen_style := random_choice rng n sim_styles "" in
  let is_optimal := match optimal_styles lesson_id with
                    | Some s => (chosen_style =? s)%string
                    | None => false
                    end in
  let score := if is_optimal then random_choice rng (S n) [4; 5] 0
               else random_choice rng (S n) [1; 2; 3] 0 in
  let conversation_history :=
    json_dumps (JList [JList [JStr "assistant"; JStr "What was the main idea?"];
                       JList [JStr "user";
                              JStr ("A simulated answer for style " ++ chosen_style ++ ".")]]) in
  (S (S n),
   (rows ++ [{| sd_lesson_id := lesson_id; sd_session_id := session_id;
                sd_style := chosen_style;
                sd_conversation_history := conversation_history;
                sd_understanding_score := Some score |}])%list).

Definition simulate_sessions {py : PyLib} (rng : nat -> nat) (sessions : list nat)
  : nat * list dialogue_row :=
  fold_left (fun acc i => fold_left (simulate_lesson rng i) lessons_to_test acc)
            sessions (0%nat, []).

(** [run_simulation]: [DELETE FROM socratic_dialogues], then the inserts of
    the loop, on one connection. *)
Definition run_simulation {py : PyLib} (rng : nat -> nat) (d : db) : db :=
  {| lessons := lessons d;
     generated_content := generated_content d;
     socratic_dialogues :=
       snd (simulate_sessions rng (seq 0 (num_students_per_group * 2))) |}.

(** What the simulation writes in every row. *)
Definition simulated_row (r : dialogue_row) : Prop :=
  In (sd_lesson_id r) lessons_to_test /\
  In (sd_style r) sim_styles /\
  (exists i, (i < 100)%nat /\
             sd_session_id r = "simulated_session_" ++ PyRef.string_of_Z (Z.of_nat i)) /\
  exists score,
    sd_understanding_score r = Some score /\
    1 <= score <= 5 /\
    (4 <= score <-> optimal_styles (sd_lesson_id r) = Some (sd_style r)).

(** *** vector_db.py

    The embedding model and the Pinecone index are collaborators; the
    components of an embedding are never inspected by the backend. *)
Definition embedding : Type := list Q.

Record vector_service : Type := {
  (** [model.encode(text).tolist()] *)
  model_encode : string -> res embedding;
  (** [index.upsert(vectors=[{"id": id, "values": v}])] *)
  index_upsert : string -> embedding -> res unit;
  (** [index.fetch(ids=[id]).vectors.get(id)], then its [values] *)
  index_fetch : string -> res (option embedding);
  (** the [id]s of [index.query(vector=v, top_k=k, ...)['matches']] *)
  index_query : embedding -> nat -> res (list string)
}.

(** [str(n)] for an [int]. *)
Definition py_str (n : Z) : string := PyRef.string_of_Z n.

(** Every exception is caught and printed; the function returns [None]. *)
Definition upsert_lesson (svc : vector_service) (lesson_id : Z) (lesson_text : string)
  : res unit :=
  match (match model_encode svc lesson_text with
         | Ok v => index_upsert svc (py_str lesson_id) v
         | Raise e => Raise e
         end) with
  | Ok _ => Ok tt
  | Raise _ => Ok tt
  end.

(** [[int(m['id']) for m in matches if int(m['id']) != lesson_id]];
    [int] ignores surrounding whitespace, so [int(s)] is [int(s.strip())]. *)
Fixpoint other_ids {py : PyLib} (lesson_id : Z) (matches : list string) : res (list Z) :=
  match matches with
  | [] => Ok []
  | m :: rest =>
      match int_of_str m with
      | None => Raise ValueError
      | Some n =>
          match other_ids lesson_id rest with
          | Ok ns => Ok (if n =? lesson_id then ns else n :: ns)
          | Raise e => Raise e
          end
      end
  end.

Definition find_similar_lessons {py : PyLib} (svc : vector_service) (lesson_id : Z)
    (top_k : nat) : res (list Z) :=
  match (match index_fetch svc (py_str lesson_id) with
         | Raise e => Raise e
         | Ok None => Ok []
         | Ok (Some source_vector) =>
             match index_query svc source_vector top_k with
             | Raise e => Raise e
             | Ok matches => other_ids lesson_id matches
             end
         end) with
  | Ok similar_lesson_ids => Ok similar_lesson_ids
  | Raise _ => Ok []
  end.

(** *** Courses and lessons ([main.py], teacher endpoints)

    The [courses] table and the two [sqlite_sequence] counters join the
    store.  An [INTEGER PRIMARY KEY AUTOINCREMENT] column takes one more
    than the largest rowid the table has ever held. *)
Record course_row : Type := {
  c_id : Z;
  c_course_name : string;
  c_teacher_id : Z
}.

Record catalog : Type := {
  cat_store : db;
  cat_courses : list course_row;
  cat_course_seq : Z;
  cat_lesson_seq : Z
}.

Definition next_rowid (seq : Z) (ids : list Z) : Z :=
  Z.max seq (fold_right Z.max 0 ids) + 1.

Record CourseCreate : Type := {
  cc_course_name : string;
  cc_teacher_id : Z
}.

Record LessonCreate : Type := {
  lc_lesson_title : string;
  lc_course_id : Z;
  lc_original_text : string
}.

(** [INSERT INTO courses (course_name, teacher_id) VALUES (?, ?)] and
    [cursor.lastrowid]; returns [{"course_id": ..., "course_name": ...}].
    The statement binds [teacher_id]; an AUTOINCREMENT table whose largest
    rowid is the largest 64-bit integer is full ([OperationalError]). *)
Definition create_course (course : CourseCreate) (c : catalog)
  : res (Z * string) * catalog :=
  if fits_int64 (cc_teacher_id course) then
    let course_id := next_rowid (cat_course_seq c) (map c_id (cat_courses c)) in
    if course_id <=? int64_max then
      (Ok (course_id, cc_course_name course),
       {| cat_store := cat_store c;
          cat_courses := cat_courses c ++
                         [{| c_id := course_id; c_course_name := cc_course_name course;
                             c_teacher_id := cc_teacher_id course |}];
          cat_course_seq := course_id;
          cat_lesson_seq := cat_lesson_seq c |})
    else (Raise OperationalError, c)
  else (Raise OverflowError, c).

(** [INSERT INTO lessons (lesson_title, course_id, original_text)
     VALUES (?, ?, ?)], [cursor.lastrowid], then [vector_db.upsert_lesson];
    returns [{"lesson_id": ..., **lesson.dict()}].  The statement binds
    [course_id]; the foreign key to [courses] is not enforced. *)
Definition create_lesson (svc : vector_service) (lesson : LessonCreate) (c : catalog)
  : res (Z * LessonCreate) * catalog :=
  if fits_int64 (lc_course_id lesson) then
    let lesson_id := next_rowid (cat_lesson_seq c) (map l_id (lessons (cat_store c))) in
    if lesson_id <=? int64_max then
      let c' := {| cat_store :=
                     {| lessons := lessons (cat_store c) ++
                                   [{| l_id := lesson_id;
                                       l_lesson_title := lc_lesson_title lesson;
                                       l_course_id := lc_course_id lesson;
                                       l_original_text := lc_original_text lesson |}];
                        generated_content := generated_content (cat_store c);
                        socratic_dialogues := socratic_dialogues (cat_store c) |};
                   cat_courses := cat_courses c;
                   cat_course_seq := cat_course_seq c;
                   cat_lesson_seq := lesson_id |} in
      match upsert_lesson svc lesson_id (lc_original_text lesson) with
      | Ok _ => (Ok (lesson_id, lesson), c')
      | Raise e => (Raise e, c')
      end
    else (Raise OperationalError, c)
  else (Raise OverflowError, c).

(** [SELECT id, course_name FROM courses]. *)
Definition get_all_courses (c : catalog) : list (Z * string) :=
  map (fun co => (c_id co, c_course_name co)) (cat_courses c).

(** [SELECT id, lesson_title FROM lessons WHERE course_id = ?]. *)
Definition get_lessons_for_course (course_id : Z) (c : catalog) : list (Z * string) :=
  map (fun l => (l_id l, l_lesson_title l))
      (filter (fun l => l_course_id l =? course_id) (lessons (cat_store c))).

(** [SELECT l.id, l.lesson_title, c.course_name FROM lessons l
     JOIN courses c ON l.course_id = c.id WHERE l.id IN (...)]; the order of
    the rows is left to SQLite. *)
Definition sql_similar_lessons (ids : list Z) (c : catalog) : list (Z * string * string) :=
  flat_map
    (fun l =>
       if existsb (Z.eqb (l_id l)) ids
       then map (fun co => (l_id l, l_lesson_title l, c_course_name co))
                (filter (fun co => c_id co =? l_course_id l) (cat_courses c))
       else [])
    (lessons (cat_store c)).

Definition get_similar_lessons {py : PyLib} (svc : vector_service) (lesson_id : Z)
    (c : catalog) : res (list (Z * string * string)) :=
  match find_similar_lessons svc lesson_id 5 with
  | Raise e => Raise e
  | Ok [] => Ok []
  | Ok similar_ids =>
      if forallb fits_int64 similar_ids
      then Ok (sql_similar_lessons similar_ids c)
      else Raise OverflowError
  end.

(** Lesson ids in the lesson table and in the content cache do not exceed
    the counter of the lesson table. *)
Definition ids_bounded (seq : Z) (d : db) : Prop :=
  Forall (fun l => l_id l <= seq) (lessons d) /\
  Forall (fun r => gc_lesson_id r <= seq) (generated_content d).

(** *** frontend/app.py: the learning-style quiz *)

Inductive vark : Type := LetterV | LetterA | LetterR | LetterK.

Record vark_counts : Type := {
  count_V : nat;
  count_A : nat;
  count_R : nat;
  count_K : nat
}.

Definition count_of (c : vark_counts) (l : vark) : nat :=
  match l with
  | LetterV => count_V c
  | LetterA => count_A c
  | LetterR => count_R c
  | LetterK => count_K c
  end.

Definition vark_of_char (ch : ascii) : option vark :=
  if (ch =? "V")%char then Some LetterV
  else if (ch =? "A")%char then Some LetterA
  else if (ch =? "R")%char then Some LetterR
  else if (ch =? "K")%char then Some LetterK
  else None.

Definition increment (c : vark_counts) (l : vark) : vark_counts :=
  match l with
  | LetterV => {| count_V := S (count_V c); count_A := count_A c;
            count_R := count_R c; count_K := count_K c |}
  | LetterA => {| count_V := count_V c; count_A := S (count_A c);
            count_R := count_R c; count_K := count_K c |}
  | LetterR => {| count_V := count_V c; count_A := count_A c;
            count_R := S (count_R c); count_K := count_K c |}
  | LetterK => {| count_V := count_V c; count_A := count_A c;
            count_R := count_R c; count_K := S (count_K c) |}
  end.

(** The loop over [answers.values()]; [None] is the [KeyError] of
    [counts[answer[0]]] on a letter outside V, A, R, K. *)
Fixpoint tally (answers : list (option string)) (counts : vark_counts)
  : option vark_counts :=
  match answers with
  | [] => Some counts
  | None :: rest => tally rest counts
  | Some EmptyString :: rest => tally rest counts
  | Some (String ch _) :: rest =>
      match vark_of_char ch with
      | Some l => tally rest (increment counts l)
      | None => None
      end
  end.

(** [max(counts, key=counts.get)]: the first key, in the order V, A, R, K,
    whose count no later key exceeds. *)
Definition dominant (c : vark_counts) : vark :=
  let best := LetterV in
  let best := if (count_of c best <? count_A c)%nat then LetterA else best in
  let best := if (count_of c best <? count_R c)%nat then LetterR else best in
  if (count_of c best <? count_K c)%nat then LetterK else best.

Definition style_map (l : vark) : string :=
  match l with
  | LetterV => "Visual"
  | LetterA => "Auditory"
  | LetterR => "Reading/Writing"
  | LetterK => "Kinesthetic"
  end.

(** The value [calculate_style] stores in [st.session_state.student_style]. *)
Definition calculate_style (answers : list (option string)) : option string :=
  match tally answers {| count_V := 0; count_A := 0; count_R := 0; count_K := 0 |} with
  | Some counts => Some (style_map (dominant counts))
  | None => None
  end.

(** Position of a letter in the dictionary [counts]. *)
Definition vark_rank (l : vark) : nat :=
  match l with
  | LetterV => 0
  | LetterA => 1
  | LetterR => 2
  | LetterK => 3
  end.

(** Number of answers that start with the letter. *)
Definition votes (l : vark) (answers : list (option string)) : nat :=
  List.length
    (filter (fun a => match a with
                      | Some (String ch _) =>
                          match vark_of_char ch with
                          | Some l' => (vark_rank l' =? vark_rank l)%nat
                          | None => false
                          end
                      | _ => false
                      end) answers).

(** *** Further concrete stores and collaborators *)

(** An index that knows lesson 7 and reports 7, 8 and 9 as its matches. *)
Definition sample_service : vector_service :=
  {| model_encode := fun _ => Ok [];
     index_upsert := fun _ _ => Ok tt;
     index_fetch := fun id => if (id =? "7")%string then Ok (Some []) else Ok None;
     index_query := fun _ _ => Ok ["7"; "8"; " 9 "] |}.

(** Lessons 7 and 8 belong to course 1; lesson 9 names a course that does
    not exist. *)
Definition sample_catalog : catalog :=
  {| cat_store :=
       {| lessons :=
            [cell_lesson;
             {| l_id := 8; l_lesson_title := "Mitosis"; l_course_id := 1;
                l_original_text := "Cells divide." |};
             {| l_id := 9; l_lesson_title := "The Silk Road"; l_course_id := 2;
                l_original_text := "A trade route." |}];
          generated_content := [];
          socratic_dialogues := [] |};
     cat_courses := [{| c_id := 1; c_course_name := "Biology"; c_teacher_id := 1 |}];
     cat_course_seq := 1;
     cat_lesson_seq := 9 |}.

(** Lesson 7 is gone, its cached row is not. *)
Definition orphan_catalog : catalog :=
  {| cat_store := store orphan_world;
     cat_courses := [{| c_id := 1; c_course_name := "Biology"; c_teacher_id := 1 |}];
     cat_course_seq := 1;
     cat_lesson_seq := 7 |}.

Definition new_lesson : LessonCreate :=
  {| lc_lesson_title := "Osmosis"; lc_course_id := 1;
     lc_original_text := "Water crosses membranes." |}.

Definition corrupt_world : world :=
  world_of {| lessons := [cell_lesson];
              generated_content :=
                [{| gc_lesson_id := 7; gc_style := "Visual"; gc_content_type := "image";
                    gc_data := "{url:"; gc_quiz_data := None |}];
              socratic_dialogues := [] |}.

(** ** The reference library reads back what it prints *)

Lemma string_app_assoc (a b c : string) : ((a ++ b) ++ c)%string = (a ++ (b ++ c))%string.
Proof. induction a as [| x a IH]; simpl; [reflexivity | rewrite IH; reflexivity]. Qed.

Lemma string_app_length (a b : string) :
  String.length (a ++ b) = (String.length a + String.length b)%nat.
Proof. induction a as [| x a IH]; simpl; [reflexivity | rewrite IH; reflexivity]. Qed.

Lemma parse_escaped_char (c : ascii) (s : string) :
  PyRef.parse_chars PyRef.Plain (PyRef.escape_char c ++ s) =
  PyRef.cons_char c (PyRef.parse_chars PyRef.Plain s).
Proof. destruct c as [[] [] [] [] [] [] [] []]; reflexivity. Qed.

Lemma parse_escaped (s rest : string) :
  PyRef.parse_chars PyRef.Plain (PyRef.escape s ++ String PyRef.dq rest) = Some (s, rest).
Proof.
  induction s as [| c s IH]; [reflexivity |].
  cbn [PyRef.escape]. rewrite string_app_assoc, parse_escaped_char, IH. reflexivity.
Qed.

Lemma parse_quoted (s rest : string) :
  exists body,
    (PyRef.quote s ++ rest)%string = String PyRef.dq body /\
    PyRef.parse_chars PyRef.Plain body = Some (s, rest).
Proof.
  exists (PyRef.escape s ++ String PyRef.dq rest)%string. split.
  - unfold PyRef.quote, PyRef.dq_s. cbn [append]. rewrite string_app_assoc. reflexivity.
  - apply parse_escaped.
Qed.

Lemma parse_digits_uint (d : Decimal.uint) (acc : positive) (rest : string) :
  no_digit_head rest ->
  PyRef.parse_digits (DecimalString.NilEmpty.string_of_uint d ++ rest) (Z.pos acc) =
  (Z.pos (Pos.of_uint_acc d acc), rest).
Proof.
  intros H. revert acc.
  induction d as [| d IH | d IH | d IH | d IH | d IH | d IH | d IH | d IH | d IH | d IH];
    intros acc;
    [ destruct rest as [| c r]; [reflexivity | cbn in H |- *; rewrite H; reflexivity]
    | cbn [DecimalString.NilEmpty.string_of_uint append PyRef.parse_digits Pos.of_uint_acc];
      match goal with
      | |- context [PyRef.is_digit ?c] => change (PyRef.is_digit c) with true
      end; cbv iota; rewrite <- IH; f_equal .. ].
  all: match goal with
       | |- context [PyRef.digit_val ?c] =>
           let v := eval vm_compute in (PyRef.digit_val c) in
           change (PyRef.digit_val c) with v
       end; lia.
Qed.

Lemma to_uint_head (p : positive) (d : Decimal.uint) : Pos.to_uint p <> Decimal.D0 d.
Proof.
  intros E.
  pose proof (DecimalPos.Unsigned.to_of (Pos.to_uint p)) as T.
  rewrite DecimalPos.Unsigned.of_to in T. cbn [N.to_uint] in T.
  rewrite E in T. rewrite DecimalFacts.unorm_D0 in T.
  unfold Decimal.unorm in T.
  destruct (Decimal.nzhead d) eqn:Z; try discriminate.
  - injection T as T. subst d. exact (DecimalPos.Unsigned.to_uint_nonzero p E).
  - exact (DecimalFacts.nzhead_nonzero _ _ Z).
Qed.

Lemma parse_unsigned_printed (p : positive) (rest : string) :
  no_digit_head rest ->
  exists c r,
    DecimalString.NilZero.string_of_uint (Pos.to_uint p) = String c r /\
    PyRef.is_digit c = true /\ (c =? "0")%char = false /\
    PyRef.parse_digits (r ++ rest) (PyRef.digit_val c) = (Z.pos p, rest).
Proof.
  intros H.
  pose proof (DecimalPos.Unsigned.of_to p) as O.
  pose proof (to_uint_head p) as Z.
  pose proof (DecimalPos.Unsigned.to_uint_nonnil p) as N.
  destruct (Pos.to_uint p) as [| d | d | d | d | d | d | d | d | d | d];
    [ congruence | exfalso; exact (Z d eq_refl) | .. ];
    cbn [DecimalString.NilZero.string_of_uint DecimalString.NilEmpty.string_of_uint];
    do 2 eexists; (split; [reflexivity |]); (split; [reflexivity |]);
    (split; [reflexivity |]);
    cbn [Pos.of_uint] in O; injection O as O;
    match goal with
    | |- PyRef.parse_digits _ ?k = _ =>
        let k' := eval vm_compute in k in change k with k'
    end;
    rewrite (parse_digits_uint d _ rest H), O; reflexivity.
Qed.

Lemma digit_dispatch (c : ascii) :
  PyRef.is_digit c = true \/ c = "-"%char ->
  PyRef.is_json_space c = false /\ (c =? "n")%char = false /\ (c =? "t")%char = false /\
  (c =? "f")%char = false /\ (c =? PyRef.dq)%char = false /\ (c =? "[")%char = false /\
  (c =? "{")%char = false /\ (c =? "]")%char = false.
Proof.
  destruct c as [[] [] [] [] [] [] [] []]; intros [H | H]; try discriminate;
    repeat split; reflexivity.
Qed.

Lemma digit_not_minus (c : ascii) : PyRef.is_digit c = true -> (c =? "-")%char = false.
Proof. destruct c as [[] [] [] [] [] [] [] []]; intros H; try discriminate; reflexivity. Qed.

(** An integer is read back wherever the text does not go on with a
    digit. *)
Lemma parse_number_printed (n : Z) (rest : string) :
  no_digit_head rest ->
  exists c r,
    PyRef.string_of_Z n = String c r /\
    (PyRef.is_digit c = true \/ c = "-"%char) /\
    PyRef.parse_number (String c (r ++ rest)) = Some (n, rest).
Proof.
  intros H. unfold PyRef.string_of_Z. destruct n as [| p | p]; cbn [Z.to_int DecimalString.NilZero.string_of_int].
  - exists "0"%char, ""%string. split; [reflexivity |]. split; [left; reflexivity |].
    cbn. destruct rest as [| c r]; [reflexivity |]. cbn in H. rewrite H. reflexivity.
  - destruct (parse_unsigned_printed p rest H) as (c & r & E & D & Z & P).
    exists c, r. split; [exact E |]. split; [left; exact D |].
    unfold PyRef.parse_number. rewrite (digit_not_minus c D), Z, D, P. reflexivity.
  - destruct (parse_unsigned_printed p rest H) as (c & r & E & D & Z & P).
    exists "-"%char, (String c r). split; [rewrite E; reflexivity |].
    split; [right; reflexivity |].
    unfold PyRef.parse_number. change ("-" =? "-")%char with true. cbv iota.
    cbn [append]. rewrite Z, D, P. reflexivity.
Qed.

Lemma skip_ws_head (c : ascii) (r : string) :
  PyRef.is_json_space c = false -> PyRef.skip_ws (String c r) = String c r.
Proof. intros H. cbn [PyRef.skip_ws]. rewrite H. reflexivity. Qed.

Lemma closes_head (c c' : ascii) (r : string) :
  PyRef.is_json_space c' = false ->
  PyRef.closes c (String c' r) = if (c' =? c)%char then Some r else None.
Proof. intros H. unfold PyRef.closes. rewrite (skip_ws_head c' r H). reflexivity. Qed.

Lemma parse_value_space (fuel : nat) (s : string) :
  PyRef.parse_value fuel (String " " s) = PyRef.parse_value fuel s.
Proof. destruct fuel; reflexivity. Qed.

Lemma parse_items_space (fuel : nat) (s : string) :
  PyRef.parse_items fuel (String " " s) = PyRef.parse_items fuel s.
Proof.
  destruct fuel; [reflexivity |]. cbn [PyRef.parse_items]. rewrite parse_value_space.
  reflexivity.
Qed.

Lemma parse_members_space (fuel : nat) (s : string) :
  PyRef.parse_members fuel (String " " s) = PyRef.parse_members fuel s.
Proof. destruct fuel; reflexivity. Qed.

(** What is printed starts with a character that is neither whitespace
    nor a closing bracket. *)
Lemma dumps_head (lvl : nat) (v : json) :
  exists c r,
    PyRef.dumps_at None lvl v = String c r /\
    PyRef.is_json_space c = false /\ (c =? "]")%char = false.
Proof.
  destruct v as [| [] | n | s | [| v items] | [| kv items]];
    try (do 2 eexists; split; [reflexivity | split; reflexivity]).
  destruct (parse_number_printed n "" I) as (c & r & E & D & _).
  exists c, r. split; [exact E |].
  destruct (digit_dispatch c D) as (S1 & _ & _ & _ & _ & _ & _ & S2). auto.
Qed.

Lemma json_size_pos (v : json) : (1 <= json_size v)%nat.
Proof. destruct v; simpl; lia. Qed.

Lemma dict_set_fresh (k : string) (v : json) (items : list (string * json)) :
  existsb (String.eqb k) (map fst items) = false ->
  PyRef.dict_set k v items = (items ++ [(k, v)])%list.
Proof.
  induction items as [| [k' v'] items IH]; intros H; [reflexivity |].
  cbn in H. apply orb_false_iff in H. destruct H as [H1 H2].
  cbn [PyRef.dict_set]. rewrite String.eqb_sym, H1, (IH H2). reflexivity.
Qed.

Lemma dict_of_pairs_distinct (items : list (string * json)) :
  distinct (map fst items) = true -> PyRef.dict_of_pairs items = items.
Proof.
  unfold PyRef.dict_of_pairs.
  assert (G : forall acc,
             distinct (map fst (acc ++ items)) = true ->
             fold_left (fun it kv => PyRef.dict_set (fst kv) (snd kv) it) items acc
             = (acc ++ items)%list).
  { induction items as [| [k v] items IH]; intros acc H.
    - rewrite app_nil_r. reflexivity.
    - cbn [fold_left fst snd].
      assert (F : existsb (String.eqb k) (map fst acc) = false).
      { clear IH. induction acc as [| [k' v'] acc IHa]; [reflexivity |].
        cbn in H. apply andb_true_iff in H. destruct H as [H1 H2].
        cbn. rewrite (IHa H2), orb_false_r.
        apply negb_true_iff in H1. rewrite map_app, existsb_app in H1.
        apply orb_false_iff in H1. destruct H1 as [_ H1]. cbn in H1.
        apply orb_false_iff in H1. destruct H1 as [H1 _].
        rewrite String.eqb_sym. exact H1. }
      rewrite (dict_set_fresh k v acc F), IH.
      + rewrite <- app_assoc. reflexivity.
      + rewrite <- app_assoc. exact H. }
  intros H. exact (G [] H).
Qed.

Lemma dumps_list_eq (lvl : nat) (v : json) (items : list json) (rest : string) :
  (PyRef.dumps_at None lvl (JList (v :: items)) ++ rest)%string =
  String "[" (PyRef.join ", " (map (PyRef.dumps_at None (S lvl)) (v :: items))
              ++ String "]" rest).
Proof.
  change (PyRef.dumps_at None lvl (JList (v :: items)))
    with (String "[" (PyRef.join ", " (map (PyRef.dumps_at None (S lvl)) (v :: items)) ++ "]")).
  change (String "[" ?a ++ rest)%string with (String "[" (a ++ rest)).
  rewrite string_app_assoc. reflexivity.
Qed.

Lemma dumps_dict_eq (lvl : nat) (kv : string * json) (items : list (string * json))
    (rest : string) :
  (PyRef.dumps_at None lvl (JDict (kv :: items)) ++ rest)%string =
  String "{"
    (PyRef.join ", "
       (map (fun x => PyRef.quote (fst x) ++ ": " ++ PyRef.dumps_at None (S lvl) (snd x))
            (kv :: items)) ++ String "}" rest).
Proof.
  change (PyRef.dumps_at None lvl (JDict (kv :: items)))
    with (String "{"
            (PyRef.join ", "
               (map (fun x => PyRef.quote (fst x) ++ ": "
                              ++ PyRef.dumps_at None (S lvl) (snd x))
                    (kv :: items)) ++ "}")).
  change (String "{" ?a ++ rest)%string with (String "{" (a ++ rest)).
  rewrite string_app_assoc. reflexivity.
Qed.

(** With fuel for every value and item, the parser reads a printed value
    back and stops where the print ends. *)
Lemma parse_printed (fuel : nat) :
  (forall v k lvl rest,
     (json_size v <= fuel)%nat -> within_limits k v = true -> no_digit_head rest ->
     PyRef.parse_value fuel (PyRef.dumps_at None lvl v ++ rest) = Some (v, rest)) /\
  (forall v items k lvl rest,
     (fold_right (fun x n => S (json_size x + n)) 0 (v :: items) <= fuel)%nat ->
     forallb (within_limits k) (v :: items) = true ->
     PyRef.parse_items fuel
       (PyRef.join ", " (map (PyRef.dumps_at None lvl) (v :: items)) ++ String "]" rest)
     = Some (v :: items, rest)) /\
  (forall kv items k lvl rest,
     (fold_right (fun x n => S (json_size (snd x) + n)) 0 (kv :: items) <= fuel)%nat ->
     forallb (fun x => within_limits k (snd x)) (kv :: items) = true ->
     PyRef.parse_members fuel
       (PyRef.join ", "
          (map (fun x => PyRef.quote (fst x) ++ ": " ++ PyRef.dumps_at None lvl (snd x))
               (kv :: items)) ++ String "}" rest)
     = Some (kv :: items, rest)).
Proof.
  induction fuel as [| f (IHv & IHi & IHm)].
  - split; [| split]; intros; exfalso.
    + pose proof (json_size_pos v). lia.
    + cbn in H. lia.
    + cbn in H. lia.
  - split; [| split].
    + intros v k lvl rest Hs Hk Hr.
      destruct v as [| [] | n | s | [| v items] | [| kv items]]; try reflexivity.
      * destruct (parse_number_printed n rest Hr) as (c & r & E & D & P).
        cbn [PyRef.dumps_at]. rewrite E. cbn [append].
        destruct (digit_dispatch c D) as (S0 & S1 & S2 & S3 & S4 & S5 & S6 & _).
        cbn [PyRef.parse_value]. rewrite (skip_ws_head _ _ S0), S1, S2, S3, S4, S5, S6, P.
        reflexivity.
      * destruct (parse_quoted s rest) as (body & E & P).
        cbn [PyRef.dumps_at]. rewrite E.
        change (PyRef.parse_value (S f) (String PyRef.dq body))
          with (match PyRef.parse_chars PyRef.Plain body with
                | Some (t, r) => Some (JStr t, r)
                | None => None
                end).
        rewrite P. reflexivity.
      * rewrite dumps_list_eq.
        destruct k as [| k]; [discriminate |]. cbn [within_limits] in Hk.
        cbn [json_size] in Hs. apply le_S_n in Hs.
        pose proof (IHi v items k (S lvl) rest Hs Hk) as Q.
        destruct (dumps_head (S lvl) v) as (c & r & E & S0 & S1).
        assert (C : PyRef.closes "]"
                      (PyRef.join ", " (map (PyRef.dumps_at None (S lvl)) (v :: items))
                       ++ String "]" rest) = None).
        { cbn [map PyRef.join]. destruct (map (PyRef.dumps_at None (S lvl)) items);
            rewrite E; cbn [append]; rewrite (closes_head _ _ _ S0), S1; reflexivity. }
        change (PyRef.parse_value (S f) (String "[" ?x))
          with (match PyRef.closes "]" x with
                | Some r => Some (JList [], r)
                | None => match PyRef.parse_items f x with
                          | Some (items, r) => Some (JList items, r)
                          | None => None
                          end
                end).
        rewrite C, Q. reflexivity.
      * rewrite dumps_dict_eq.
        destruct k as [| k]; [discriminate |]. cbn [within_limits] in Hk.
        apply andb_true_iff in Hk. destruct Hk as [Hd Hk].
        cbn [json_size] in Hs. apply le_S_n in Hs.
        pose proof (IHm kv items k (S lvl) rest Hs Hk) as Q.
        assert (C : PyRef.closes "}"
                      (PyRef.join ", "
                         (map (fun x => PyRef.quote (fst x) ++ ": "
                                        ++ PyRef.dumps_at None (S lvl) (snd x))
                              (kv :: items)) ++ String "}" rest) = None).
        { cbn [map PyRef.join].
          destruct (map (fun x => PyRef.quote (fst x) ++ ": "
                                  ++ PyRef.dumps_at None (S lvl) (snd x)) items);
            reflexivity. }
        change (PyRef.parse_value (S f) (String "{" ?x))
          with (match PyRef.closes "}" x with
                | Some r => Some (JDict [], r)
                | None => match PyRef.parse_members f x with
                          | Some (pairs, r) => Some (JDict (PyRef.dict_of_pairs pairs), r)
                          | None => None
                          end
                end).
        rewrite C, Q, (dict_of_pairs_distinct _ Hd). reflexivity.
    + intros v items k lvl rest Hs Hk.
      cbn [forallb] in Hk. apply andb_true_iff in Hk. destruct Hk as [Hv Hk].
      cbn [fold_right] in Hs. apply le_S_n in Hs.
      cbn [PyRef.parse_items map PyRef.join].
      destruct items as [| v2 items].
      * cbn [map]. rewrite (IHv v k lvl (String "]" rest)); [| cbn in Hs; lia | exact Hv | reflexivity].
        reflexivity.
      * cbn [map]. rewrite string_app_assoc.
        rewrite (IHv v k lvl); [| lia | exact Hv | reflexivity].
        change (PyRef.closes "," ((", " ++ ?x) ++ ?y)) with (Some (String " " (x ++ y))).
        cbv iota. rewrite parse_items_space.
        change (PyRef.join ", " (PyRef.dumps_at None lvl v2 :: map (PyRef.dumps_at None lvl) items))
          with (PyRef.join ", " (map (PyRef.dumps_at None lvl) (v2 :: items))).
        rewrite (IHi v2 items k lvl rest); [reflexivity | lia | exact Hk].
    + intros [key v] items k lvl rest Hs Hk.
      cbn [forallb snd] in Hk. apply andb_true_iff in Hk. destruct Hk as [Hv Hk].
      cbn [fold_right snd] in Hs. apply le_S_n in Hs.
      cbn [map PyRef.join fst snd].
      assert (M : forall tail,
                 PyRef.closes PyRef.dq ((PyRef.quote key ++ ": " ++ PyRef.dumps_at None lvl v) ++ tail)
                 = Some (PyRef.escape key ++ String PyRef.dq
                           (String ":" (String " " (PyRef.dumps_at None lvl v ++ tail))))).
      { intros tail. unfold PyRef.quote, PyRef.dq_s. cbn [append].
        rewrite !string_app_assoc. cbn [append].
        rewrite closes_head by reflexivity. rewrite Ascii.eqb_refl. reflexivity. }
      cbn [PyRef.parse_members].
      destruct items as [| kv2 items].
      * cbn [map]. rewrite M, parse_escaped.
        change (PyRef.closes ":" (String ":" ?x)) with (Some x). cbv iota.
        rewrite parse_value_space.
        rewrite (IHv v k lvl (String "}" rest)); [| lia | exact Hv | reflexivity].
        reflexivity.
      * cbn [map]. rewrite string_app_assoc.
        rewrite M, parse_escaped.
        change (PyRef.closes ":" (String ":" ?x)) with (Some x). cbv iota.
        rewrite parse_value_space.
        rewrite (IHv v k lvl); [| lia | exact Hv | reflexivity].
        change (PyRef.closes "," ((", " ++ ?x) ++ ?y)) with (Some (String " " (x ++ y))).
        cbv iota. rewrite parse_members_space.
        match goal with
        | |- context [PyRef.join ", " (?h :: map ?g items)] =>
            change (PyRef.join ", " (h :: map g items))
              with (PyRef.join ", " (map g (kv2 :: items)))
        end.
        rewrite (IHm kv2 items k lvl rest); [reflexivity | lia | exact Hk].
Qed.

Lemma string_app_nil_r (s : string) : (s ++ "")%string = s.
Proof. induction s as [| c s IH]; [reflexivity | cbn; rewrite IH; reflexivity]. Qed.

Lemma json_size_le_length (n : nat) :
  forall v lvl, (json_size v <= n)%nat ->
                (json_size v <= String.length (PyRef.dumps_at None lvl v))%nat.
Proof.
  induction n as [| n IH]; intros v lvl H.
  - pose proof (json_size_pos v). lia.
  - destruct v as [| [] | z | s | [| v items] | [| kv items]]; try (cbn; lia).
    + destruct (parse_number_printed z "" I) as (c & r & E & _).
      cbn [PyRef.dumps_at json_size]. rewrite E. cbn [String.length]. lia.
    + change (PyRef.dumps_at None lvl (JList (v :: items)))
        with (String "[" (PyRef.join ", " (map (PyRef.dumps_at None (S lvl)) (v :: items))
                          ++ "]")).
      cbn [String.length json_size]. rewrite string_app_length.
      cbn [json_size] in H. apply le_S_n in H.
      generalize dependent (v :: items). clear v items.
      assert (G : forall l : list json,
                 l <> [] ->
                 (fold_right (fun x m => S (json_size x + m)) 0 l <= n)%nat ->
                 (fold_right (fun x m => S (json_size x + m)) 0 l
                  <= S (String.length (PyRef.join ", " (map (PyRef.dumps_at None (S lvl)) l))))%nat).
      { induction l as [| x tl IHt]; intros N B; [congruence |].
        cbn [fold_right] in B |- *.
        assert (Bx : (json_size x <= n)%nat) by lia.
        pose proof (IH x (S lvl) Bx) as Lx.
        destruct tl as [| y tl].
        - cbn. lia.
        - assert (Nt : y :: tl <> []) by discriminate.
          assert (Bt : (fold_right (fun x m => S (json_size x + m)) 0 (y :: tl) <= n)%nat)
            by lia.
          pose proof (IHt Nt Bt) as Lt.
          change (PyRef.join ", " (map (PyRef.dumps_at None (S lvl)) (x :: y :: tl)))
            with (PyRef.dumps_at None (S lvl) x ++ ", "
                  ++ PyRef.join ", " (map (PyRef.dumps_at None (S lvl)) (y :: tl)))%string.
          rewrite !string_app_length. cbn [String.length]. lia. }
      intros l B. destruct l as [| x tl]; [cbn; lia |].
      assert (N : x :: tl <> []) by discriminate.
      pose proof (G (x :: tl) N B). cbn [String.length]. lia.
    + change (PyRef.dumps_at None lvl (JDict (kv :: items)))
        with (String "{"
                (PyRef.join ", "
                   (map (fun x => PyRef.quote (fst x) ++ ": "
                                  ++ PyRef.dumps_at None (S lvl) (snd x))
                        (kv :: items)) ++ "}")).
      cbn [String.length json_size]. rewrite string_app_length.
      cbn [json_size] in H. apply le_S_n in H.
      generalize dependent (kv :: items). clear kv items.
      assert (G : forall l : list (string * json),
                 l <> [] ->
                 (fold_right (fun x m => S (json_size (snd x) + m)) 0 l <= n)%nat ->
                 (fold_right (fun x m => S (json_size (snd x) + m)) 0 l
                  <= S (String.length
                          (PyRef.join ", "
                             (map (fun x => PyRef.quote (fst x) ++ ": "
                                            ++ PyRef.dumps_at None (S lvl) (snd x)) l))))%nat).
      { induction l as [| x tl IHt]; intros N B; [congruence |].
        cbn [fold_right] in B |- *.
        assert (Bx : (json_size (snd x) <= n)%nat) by lia.
        pose proof (IH (snd x) (S lvl) Bx) as Lx.
        destruct tl as [| y tl].
        - cbn [map PyRef.join fold_right]. rewrite !string_app_length. lia.
        - assert (Nt : y :: tl <> []) by discriminate.
          assert (Bt : (fold_right (fun x m => S (json_size (snd x) + m)) 0 (y :: tl)
                        <= n)%nat) by lia.
          pose proof (IHt Nt Bt) as Lt.
          match goal with
          | |- context [PyRef.join ", " (map ?g (x :: y :: tl))] =>
              change (PyRef.join ", " (map g (x :: y :: tl)))
                with (g x ++ ", " ++ PyRef.join ", " (map g (y :: tl)))%string
          end.
          cbv beta. rewrite !string_app_length. cbn [String.length]. lia. }
      intros l B. destruct l as [| x tl]; [cbn; lia |].
      assert (N : x :: tl <> []) by discriminate.
      pose proof (G (x :: tl) N B). cbn [String.length]. lia.
Qed.

(** [json.loads(json.dumps(v)) == v]. *)
Lemma loads_dumps (k : nat) (v : json) :
  within_limits k v = true -> PyRef.loads (PyRef.dumps v) = Some v.
Proof.
  intros H. unfold PyRef.loads, PyRef.dumps.
  pose proof (json_size_le_length (json_size v) v 0 (le_n _)) as L.
  pose proof (proj1 (parse_printed (S (String.length (PyRef.dumps_at None 0 v))))
                v k 0%nat ""%string) as P.
  rewrite string_app_nil_r in P. rewrite P; [reflexivity | lia | exact H | exact I].
Qed.

Lemma dumps_nonempty (v : json) : PyRef.dumps v <> ""%string.
Proof.
  destruct (dumps_head 0 v) as (c & r & E & _). unfold PyRef.dumps. rewrite E. discriminate.
Qed.
(** * Properties *)

Lemma exec_bind (orc : oracle) (env : nat -> db -> db) {A B : Type}
    (p : prog A) (f : A -> prog B) (w : world) :
  exec orc env (bind p f) w =
  match exec orc env p w with
  | (Ok a, w') => exec orc env (f a) w'
  | (Raise e, w') => (Raise e, w')
  end.
Proof.
  revert w. induction p as [a | e | X a k IH]; intros w; simpl; try reflexivity.
  destruct (handle orc a (clock w) (env (clock w) (store w))) as [r d].
  apply IH.
Qed.

Lemma exec_try_except (orc : oracle) (env : nat -> db -> db) {A : Type}
    (p : prog A) (h : exn -> prog A) (w : world) :
  exec orc env (try_except p h) w =
  match exec orc env p w with
  | (Ok a, w') => (Ok a, w')
  | (Raise e, w') => exec orc env (h e) w'
  end.
Proof.
  revert w. induction p as [a | e | X a k IH]; intros w; simpl; try reflexivity.
  destruct (handle orc a (clock w) (env (clock w) (store w))) as [r d].
  apply IH.
Qed.

Lemma exec_perform (orc : oracle) (env : nat -> db -> db) {X : Type} (a : action X)
    (w : world) :
  exec orc env (perform a) w =
  let '(r, d) := handle orc a (clock w) (env (clock w) (store w)) in
  (r, {| store := d; trace := Ev a :: trace w |}).
Proof.
  unfold perform. simpl.
  destruct (handle orc a (clock w) (env (clock w) (store w))) as [[x | e] d]; reflexivity.
Qed.

(** ** Integers a statement binds *)

Lemma binding_fits {X : Type} (n : Z) (d : db) (outcome : res X * db) :
  fits_int64 n = true -> binding n d outcome = outcome.
Proof. intros F. unfold binding. rewrite F. reflexivity. Qed.

Lemma binding_far {X : Type} (n : Z) (d : db) (outcome : res X * db) :
  fits_int64 n = false -> binding n d outcome = (Raise OverflowError, d).
Proof. intros F. unfold binding. rewrite F. reflexivity. Qed.

Lemma select_lesson_fits (lesson_id : Z) (d : db) (found : string * string) :
  sql_select_lesson lesson_id d = Some found -> fits_int64 lesson_id = true.
Proof. unfold sql_select_lesson. destruct (fits_int64 lesson_id); [reflexivity | discriminate]. Qed.

Lemma select_cached_fits (lesson_id : Z) (style : string) (d : db)
    (found : string * string * option string) :
  sql_select_cached lesson_id style d = Some found -> fits_int64 lesson_id = true.
Proof. unfold sql_select_cached. destruct (fits_int64 lesson_id); [reflexivity | discriminate]. Qed.

Lemma lesson_dialogues_far (lesson_id : Z) (d : db) :
  fits_int64 lesson_id = false -> lesson_dialogues lesson_id d = [].
Proof. intros F. unfold lesson_dialogues. rewrite F. reflexivity. Qed.

(** ** Lesson deletion *)

(** C9: deleting a lesson leaves the content cache and the dialogue log
    the tables they were, so the rows keyed by the deleted id stay while
    the lesson can no longer be found.  For an id SQLite can bind the call
    returns and removes the lesson rows with that id and no other; for an
    id outside the 64-bit range it raises [OverflowError] and the store is
    as it was. *)
Theorem delete_lesson_no_cascade (orc : oracle) (w : world) (lesson_id : Z) :
  let out := run orc (delete_lesson lesson_id) w in
  let w' := snd out in
  generated_content (store w') = generated_content (store w) /\
  socratic_dialogues (store w') = socratic_dialogues (store w) /\
  (forall style, key_rows lesson_id style (store w') = key_rows lesson_id style (store w)) /\
  lesson_dialogues lesson_id (store w') = lesson_dialogues lesson_id (store w) /\
  sql_select_lesson lesson_id (store w') = None /\
  (fits_int64 lesson_id = true ->
   fst out = Ok tt /\
   forall l, In l (lessons (store w')) <->
             In l (lessons (store w)) /\ l_id l <> lesson_id) /\
  (fits_int64 lesson_id = false ->
   fst out = Raise OverflowError /\ store w' = store w).
Proof.
  unfold run, delete_lesson. rewrite exec_perform. unfold alone.
  cbn [handle]. unfold binding, lesson_dialogues, key_rows, sql_select_lesson.
  destruct (fits_int64 lesson_id) eqn:F; cbn [fst snd store].
  - split; [reflexivity |]. split; [reflexivity |]. split; [reflexivity |].
    split; [reflexivity |]. split; [| split; [| discriminate]].
    + cbn [sql_delete_lesson lessons].
      match goal with
      | |- context [find ?f ?ls] => destruct (find f ls) as [l |] eqn:E; [| reflexivity]
      end.
      apply find_some in E. destruct E as [Hin Hid].
      apply filter_In in Hin. destruct Hin as [_ Hne].
      rewrite Hid in Hne. discriminate.
    + intros _. split; [reflexivity |].
      intros l. cbn [sql_delete_lesson lessons].
      rewrite filter_In, negb_true_iff, Z.eqb_neq. reflexivity.
  - split; [reflexivity |]. split; [reflexivity |]. split; [reflexivity |].
    split; [reflexivity |]. split; [reflexivity |].
    split; [discriminate |]. intros _. split; reflexivity.
Qed.

(** ** Grading *)

Section Grading.
Context {py : PyLib}.

(** The two events and the outcome of a grading request, by what the
    collaborator answers. *)
Lemma grade_conversation_run (orc : oracle) (request : SocraticRequest) (w : world) :
  let chat := ChatCompletion "gpt-4o"
                [("system", "You are a helpful AI assistant.");
                 ("user", grader_prompt_of (sr_chat_history request))] in
  run orc (grade_conversation request) w =
  match grader_answer orc (clock w) request with
  | Ok s =>
      match int_of_str s with
      | Some n =>
          let ins := InsertDialogue (sr_lesson_id request) "session_placeholder"
                       (sr_style request)
                       (json_dumps (JList (sr_chat_history request))) n in
          (Ok (if fits_int64 (sr_lesson_id request) && fits_int64 n then n else 0),
           {| store := snd (sql_insert_dialogue (sr_lesson_id request)
                              "session_placeholder" (sr_style request)
                              (json_dumps (JList (sr_chat_history request))) n (store w));
              trace := Ev ins :: Ev chat :: trace w |})
      | None => (Ok 0, logged chat w)
      end
  | Raise _ => (Ok 0, logged chat w)
  end.
Proof.
  intros chat. unfold run, grade_conversation, generate_text_from_gpt, grader_answer.
  rewrite exec_try_except, exec_bind, exec_perform. simpl.
  fold chat. unfold alone.
  destruct (chat_completion orc (clock w) "gpt-4o" _) as [s | e]; [| reflexivity].
  rewrite exec_bind. unfold py_int.
  destruct (int_of_str s) as [n |]; [| reflexivity].
  simpl. unfold sql_insert_dialogue, binding.
  destruct (fits_int64 (sr_lesson_id request)); [| reflexivity].
  destruct (fits_int64 n); reflexivity.
Qed.

Lemma insert_dialogue_store (l : Z) (sid s h : string) (n : Z) (d : db) :
  snd (sql_insert_dialogue l sid s h n d) =
  if fits_int64 l && fits_int64 n
  then {| lessons := lessons d; generated_content := generated_content d;
          socratic_dialogues :=
            socratic_dialogues d ++
            [{| sd_lesson_id := l; sd_session_id := sid; sd_style := s;
                sd_conversation_history := h; sd_understanding_score := Some n |}] |}
  else d.
Proof.
  unfold sql_insert_dialogue, binding.
  destruct (fits_int64 l); [| reflexivity]. destruct (fits_int64 n); reflexivity.
Qed.

(** C4, as the code has it: a grading request never raises.  When the
    collaborator fails, or answers text that [int] rejects, or the INSERT
    cannot bind the score or the lesson id (an integer outside the 64-bit
    range), the caller gets score 0 and the store is left as it was: no
    record is appended.  When the answer is an integer the statement can
    bind, in the range 1-5 or not, and so is the lesson id, the caller gets
    that integer and one record carrying it is appended. *)
Theorem grading_outcome (orc : oracle) (request : SocraticRequest) (w : world) :
  exists score w',
    run orc (grade_conversation request) w = (Ok score, w') /\
    (forall e, grader_answer orc (clock w) request = Raise e ->
       score = 0 /\ store w' = store w) /\
    (forall s, grader_answer orc (clock w) request = Ok s -> int_of_str s = None ->
       score = 0 /\ store w' = store w) /\
    (forall s n, grader_answer orc (clock w) request = Ok s -> int_of_str s = Some n ->
       fits_int64 n = false \/ fits_int64 (sr_lesson_id request) = false ->
       score = 0 /\ store w' = store w) /\
    (forall s n, grader_answer orc (clock w) request = Ok s -> int_of_str s = Some n ->
       fits_int64 n = true -> fits_int64 (sr_lesson_id request) = true ->
       score = n /\
       socratic_dialogues (store w') =
         (socratic_dialogues (store w) ++ [graded_record request n])%list /\
       lessons (store w') = lessons (store w) /\
       generated_content (store w') = generated_content (store w)).
Proof.
  pose proof (grade_conversation_run orc request w) as R. simpl in R.
  destruct (grader_answer orc (clock w) request) as [s | e].
  - destruct (int_of_str s) as [n |] eqn:P.
    + rewrite insert_dialogue_store in R.
      do 2 eexists. split; [exact R |]. cbn [store].
      split; [intros; congruence |]. split; [intros; congruence |]. split.
      * intros s' m E1 E2 F. assert (m = n) by congruence. subst m.
        destruct F as [F | F]; rewrite F; rewrite ?andb_false_r; split; reflexivity.
      * intros s' m E1 E2 F1 F2. assert (m = n) by congruence. subst m.
        rewrite F1, F2. cbn. repeat split; reflexivity.
    + do 2 eexists. split; [exact R |]. simpl.
      repeat split; intros; congruence.
  - do 2 eexists. split; [exact R |]. simpl.
    repeat split; intros; congruence.
Qed.

(** A grading request appends nothing or the one record of its score. *)
Lemma grade_conversation_appends (orc : oracle) (request : SocraticRequest) (w : world) :
  let w' := snd (run orc (grade_conversation request) w) in
  exists new,
    socratic_dialogues (store w') = (socratic_dialogues (store w) ++ new)%list /\
    (new = [] \/ exists n, new = [graded_record request n]).
Proof.
  pose proof (grade_conversation_run orc request w) as R. simpl in R.
  simpl. rewrite R. clear R.
  destruct (grader_answer orc (clock w) request) as [s | e];
    [destruct (int_of_str s) as [n |] |];
    try solve [exists nil; simpl; rewrite app_nil_r; auto].
  simpl. rewrite insert_dialogue_store.
  destruct (fits_int64 (sr_lesson_id request) && fits_int64 n); simpl.
  - eexists. split; [reflexivity | right; eexists; reflexivity].
  - exists nil. rewrite app_nil_r. auto.
Qed.

Lemma appended_dialogues_app (w w' : world) (new : list dialogue_row) :
  socratic_dialogues (store w') = (socratic_dialogues (store w) ++ new)%list ->
  appended_dialogues w w' = new.
Proof.
  intros E. unfold appended_dialogues. rewrite E, skipn_app, skipn_all, Nat.sub_diag.
  reflexivity.
Qed.

(** The record of a successful grading. *)
Lemma grade_conversation_success (orc : oracle) (request : SocraticRequest) (w : world)
    (s : string) (n : Z) :
  grader_answer orc (clock w) request = Ok s ->
  int_of_str s = Some n ->
  fits_int64 n = true ->
  fits_int64 (sr_lesson_id request) = true ->
  appended_dialogues w (snd (run orc (grade_conversation request) w)) =
    [graded_record request n].
Proof.
  intros A P F1 F2. apply appended_dialogues_app.
  pose proof (grade_conversation_run orc request w) as R. simpl in R.
  rewrite R, A, P. cbn [snd store]. rewrite insert_dialogue_store, F1, F2.
  reflexivity.
Qed.

(** C10: when the collaborator answers an integer and the INSERT can bind
    it and the lesson id, a grading request appends exactly one record,
    the one of that score, whose session id is ["session_placeholder"].
    In every case the records a grading request appends (at most one, at
    the end of the log) carry the session id ["session_placeholder"], the
    lesson id and the style of the request; records appended by two
    requests for the same lesson and style therefore agree on lesson id,
    session id and style, in whatever worlds and with whatever
    collaborators they ran. *)
Theorem session_id_is_placeholder (orc : oracle) (request : SocraticRequest) (w : world) :
  let w' := snd (run orc (grade_conversation request) w) in
  socratic_dialogues (store w') =
    (socratic_dialogues (store w) ++ appended_dialogues w w')%list /\
  (List.length (appended_dialogues w w') <= 1)%nat /\
  (forall s n, grader_answer orc (clock w) request = Ok s -> int_of_str s = Some n ->
     fits_int64 n = true -> fits_int64 (sr_lesson_id request) = true ->
     appended_dialogues w w' = [graded_record request n] /\
     sd_session_id (graded_record request n) = "session_placeholder") /\
  (forall r, In r (appended_dialogues w w') ->
     sd_session_id r = "session_placeholder" /\
     sd_lesson_id r = sr_lesson_id request /\
     sd_style r = sr_style request) /\
  (forall (orc2 : oracle) (request2 : SocraticRequest) (w2 : world) (r r2 : dialogue_row),
     sr_lesson_id request2 = sr_lesson_id request ->
     sr_style request2 = sr_style request ->
     In r (appended_dialogues w w') ->
     In r2 (appended_dialogues w2 (snd (run orc2 (grade_conversation request2) w2))) ->
     sd_lesson_id r2 = sd_lesson_id r /\
     sd_session_id r2 = sd_session_id r /\
     sd_style r2 = sd_style r).
Proof.
  assert (K : forall o q v r,
             In r (appended_dialogues v (snd (run o (grade_conversation q) v))) ->
             sd_session_id r = "session_placeholder" /\
             sd_lesson_id r = sr_lesson_id q /\ sd_style r = sr_style q).
  { intros o q v r Hin.
    destruct (grade_conversation_appends o q v) as (new & E & Hnew).
    rewrite (appended_dialogues_app _ _ _ E) in Hin.
    destruct Hnew as [-> | [n ->]]; simpl in Hin; [contradiction |].
    destruct Hin as [<- | []]. simpl. auto. }
  intros w'. subst w'.
  split; [| split; [| split; [| split]]].
  - destruct (grade_conversation_appends orc request w) as (new & E & Hnew).
    rewrite (appended_dialogues_app _ _ _ E). exact E.
  - destruct (grade_conversation_appends orc request w) as (new & E & Hnew).
    rewrite (appended_dialogues_app _ _ _ E).
    destruct Hnew as [-> | [n ->]]; simpl; lia.
  - intros s n A P F1 F2. split; [| reflexivity].
    exact (grade_conversation_success orc request w s n A P F1 F2).
  - intros r Hin. exact (K orc request w r Hin).
  - intros orc2 request2 w2 r r2 Hl Hs Hin Hin2.
    destruct (K _ _ _ _ Hin) as (A1 & A2 & A3).
    destruct (K _ _ _ _ Hin2) as (B1 & B2 & B3).
    rewrite A1, A2, A3, B1, B2, B3. auto.
Qed.

(** X21: [grader_node] of the tutoring graph: a score [int] rejects becomes 0
    in the returned state, an integer is kept as it is, a failure of the
    model call is raised; the store is not written. *)
Lemma grader_node_outcome (orc : oracle) (state : SocraticState) (w : world) :
  let out := run orc (grader_node state) w in
  store (snd out) = store w /\
  match fst out with
  | Ok state' =>
      st_chat_history state' = st_chat_history state /\
      exists prompt content,
        grader_invoke orc (clock w) prompt = Ok content /\
        st_understanding_score state' =
          match int_of_str content with
          | Some n => n
          | None => 0
          end
  | Raise e => exists prompt, grader_invoke orc (clock w) prompt = Raise e
  end.
Proof.
  unfold run, grader_node. rewrite exec_bind, exec_perform. cbn -[append].
  unfold alone.
  match goal with
  | |- context [grader_invoke orc (clock w) ?p] =>
      destruct (grader_invoke orc (clock w) p) as [content | e] eqn:A
  end; cbn -[append].
  - rewrite exec_bind, exec_try_except. unfold py_int.
    destruct (int_of_str content) as [n |] eqn:P; cbn -[append];
      (split; [reflexivity |]; split; [reflexivity |];
       do 2 eexists; split; [exact A | rewrite P; reflexivity]).
  - split; [reflexivity |]. eexists. exact A.
Qed.

End Grading.

(** ** Content store *)

Lemma find_none_existsb {A : Type} (f : A -> bool) (l : list A) :
  find f l = None <-> existsb f l = false.
Proof.
  induction l as [| x l IH]; simpl; [tauto |].
  destruct (f x); simpl; [split; discriminate | exact IH].
Qed.

Lemma find_app_none {A : Type} (f : A -> bool) (l l' : list A) :
  find f l = None -> find f (l ++ l') = find f l'.
Proof.
  induction l as [| x l IH]; simpl; [reflexivity |].
  destruct (f x); [discriminate | exact IH].
Qed.

Lemma find_none_filter {A : Type} (f : A -> bool) (l : list A) :
  find f l = None -> filter f l = [].
Proof.
  induction l as [| x l IH]; simpl; [reflexivity |].
  destruct (f x); [discriminate | exact IH].
Qed.

Lemma select_cached_none (lesson_id : Z) (style : string) (d : db) :
  fits_int64 lesson_id = true ->
  sql_select_cached lesson_id style d = None <->
  find (content_key_is lesson_id style) (generated_content d) = None.
Proof.
  intros F. unfold sql_select_cached. rewrite F.
  destruct (find _ (generated_content d)); split; (discriminate || reflexivity).
Qed.

Lemma content_key_is_self (r : content_row) :
  content_key_is (gc_lesson_id r) (gc_style r) r = true.
Proof. unfold content_key_is. rewrite Z.eqb_refl, String.eqb_refl. reflexivity. Qed.

(** An insert under a free key appends the row. *)
Lemma insert_content_fresh (r : content_row) (d : db) :
  fits_int64 (gc_lesson_id r) = true ->
  sql_select_cached (gc_lesson_id r) (gc_style r) d = None ->
  sql_insert_content r d =
  (Ok tt, {| lessons := lessons d;
             generated_content := generated_content d ++ [r];
             socratic_dialogues := socratic_dialogues d |}).
Proof.
  intros F H. apply (select_cached_none _ _ _ F), find_none_existsb in H.
  unfold sql_insert_content. rewrite (binding_fits _ _ _ F), H. reflexivity.
Qed.

(** An insert under a taken key violates the constraint and changes
    nothing. *)
Lemma insert_content_taken (r : content_row) (d : db) :
  sql_select_cached (gc_lesson_id r) (gc_style r) d <> None ->
  sql_insert_content r d = (Raise IntegrityError, d).
Proof.
  intros H. unfold sql_insert_content.
  destruct (fits_int64 (gc_lesson_id r)) eqn:F.
  - rewrite (binding_fits _ _ _ F).
    destruct (existsb _ (generated_content d)) eqn:E; [reflexivity |].
    apply find_none_existsb, (select_cached_none _ _ _ F) in E. contradiction.
  - exfalso. apply H. unfold sql_select_cached. rewrite F. reflexivity.
Qed.

(** An insert that cannot bind its lesson id changes nothing. *)
Lemma insert_content_far (r : content_row) (d : db) :
  fits_int64 (gc_lesson_id r) = false ->
  sql_insert_content r d = (Raise OverflowError, d).
Proof. intros F. unfold sql_insert_content. apply binding_far. exact F. Qed.

Lemma insert_content_result (r : content_row) (d : db) :
  fst (sql_insert_content r d) = Ok tt \/
  fst (sql_insert_content r d) = Raise IntegrityError /\ fits_int64 (gc_lesson_id r) = true \/
  fst (sql_insert_content r d) = Raise OverflowError /\ fits_int64 (gc_lesson_id r) = false.
Proof.
  unfold sql_insert_content, binding.
  destruct (fits_int64 (gc_lesson_id r)); [| auto].
  destruct (existsb _ (generated_content d)); auto.
Qed.

Section ContentStore.
Context {py : PyLib}.

(** [cache_content] returns normally whether or not its insert was
    accepted, unless the lesson id cannot be bound. *)
Lemma cache_content_exec (orc : oracle) (env : nat -> db -> db) (w : world)
    (lesson_id : Z) (style ct : string) (d q : json) :
  let row := content_row_of lesson_id style ct d q in
  exec orc env (cache_content lesson_id style ct d q) w =
  (if fits_int64 lesson_id then Ok tt else Raise OverflowError,
   {| store := snd (sql_insert_content row (env (clock w) (store w)));
      trace := Ev (InsertGeneratedContent row) :: trace w |}).
Proof.
  intros row. unfold cache_content. fold (content_row_of lesson_id style ct d q).
  fold row. rewrite exec_try_except, exec_perform. cbn [handle].
  unfold sql_insert_content, binding.
  change (gc_lesson_id row) with lesson_id.
  destruct (fits_int64 lesson_id); [| reflexivity].
  destruct (existsb _ (generated_content (env (clock w) (store w)))); reflexivity.
Qed.

Lemma get_cached_content_world (orc : oracle) (env : nat -> db -> db) (w : world)
    (lesson_id : Z) (style : string) :
  snd (exec orc env (get_cached_content lesson_id style) w) =
  {| store := env (clock w) (store w);
     trace := Ev (SelectCachedContent lesson_id style) :: trace w |}.
Proof.
  unfold get_cached_content. rewrite exec_bind, exec_perform. cbn [handle].
  unfold binding. destruct (fits_int64 lesson_id); [| reflexivity].
  destruct (sql_select_cached lesson_id style (env (clock w) (store w)))
    as [[[r0 r1] r2] |]; [| reflexivity].
  rewrite exec_bind.
  assert (Q : forall (p : prog json) v, snd (exec orc env p v) = v ->
              snd (match exec orc env p v with
                   | (Ok a, w') =>
                       exec orc env
                         (d <- loads r1 ;;
                          Ret (Some {| content_type := r0; data := d; quiz_data := a |})) w'
                   | (Raise e, w') => (Raise e, w')
                   end) = v).
  { intros p v Hp. destruct (exec orc env p v) as [[a | e] w'] eqn:E; simpl in Hp; subst.
    - unfold loads. destruct (json_loads r1); reflexivity.
    - reflexivity. }
  apply Q. destruct r2 as [q |]; [| reflexivity].
  destruct (str_truthy q); [| reflexivity].
  unfold loads. destruct (json_loads q); reflexivity.
Qed.

Lemma get_cached_content_miss (orc : oracle) (env : nat -> db -> db) (w : world)
    (lesson_id : Z) (style : string) :
  fits_int64 lesson_id = true ->
  sql_select_cached lesson_id style (env (clock w) (store w)) = None ->
  exec orc env (get_cached_content lesson_id style) w =
  (Ok None, {| store := env (clock w) (store w);
               trace := Ev (SelectCachedContent lesson_id style) :: trace w |}).
Proof.
  intros F H. unfold get_cached_content. rewrite exec_bind, exec_perform. cbn [handle].
  rewrite (binding_fits _ _ _ F), H. reflexivity.
Qed.

(** A lesson id that cannot be bound fails the lookup. *)
Lemma get_cached_content_far (orc : oracle) (env : nat -> db -> db) (w : world)
    (lesson_id : Z) (style : string) :
  fits_int64 lesson_id = false ->
  exec orc env (get_cached_content lesson_id style) w =
  (Raise OverflowError,
   {| store := env (clock w) (store w);
      trace := Ev (SelectCachedContent lesson_id style) :: trace w |}).
Proof.
  intros F. unfold get_cached_content. rewrite exec_bind, exec_perform. cbn [handle].
  rewrite (binding_far _ _ _ F). reflexivity.
Qed.

(** The value read back from a stored row whose texts decode. *)
Lemma get_cached_content_hit (orc : oracle) (env : nat -> db -> db) (w : world)
    (lesson_id : Z) (style ct dj : string) (qj : option string) (d : json) :
  sql_select_cached lesson_id style (env (clock w) (store w)) = Some (ct, dj, qj) ->
  json_loads dj = Some d ->
  forall quiz,
    match qj with
    | Some q => if str_truthy q then json_loads q = Some quiz else quiz = JNull
    | None => quiz = JNull
    end ->
    exec orc env (get_cached_content lesson_id style) w =
    (Ok (Some {| content_type := ct; data := d; quiz_data := quiz |}),
     {| store := env (clock w) (store w);
        trace := Ev (SelectCachedContent lesson_id style) :: trace w |}).
Proof.
  intros H Hd quiz Hq. unfold get_cached_content.
  rewrite exec_bind, exec_perform. cbn [handle].
  rewrite (binding_fits _ _ _ (select_cached_fits _ _ _ _ H)), H, exec_bind.
  destruct qj as [q |].
  - destruct (str_truthy q).
    + unfold loads. rewrite Hq, Hd. reflexivity.
    + subst quiz. unfold loads. rewrite Hd. reflexivity.
  - subst quiz. unfold loads. rewrite Hd. reflexivity.
Qed.

Lemma get_cached_content_result (orc : oracle) (w v : world)
    (lesson_id : Z) (style : string) :
  store w = store v ->
  fst (run orc (get_cached_content lesson_id style) w) =
  fst (run orc (get_cached_content lesson_id style) v).
Proof.
  intros E. unfold run, get_cached_content.
  rewrite !exec_bind, !exec_perform. cbn [handle]. unfold alone. rewrite E.
  unfold binding. destruct (fits_int64 lesson_id); [| reflexivity].
  destruct (sql_select_cached lesson_id style (store v)) as [[[r0 r1] r2] |];
    [| reflexivity].
  rewrite !exec_bind. unfold loads.
  destruct r2 as [q |]; [destruct (str_truthy q); [destruct (json_loads q) |] |];
    simpl; try reflexivity; destruct (json_loads r1); reflexivity.
Qed.

(** The row found under a key right after a write that found it free. *)
Lemma select_after_insert (lesson_id : Z) (style ct : string) (d q : json) (s : db) :
  fits_int64 lesson_id = true ->
  sql_select_cached lesson_id style s = None ->
  sql_select_cached lesson_id style
    (snd (sql_insert_content (content_row_of lesson_id style ct d q) s)) =
  Some (ct, json_dumps d, if truthy q then Some (json_dumps q) else None).
Proof.
  intros F Hfree.
  rewrite insert_content_fresh by assumption. cbn [snd].
  unfold sql_select_cached. rewrite F. cbn [generated_content].
  rewrite find_app_none by (apply (select_cached_none _ _ _ F); exact Hfree).
  cbn [find]. rewrite (content_key_is_self (content_row_of lesson_id style ct d q)).
  reflexivity.
Qed.

(** Reading back right after a write under a free key. *)
Lemma put_then_get (orc : oracle) (w : world) (lesson_id : Z) (style ct : string)
    (d q : json) :
  fits_int64 lesson_id = true ->
  sql_select_cached lesson_id style (store w) = None ->
  json_loads (json_dumps d) = Some d ->
  (truthy q = true -> json_loads (json_dumps q) = Some q /\ json_dumps q <> "") ->
  fst (run orc (get_cached_content lesson_id style)
         (snd (run orc (cache_content lesson_id style ct d q) w))) =
  Ok (Some {| content_type := ct; data := d; quiz_data := stored_quiz q |}).
Proof.
  intros F Hfree Hd Hq. unfold run. rewrite cache_content_exec. cbn [snd].
  change (alone (clock w) (store w)) with (store w).
  erewrite get_cached_content_hit; [reflexivity | | exact Hd |].
  - unfold alone. cbn [store]. apply select_after_insert; assumption.
  - cbn beta. unfold stored_quiz. destruct (truthy q) eqn:T; [| reflexivity].
    destruct (Hq eq_refl) as [Hl Hne]. unfold str_truthy.
    destruct (String.eqb_spec (json_dumps q) ""); [contradiction | exact Hl].
Qed.

(** Two writes under a key that was free: the second changes nothing. *)
Lemma put_twice (orc : oracle) (w : world) (lesson_id : Z) (style : string)
    (ct1 : string) (d1 q1 : json) (ct2 : string) (d2 q2 : json) :
  fits_int64 lesson_id = true ->
  sql_select_cached lesson_id style (store w) = None ->
  let w1 := snd (run orc (cache_content lesson_id style ct1 d1 q1) w) in
  let out2 := run orc (cache_content lesson_id style ct2 d2 q2) w1 in
  fst out2 = Ok tt /\
  store (snd out2) = store w1 /\
  key_rows lesson_id style (store (snd out2)) =
    [content_row_of lesson_id style ct1 d1 q1].
Proof.
  intros F Hfree w1 out2.
  assert (S1 : store w1 =
               {| lessons := lessons (store w);
                  generated_content :=
                    generated_content (store w) ++ [content_row_of lesson_id style ct1 d1 q1];
                  socratic_dialogues := socratic_dialogues (store w) |}).
  { unfold w1, run. rewrite cache_content_exec. cbn [snd store]. unfold alone.
    rewrite insert_content_fresh by assumption. reflexivity. }
  assert (Hsel : sql_select_cached lesson_id style (store w1) <> None).
  { unfold w1, run. rewrite cache_content_exec. cbn [snd store]. unfold alone.
    rewrite select_after_insert by assumption. discriminate. }
  assert (S2 : store (snd out2) = store w1).
  { unfold out2, run. rewrite cache_content_exec. cbn [snd store]. unfold alone.
    rewrite insert_content_taken; [reflexivity | exact Hsel]. }
  split; [unfold out2, run; rewrite cache_content_exec, F; reflexivity |].
  split; [exact S2 |].
  rewrite S2, S1. unfold key_rows. cbn [generated_content]. rewrite filter_app.
  rewrite find_none_filter by (apply (select_cached_none _ _ _ F); exact Hfree).
  cbn [filter app]. rewrite (content_key_is_self (content_row_of lesson_id style ct1 d1 q1)).
  reflexivity.
Qed.

(** A write under a lesson id that cannot be bound raises and stores
    nothing. *)
Lemma put_far (orc : oracle) (w : world) (lesson_id : Z) (style ct : string) (d q : json) :
  fits_int64 lesson_id = false ->
  run orc (cache_content lesson_id style ct d q) w =
  (Raise OverflowError,
   logged (InsertGeneratedContent (content_row_of lesson_id style ct d q)) w).
Proof.
  intros F. unfold run. rewrite cache_content_exec, F. unfold alone.
  rewrite insert_content_far by exact F. reflexivity.
Qed.

End ContentStore.

(** What the reference library needs of a payload to read it back. *)
Lemma serializable_round_trip (v : json) :
  serializable v ->
  json_loads (PyLib := PyRef.lib) (json_dumps (PyLib := PyRef.lib) v) = Some v /\
  json_dumps (PyLib := PyRef.lib) v <> "".
Proof.
  intros H. split; [exact (loads_dumps 100 v H) | exact (dumps_nonempty v)].
Qed.



(** ** Content orchestrator *)

Section Orchestrator.
Context {py : PyLib}.

Lemma serve_from_cache_exec (orc : oracle) (env : nat -> db -> db) (w : world)
    (lesson_id : Z) (style : string) (c : cached) :
  fits_int64 lesson_id = true ->
  exec orc env (serve_from_cache lesson_id style c) w =
  (Ok {| ac_lesson_id := lesson_id;
         ac_lesson_title :=
           match sql_select_lesson_title lesson_id (env (clock w) (store w)) with
           | Some t => t
           | None => "Unknown Topic"
           end;
         ac_learning_style := style;
         ac_content_type := content_type c;
         ac_data := data c |},
   {| store := env (clock w) (store w);
      trace := Ev (SelectLessonTitle lesson_id) :: trace w |}).
Proof.
  intros F. unfold serve_from_cache. rewrite exec_bind, exec_perform. cbn [handle].
  rewrite (binding_fits _ _ _ F). reflexivity.
Qed.

(** The generation step performs collaborator calls only: it adds no cache
    read to the trace, whatever the other requests do meanwhile. *)
Lemma generate_fn_trace (orc : oracle) (env : nat -> db -> db) (w : world)
    (style text : string) :
  let wg := snd (exec orc env (generate_fn style text) w) in
  cache_reads wg = cache_reads w /\
  exists calls, trace wg = (calls ++ trace w)%list /\ forallb is_generation calls = true.
Proof.
  unfold generate_fn, generate_image_from_dalle, generate_audio_from_openai,
    generate_text_from_gpt, cache_reads.
  destruct (style =? "Visual")%string; [| destruct (style =? "Auditory")%string].
  - rewrite exec_bind, exec_perform. cbn -[append].
    destruct (images_generate orc _ _ _); cbn -[append];
      (split; [reflexivity | eexists [_]; split; reflexivity]).
  - rewrite !exec_bind, exec_perform. cbn -[append].
    destruct (chat_completion orc _ _ _); cbn -[append];
      [| split; [reflexivity | eexists [_]; split; reflexivity]].
    destruct (speech_to_file orc _ _ _ _); cbn -[append];
      (split; [reflexivity | eexists [_; _]; split; reflexivity]).
  - rewrite exec_bind, exec_perform. cbn -[append].
    destruct (chat_completion orc _ _ _); cbn -[append];
      (split; [reflexivity | eexists [_]; split; reflexivity]).
Qed.

(** Served alone, the generation step leaves the store as it was. *)
Lemma generate_fn_store (orc : oracle) (w : world) (style text : string) :
  store (snd (run orc (generate_fn style text) w)) = store w.
Proof.
  unfold run, generate_fn, generate_image_from_dalle, generate_audio_from_openai,
    generate_text_from_gpt.
  destruct (style =? "Visual")%string; [| destruct (style =? "Auditory")%string].
  - rewrite exec_bind, exec_perform. cbn -[append].
    destruct (images_generate orc _ _ _); reflexivity.
  - rewrite !exec_bind, exec_perform. cbn -[append].
    destruct (chat_completion orc _ _ _); cbn -[append]; [| reflexivity].
    destruct (speech_to_file orc _ _ _ _); reflexivity.
  - rewrite exec_bind, exec_perform. cbn -[append].
    destruct (chat_completion orc _ _ _); reflexivity.
Qed.

(** An exception leaving the generation step is one a collaborator
    raised. *)
Lemma generate_fn_raises (orc : oracle) (env : nat -> db -> db) (w wg : world)
    (style text : string) (e : exn) :
  exec orc env (generate_fn style text) w = (Raise e, wg) ->
  (exists t m msgs, chat_completion orc t m msgs = Raise e) \/
  (exists t m p, images_generate orc t m p = Raise e) \/
  (exists t m v i, speech_to_file orc t m v i = Raise e).
Proof.
  unfold generate_fn, generate_image_from_dalle, generate_audio_from_openai,
    generate_text_from_gpt.
  destruct (style =? "Visual")%string; [| destruct (style =? "Auditory")%string].
  - rewrite exec_bind, exec_perform. cbn -[append].
    destruct (images_generate orc _ _ _) eqn:O; cbn -[append]; intros H;
      inversion H; subst. right; left. eauto.
  - rewrite !exec_bind, exec_perform. cbn -[append].
    destruct (chat_completion orc _ _ _) eqn:O; cbn -[append].
    + destruct (speech_to_file orc _ _ _ _) eqn:O2; cbn -[append]; intros H;
        inversion H; subst. right; right. eauto.
    + intros H; inversion H; subst. left. eauto.
  - rewrite exec_bind, exec_perform. cbn -[append].
    destruct (chat_completion orc _ _ _) eqn:O; cbn -[append]; intros H;
      inversion H; subst. left. eauto.
Qed.

(** The path after a miss, step by step. *)
Lemma generate_and_cache_exec (orc : oracle) (env : nat -> db -> db) (w : world)
    (lesson_id : Z) (style : string) :
  let w2 := {| store := env (clock w) (store w);
               trace := Ev (SelectLesson lesson_id) :: trace w |} in
  fits_int64 lesson_id = true ->
  exec orc env (generate_and_cache lesson_id style) w =
  match sql_select_lesson lesson_id (store w2) with
  | None => (Raise (HTTPException 404 "Lesson not found"), w2)
  | Some (title, text) =>
      match exec orc env (generate_fn style text) w2 with
      | (Ok (ct, d), wg) =>
          (Ok {| ac_lesson_id := lesson_id; ac_lesson_title := title;
                 ac_learning_style := style; ac_content_type := ct; ac_data := d |},
           {| store := snd (sql_insert_content
                              (content_row_of lesson_id style ct d JNull)
                              (env (clock wg) (store wg)));
              trace := Ev (InsertGeneratedContent
                             (content_row_of lesson_id style ct d JNull)) :: trace wg |})
      | (Raise e, wg) => (Raise e, wg)
      end
  end.
Proof.
  intros w2 F. unfold generate_and_cache. rewrite exec_bind, exec_perform.
  subst w2. cbn [handle store]. rewrite (binding_fits _ _ _ F).
  destruct (sql_select_lesson lesson_id (env (clock w) (store w))) as [[title text] |];
    [| reflexivity].
  rewrite exec_bind.
  match goal with
  | |- context [exec orc env (generate_fn style text) ?v] =>
      destruct (exec orc env (generate_fn style text) v) as [[[ct d] | e] wg]
  end; [| reflexivity].
  rewrite exec_bind, cache_content_exec, F. reflexivity.
Qed.

(** C5: when the store holds a row for the key of the request, serving
    the request adds no collaborator call to the trace and leaves the store
    as it was; and when the row reads back as [c], the response carries the
    content type and data of [c]. *)
Theorem cache_hit_skips_generation (orc : oracle) (w : world) (request : AdaptationRequest)
    (ct dj : string) (qj : option string) :
  sql_select_cached (ar_lesson_id request) (ar_style request) (store w) = Some (ct, dj, qj) ->
  let out := run orc (generate_adapted_content request) w in
  generation_calls (snd out) = generation_calls w /\
  store (snd out) = store w /\
  (forall c,
     fst (run orc (get_cached_content (ar_lesson_id request) (ar_style request)) w)
       = Ok (Some c) ->
     content_type c = ct /\
     json_loads dj = Some (data c) /\
     fst out =
       Ok {| ac_lesson_id := ar_lesson_id request;
             ac_lesson_title :=
               match sql_select_lesson_title (ar_lesson_id request) (store w) with
               | Some t => t
               | None => "Unknown Topic"
               end;
             ac_learning_style := ar_style request;
             ac_content_type := content_type c;
             ac_data := data c |} /\
     trace (snd out) =
       Ev (SelectLessonTitle (ar_lesson_id request))
       :: Ev (SelectCachedContent (ar_lesson_id request) (ar_style request))
       :: trace w).
Proof.
  intros Hrow out. unfold out, run, generate_adapted_content.
  pose proof (select_cached_fits _ _ _ _ Hrow) as F.
  rewrite exec_bind.
  pose proof (get_cached_content_world orc alone w (ar_lesson_id request)
                (ar_style request)) as W.
  assert (G : fst (exec orc alone
                     (get_cached_content (ar_lesson_id request) (ar_style request)) w)
              <> Ok None).
  { unfold get_cached_content. rewrite exec_bind, exec_perform. cbn [handle].
    change (alone (clock w) (store w)) with (store w).
    rewrite (binding_fits _ _ _ F), Hrow.
    rewrite exec_bind. unfold loads.
    destruct qj as [q |]; [destruct (str_truthy q); [destruct (json_loads q) |] |];
      simpl; try discriminate; destruct (json_loads dj); simpl; discriminate. }
  assert (D : forall c,
             fst (exec orc alone
                    (get_cached_content (ar_lesson_id request) (ar_style request)) w)
             = Ok (Some c) -> content_type c = ct /\ json_loads dj = Some (data c)).
  { unfold get_cached_content. rewrite exec_bind, exec_perform. cbn [handle].
    change (alone (clock w) (store w)) with (store w).
    rewrite (binding_fits _ _ _ F), Hrow.
    rewrite exec_bind. unfold loads. intros c.
    destruct qj as [q |]; [destruct (str_truthy q); [destruct (json_loads q) |] |];
      simpl; try discriminate; destruct (json_loads dj); simpl; try discriminate;
      intros H; inversion H; subst; simpl; auto. }
  destruct (exec orc alone
              (get_cached_content (ar_lesson_id request) (ar_style request)) w)
    as [[[c |] | e] w1]; simpl in W, G; subst w1.
  - rewrite serve_from_cache_exec by exact F. simpl. unfold alone.
    split; [reflexivity |]. split; [reflexivity |].
    intros c' Hc. inversion Hc; subst c'.
    destruct (D c eq_refl) as [D1 D2]. auto.
  - contradiction.
  - simpl. split; [reflexivity |]. split; [reflexivity |].
    intros c' Hc. discriminate.
Qed.

(** A request served alone whose lookup misses. *)
Lemma generate_adapted_content_miss (orc : oracle) (w : world) (request : AdaptationRequest) :
  let lesson_id := ar_lesson_id request in
  let style := ar_style request in
  let w2 := logged (SelectLesson lesson_id) (logged (SelectCachedContent lesson_id style) w) in
  fits_int64 lesson_id = true ->
  sql_select_cached lesson_id style (store w) = None ->
  run orc (generate_adapted_content request) w =
  match sql_select_lesson lesson_id (store w) with
  | None => (Raise (HTTPException 404 "Lesson not found"), w2)
  | Some (title, text) =>
      match run orc (generate_fn style text) w2 with
      | (Ok (ct, d), wg) =>
          (Ok {| ac_lesson_id := lesson_id; ac_lesson_title := title;
                 ac_learning_style := style; ac_content_type := ct; ac_data := d |},
           {| store := snd (sql_insert_content
                              (content_row_of lesson_id style ct d JNull) (store wg));
              trace := Ev (InsertGeneratedContent
                             (content_row_of lesson_id style ct d JNull)) :: trace wg |})
      | (Raise e, wg) => (Raise e, wg)
      end
  end.
Proof.
  intros lesson_id style w2 F Hmiss. unfold run, generate_adapted_content.
  rewrite exec_bind.
  rewrite get_cached_content_miss by assumption.
  rewrite generate_and_cache_exec by exact F. reflexivity.
Qed.

(** A request whose lesson id cannot be bound fails at the lookup. *)
Lemma generate_adapted_content_far (orc : oracle) (env : nat -> db -> db) (w : world)
    (request : AdaptationRequest) :
  fits_int64 (ar_lesson_id request) = false ->
  exec orc env (generate_adapted_content request) w =
  (Raise OverflowError,
   {| store := env (clock w) (store w);
      trace := Ev (SelectCachedContent (ar_lesson_id request) (ar_style request))
               :: trace w |}).
Proof.
  intros F. unfold generate_adapted_content. rewrite exec_bind.
  rewrite get_cached_content_far by exact F. reflexivity.
Qed.

(** C6: after a miss for an existing lesson, an exception raised by the
    generation step leaves [generate_adapted_content] as it is, it is an
    exception a collaborator raised, and the store is the one the request
    started from: the key still has no row. *)
Theorem generation_failure_propagates (orc : oracle) (w wg : world)
    (request : AdaptationRequest) (title text : string) (e : exn) :
  sql_select_cached (ar_lesson_id request) (ar_style request) (store w) = None ->
  sql_select_lesson (ar_lesson_id request) (store w) = Some (title, text) ->
  run orc (generate_fn (ar_style request) text)
    (logged (SelectLesson (ar_lesson_id request))
       (logged (SelectCachedContent (ar_lesson_id request) (ar_style request)) w))
    = (Raise e, wg) ->
  run orc (generate_adapted_content request) w = (Raise e, wg) /\
  store wg = store w /\
  sql_select_cached (ar_lesson_id request) (ar_style request) (store wg) = None /\
  ((exists t m msgs, chat_completion orc t m msgs = Raise e) \/
   (exists t m p, images_generate orc t m p = Raise e) \/
   (exists t m v i, speech_to_file orc t m v i = Raise e)).
Proof.
  intros Hmiss Hlesson Hgen.
  assert (S : store wg = store w).
  { pose proof (generate_fn_store orc
                  (logged (SelectLesson (ar_lesson_id request))
                     (logged (SelectCachedContent (ar_lesson_id request)
                                (ar_style request)) w))
                  (ar_style request) text) as K.
    rewrite Hgen in K. exact K. }
  split.
  - rewrite generate_adapted_content_miss
      by (try exact Hmiss; exact (select_lesson_fits _ _ _ Hlesson)).
    rewrite Hlesson, Hgen. reflexivity.
  - split; [exact S |]. split; [rewrite S; exact Hmiss |].
    exact (generate_fn_raises orc alone _ _ _ _ _ Hgen).
Qed.

(** C7, as the code has it.  A request for a lesson that has no record,
    under a lesson id SQLite can bind, is answered 404 "Lesson not found"
    when the key has no cached row, with no collaborator called and the
    store untouched; when the key has a cached row that reads back as [c],
    the request is answered with [c] under the title "Unknown Topic".  A
    miss for a lesson that exists is not an error: the answer is what the
    generation step produced.  A request whose lesson id is outside the
    64-bit range fails with [OverflowError] at the cache lookup, before
    the lesson is looked up. *)
Theorem missing_lesson_outcome (orc : oracle) (w : world) (request : AdaptationRequest) :
  let lesson_id := ar_lesson_id request in
  let style := ar_style request in
  let out := run orc (generate_adapted_content request) w in
  (fits_int64 lesson_id = true ->
   sql_select_lesson lesson_id (store w) = None ->
   sql_select_cached lesson_id style (store w) = None ->
   fst out = Raise (HTTPException 404 "Lesson not found") /\
   generation_calls (snd out) = generation_calls w /\
   store (snd out) = store w) /\
  (sql_select_lesson lesson_id (store w) = None ->
   forall c, fst (run orc (get_cached_content lesson_id style) w) = Ok (Some c) ->
   fst out = Ok {| ac_lesson_id := lesson_id; ac_lesson_title := "Unknown Topic";
                   ac_learning_style := style; ac_content_type := content_type c;
                   ac_data := data c |}) /\
  (forall title text ct d wg,
     sql_select_lesson lesson_id (store w) = Some (title, text) ->
     sql_select_cached lesson_id style (store w) = None ->
     run orc (generate_fn style text)
       (logged (SelectLesson lesson_id) (logged (SelectCachedContent lesson_id style) w))
       = (Ok (ct, d), wg) ->
     fst out = Ok {| ac_lesson_id := lesson_id; ac_lesson_title := title;
                     ac_learning_style := style; ac_content_type := ct;
                     ac_data := d |}) /\
  (fits_int64 lesson_id = false ->
   fst out = Raise OverflowError /\
   generation_calls (snd out) = generation_calls w /\
   store (snd out) = store w).
Proof.
  intros lesson_id style out. subst lesson_id style out. split; [| split; [| split]].
  - intros F Hlesson Hmiss.
    rewrite generate_adapted_content_miss by assumption.
    rewrite Hlesson. simpl. auto.
  - intros Hlesson c Hc.
    destruct (fits_int64 (ar_lesson_id request)) eqn:F.
    + unfold run, generate_adapted_content in *.
      rewrite exec_bind.
      pose proof (get_cached_content_world orc alone w (ar_lesson_id request)
                    (ar_style request)) as W.
      destruct (exec orc alone
                  (get_cached_content (ar_lesson_id request) (ar_style request)) w)
        as [r w1]. simpl in Hc, W. subst r w1.
      rewrite serve_from_cache_exec by exact F. cbn [fst store]. unfold alone.
      replace (sql_select_lesson_title (ar_lesson_id request) (store w)) with (@None string);
        [reflexivity |].
      unfold sql_select_lesson in Hlesson. unfold sql_select_lesson_title.
      rewrite F in *.
      destruct (find _ (lessons (store w))); [discriminate | reflexivity].
    + unfold run in Hc. rewrite get_cached_content_far in Hc by exact F. discriminate.
  - intros title text ct d wg Hlesson Hmiss Hgen.
    rewrite generate_adapted_content_miss
      by (try exact Hmiss; exact (select_lesson_fits _ _ _ Hlesson)).
    rewrite Hlesson, Hgen. reflexivity.
  - intros F. unfold run. rewrite generate_adapted_content_far by exact F.
    cbn [fst snd store]. auto.
Qed.

(** C8: a request whose lookup missed and whose generation step produced
    [(ct, d)] is answered with [(ct, d)], whatever the other requests did to
    the store at any moment ([env] is arbitrary).  The store after the
    request is the outcome of the insert on the store found at that moment;
    if the key had a row by then, that is the store as found, with the
    other writer's row.  The lookup at the start is the only cache read of
    the request. *)
Theorem own_payload_returned (orc : oracle) (env : nat -> db -> db) (w wg : world)
    (request : AdaptationRequest) (title text ct : string) (d : json) :
  let lesson_id := ar_lesson_id request in
  let style := ar_style request in
  let w1 := {| store := env (clock w) (store w);
               trace := Ev (SelectCachedContent lesson_id style) :: trace w |} in
  let w2 := {| store := env (clock w1) (store w1);
               trace := Ev (SelectLesson lesson_id) :: trace w1 |} in
  sql_select_cached lesson_id style (store w1) = None ->
  sql_select_lesson lesson_id (store w2) = Some (title, text) ->
  exec orc env (generate_fn style text) w2 = (Ok (ct, d), wg) ->
  let out := exec orc env (generate_adapted_content request) w in
  let found := env (clock wg) (store wg) in
  fst out = Ok {| ac_lesson_id := lesson_id; ac_lesson_title := title;
                  ac_learning_style := style; ac_content_type := ct; ac_data := d |} /\
  store (snd out) = snd (sql_insert_content (content_row_of lesson_id style ct d JNull) found) /\
  (forall other, sql_select_cached lesson_id style found = Some other ->
     store (snd out) = found /\
     sql_select_cached lesson_id style (store (snd out)) = Some other) /\
  cache_reads (snd out) = Ev (SelectCachedContent lesson_id style) :: cache_reads w.
Proof.
  intros lesson_id style w1 w2 Hmiss Hlesson Hgen out found.
  assert (E : out =
              (Ok {| ac_lesson_id := lesson_id; ac_lesson_title := title;
                     ac_learning_style := style; ac_content_type := ct; ac_data := d |},
               {| store := snd (sql_insert_content
                                  (content_row_of lesson_id style ct d JNull) found);
                  trace := Ev (InsertGeneratedContent
                                 (content_row_of lesson_id style ct d JNull))
                           :: trace wg |})).
  { pose proof (select_lesson_fits _ _ _ Hlesson) as F.
    unfold out, generate_adapted_content. rewrite exec_bind.
    rewrite get_cached_content_miss by assumption. fold lesson_id style w1.
    rewrite generate_and_cache_exec by exact F. fold w2. rewrite Hlesson, Hgen.
    reflexivity. }
  rewrite E. cbn [fst snd store trace].
  split; [reflexivity |]. split; [reflexivity |]. split.
  - intros other Hother.
    rewrite insert_content_taken by (simpl; rewrite Hother; discriminate).
    auto.
  - pose proof (generate_fn_trace orc env w2 style text) as T.
    rewrite Hgen in T. destruct T as [T _]. unfold cache_reads in *. simpl in T.
    simpl. exact T.
Qed.

End Orchestrator.


(** ** Recommendation *)

Lemma sorts_before_iff (a b : agg_row) :
  sorts_before a b = true <-> ranks_no_later a b.
Proof.
  unfold sorts_before, order_by, ranks_no_later, avg_desc.
  destruct (ag_avg a) as [x |], (ag_avg b) as [y |].
  - destruct (y ?= x)%Q eqn:C.
    + apply Qeq_alt in C.
      destruct (Nat.compare_spec (ag_count b) (ag_count a)) as [E | L | G].
      * split; [intros _; right; split; [exact C | lia] | reflexivity].
      * split; [intros _; right; split; [exact C | lia] | reflexivity].
      * split; [discriminate | intros [H | [_ H]]; [lra | lia]].
    + apply Qlt_alt in C. split; [left; exact C | reflexivity].
    + apply Qgt_alt in C. split; [discriminate | intros [H | [H _]]; lra].
  - split; [intros _; exact I | reflexivity].
  - split; [discriminate | contradiction].
  - destruct (Nat.compare_spec (ag_count b) (ag_count a)) as [E | L | G].
    + split; [intros _; lia | reflexivity].
    + split; [intros _; lia | reflexivity].
    + split; [discriminate | lia].
Qed.

Lemma ranks_total (a b : agg_row) : ranks_no_later a b \/ ranks_no_later b a.
Proof.
  unfold ranks_no_later.
  destruct (ag_avg a) as [x |], (ag_avg b) as [y |]; auto; [| lia].
  destruct (Q_dec x y) as [[L | G] | E]; auto.
  destruct (Nat.le_ge_cases (ag_count a) (ag_count b)).
  - right. right. split; [exact E | assumption].
  - left. right. split; [symmetry; exact E | assumption].
Qed.

Lemma ranks_trans (a b c : agg_row) :
  ranks_no_later a b -> ranks_no_later b c -> ranks_no_later a c.
Proof.
  unfold ranks_no_later.
  destruct (ag_avg a) as [x |], (ag_avg b) as [y |], (ag_avg c) as [z |];
    try tauto; try lia.
  intros [H1 | [H1 K1]] [H2 | [H2 K2]].
  - left. lra.
  - left. lra.
  - left. lra.
  - right. split; [lra | lia].
Qed.

Lemma insert_sorted_In (r x : agg_row) (l : list agg_row) :
  In x (insert_sorted r l) <-> x = r \/ In x l.
Proof.
  induction l as [| y l IH]; simpl.
  - intuition.
  - destruct (sorts_before r y); simpl; [intuition | rewrite IH; intuition].
Qed.

Lemma sort_rows_In (x : agg_row) (l : list agg_row) :
  In x (sort_rows l) <-> In x l.
Proof.
  induction l as [| y l IH]; simpl; [tauto |].
  rewrite insert_sorted_In, IH. intuition.
Qed.

(** The first row of the sorted result is placed no later than any row of
    the input. *)
Lemma sort_rows_head (l : list agg_row) (h : agg_row) (t : list agg_row) :
  sort_rows l = h :: t -> forall x, In x l -> ranks_no_later h x.
Proof.
  revert h t. induction l as [| a l IH]; intros h t E x Hin; [contradiction |].
  simpl in E. destruct (sort_rows l) as [| h' t'] eqn:S.
  - simpl in E. injection E as E1 E2. subst h.
    destruct Hin as [<- | Hin].
    + destruct (ranks_total a a); assumption.
    + apply (sort_rows_In x l) in Hin. rewrite S in Hin. contradiction.
  - specialize (IH h' t' eq_refl). simpl in E.
    destruct (sorts_before a h') eqn:B.
    + injection E as E1 E2. subst h. apply sorts_before_iff in B.
      destruct Hin as [<- | Hin].
      * destruct (ranks_total a a); assumption.
      * eapply ranks_trans; [exact B | apply IH; exact Hin].
    + injection E as E1 E2. subst h.
      assert (B' : ranks_no_later h' a).
      { destruct (ranks_total h' a) as [K | K]; [exact K |].
        apply sorts_before_iff in K. congruence. }
      destruct Hin as [<- | Hin]; [exact B' | apply IH; exact Hin].
Qed.

Lemma style_group_nonempty (s : string) (rows : list dialogue_row) :
  (0 < List.length (style_group s rows))%nat <-> In s (map sd_style rows).
Proof.
  unfold style_group. induction rows as [| r rows IH]; simpl; [lia |].
  destruct (String.eqb_spec (sd_style r) s) as [E | N]; simpl.
  - split; [auto | lia].
  - rewrite IH. intuition.
Qed.

Lemma group_by_style_In (g : agg_row) (rows : list dialogue_row) :
  In g (group_by_style rows) <->
  exists s, In s (map sd_style rows) /\
            g = {| ag_style := s;
                   ag_avg := sql_avg (map sd_understanding_score (style_group s rows));
                   ag_count := List.length (style_group s rows) |}.
Proof.
  unfold group_by_style, distinct_styles. rewrite in_map_iff.
  split; intros (s & A & B).
  - exists s. rewrite nodup_In in B. auto.
  - exists s. rewrite nodup_In. auto.
Qed.

Lemma non_null_graded (g : list dialogue_row) :
  Forall (fun r => sd_understanding_score r <> None) g ->
  List.length (non_null (map sd_understanding_score g)) = List.length g.
Proof.
  induction 1 as [| r g Hr _ IH]; simpl; [reflexivity |].
  destruct (sd_understanding_score r); [simpl; rewrite IH; reflexivity | contradiction].
Qed.

(** On a graded, non-empty group [AVG] is the double average of the
    scores. *)
Lemma sql_avg_graded (g : list dialogue_row) :
  Forall (fun r => sd_understanding_score r <> None) g ->
  (0 < List.length g)%nat ->
  sql_avg (map sd_understanding_score g) =
  Some (double_avg (non_null (map sd_understanding_score g))).
Proof.
  intros G P. unfold sql_avg. pose proof (non_null_graded g G) as L.
  destruct (non_null (map sd_understanding_score g)) as [| v vs]; simpl in L.
  - lia.
  - reflexivity.
Qed.

Lemma fraction_as_quotient (t : Z) (n : nat) :
  (0 < n)%nat -> (t # Pos.of_nat n == inject_Z t / inject_Z (Z.of_nat n))%Q.
Proof.
  intros P. rewrite Qmake_Qdiv.
  replace (Z.pos (Pos.of_nat n)) with (Z.of_nat n); [reflexivity |].
  rewrite <- (Nat2Pos.id n) at 1 by lia. apply positive_nat_Z.
Qed.

Lemma graded_style_group (lesson_id : Z) (s : string) (d : db) :
  graded lesson_id d ->
  Forall (fun r => sd_understanding_score r <> None)
    (style_group s (lesson_dialogues lesson_id d)).
Proof.
  intros G. unfold style_group. apply Forall_forall. intros r Hr.
  apply filter_In in Hr. destruct Hr as [Hr _].
  unfold graded in G. rewrite Forall_forall in G. auto.
Qed.

(** The aggregate row of a style with records, on a graded lesson. *)
Lemma graded_group (lesson_id : Z) (s : string) (d : db) :
  graded lesson_id d ->
  (0 < record_count lesson_id s d)%nat ->
  In {| ag_style := s; ag_avg := Some (double_mean lesson_id s d);
        ag_count := record_count lesson_id s d |}
     (group_by_style (lesson_dialogues lesson_id d)).
Proof.
  intros G P. unfold record_count in *.
  apply group_by_style_In. exists s. split.
  - apply style_group_nonempty. exact P.
  - rewrite sql_avg_graded; [reflexivity | | exact P].
    apply graded_style_group. exact G.
Qed.

(** *** Small scores are exact in doubles *)

Lemma same_double_eq (x y : spec_float) : same_double x y = true -> x = y.
Proof.
  destruct x as [a | a | | a m e], y as [b | b | | b m' e']; cbn; try discriminate;
    try reflexivity.
  - intros H. apply Bool.eqb_prop in H. congruence.
  - intros H. apply Bool.eqb_prop in H. congruence.
  - intros H. apply andb_true_iff in H. destruct H as [H H3].
    apply andb_true_iff in H. destruct H as [H1 H2].
    apply Bool.eqb_prop in H1. apply Pos.eqb_eq in H2. apply Z.eqb_eq in H3. congruence.
Qed.

Lemma upto_In (n : nat) (z : Z) : 0 <= z <= Z.of_nat n -> In z (upto n).
Proof.
  intros H. unfold upto. apply in_map_iff. exists (Z.to_nat z).
  split; [lia |]. apply in_seq. lia.
Qed.

(** Checked for every running sum up to 500 and every score from 0 to
    5. *)
Lemma small_sums_exact :
  forallb (fun a => forallb (sum_exact_at a) (upto 5)) (upto 500) = true.
Proof. vm_cast_no_check (eq_refl true). Qed.

(** Checked for every count up to 100 and every sum of that many scores
    from 0 to 5. *)
Lemma small_quotients_agree :
  forallb (fun n => forallb (quotient_agrees_at n) (upto (5 * n))) (seq 1 100) = true.
Proof. vm_cast_no_check (eq_refl true). Qed.

Lemma small_sum_step (a b : Z) :
  0 <= a <= 500 -> 0 <= b <= 5 ->
  SFadd 53 1024 (double_of_int a) (double_of_int b) = double_of_int (a + b).
Proof.
  intros Ha Hb.
  pose proof (proj1 (forallb_forall _ _) small_sums_exact a (upto_In 500 a Ha)) as T.
  cbv beta in T.
  pose proof (proj1 (forallb_forall _ _) T b (upto_In 5 b Hb)) as T2.
  exact (same_double_eq _ _ T2).
Qed.

Lemma small_quotient (t : Z) (n : nat) :
  (1 <= n <= 100)%nat -> 0 <= t <= 5 * Z.of_nat n ->
  Qle_bool 4 (double_quotient t n) = (4 * Z.of_nat n <=? t) /\
  Qle_bool (double_quotient t n) 3 = (t <=? 3 * Z.of_nat n).
Proof.
  intros Hn Ht.
  assert (In n (seq 1 100)) as Hin by (apply in_seq; lia).
  pose proof (proj1 (forallb_forall _ _) small_quotients_agree n Hin) as T.
  cbv beta in T.
  assert (In t (upto (5 * n))) as Hit by (apply upto_In; lia).
  pose proof (proj1 (forallb_forall _ _) T t Hit) as T2.
  unfold quotient_agrees_at in T2.
  apply andb_true_iff in T2. destruct T2 as [T1 T2].
  apply Bool.eqb_prop in T1. apply Bool.eqb_prop in T2. auto.
Qed.

(** The running double sum of up to 100 scores from 0 to 5 is their
    sum. *)
Lemma double_sum_small (vs : list Z) :
  (List.length vs <= 100)%nat ->
  Forall (fun v => 0 <= v <= 5) vs ->
  double_sum vs = double_of_int (sum_Z vs) /\ 0 <= sum_Z vs <= 5 * Z.of_nat (List.length vs).
Proof.
  intros L F. unfold double_sum.
  assert (G : forall acc,
             0 <= acc -> acc + 5 * Z.of_nat (List.length vs) <= 500 ->
             fold_left (fun x v => SFadd 53 1024 x (double_of_int v)) vs (double_of_int acc)
             = double_of_int (acc + sum_Z vs) /\
             0 <= sum_Z vs <= 5 * Z.of_nat (List.length vs)).
  { clear L. induction F as [| v vs Hv F IH]; intros acc A B.
    - cbn. rewrite Z.add_0_r. split; [reflexivity | lia].
    - cbn [fold_left List.length sum_Z fold_right] in *.
      rewrite small_sum_step by lia.
      destruct (IH (acc + v)) as [E R]; [lia | lia |].
      fold (sum_Z vs). rewrite E. split; [f_equal; lia | lia]. }
  apply (G 0); lia.
Qed.

(** On a nominal group the double average meets 4, or stays within 3,
    exactly when the sum of the scores does so against the count. *)
Lemma double_avg_small (vs : list Z) :
  (1 <= List.length vs <= 100)%nat ->
  Forall (fun v => 0 <= v <= 5) vs ->
  Qle_bool 4 (double_avg vs) = (4 * Z.of_nat (List.length vs) <=? sum_Z vs) /\
  Qle_bool (double_avg vs) 3 = (sum_Z vs <=? 3 * Z.of_nat (List.length vs)).
Proof.
  intros L F. destruct (double_sum_small vs (proj2 L) F) as [E R].
  unfold double_avg. rewrite E.
  exact (small_quotient (sum_Z vs) (List.length vs) L R).
Qed.

Lemma nominal_scores (lesson_id : Z) (s : string) (d : db) :
  nominal lesson_id s d ->
  let vs := non_null (map sd_understanding_score
                        (style_group s (lesson_dialogues lesson_id d))) in
  List.length vs = record_count lesson_id s d /\
  Forall (fun v => 0 <= v <= 5) vs.
Proof.
  intros [_ N]. unfold record_count.
  induction N as [| r g (n & E & R) _ [IH1 IH2]]; cbn.
  - split; [reflexivity | constructor].
  - rewrite E. cbn. split; [f_equal; exact IH1 | constructor; assumption].
Qed.

(** On a nominal group the double average reaches 4 exactly when the
    exact mean does. *)
Lemma nominal_threshold (lesson_id : Z) (s : string) (d : db) :
  nominal lesson_id s d ->
  (0 < record_count lesson_id s d)%nat ->
  (4 <= double_mean lesson_id s d)%Q <-> (4 <= mean_score lesson_id s d)%Q.
Proof.
  intros N P. destruct (nominal_scores lesson_id s d N) as [L F].
  cbv zeta in L, F.
  assert (B : (1 <= List.length
                      (non_null (map sd_understanding_score
                                   (style_group s (lesson_dialogues lesson_id d))))
               <= 100)%nat) by (destruct N; lia).
  destruct (double_avg_small _ B F) as [T _].
  unfold double_mean. rewrite <- Qle_bool_iff, T, L, Z.leb_le.
  unfold mean_score, score_total.
  set (t := sum_Z _). set (n := record_count lesson_id s d) in *.
  assert (Hn : (0 < inject_Z (Z.of_nat n))%Q).
  { change 0%Q with (inject_Z 0). rewrite <- Zlt_Qlt. lia. }
  split; intros H.
  - apply Qle_shift_div_l; [exact Hn |].
    change 4%Q with (inject_Z 4).
    rewrite <- (inject_Z_mult 4 (Z.of_nat n)). rewrite <- Zle_Qle. exact H.
  - assert (K : (4 * inject_Z (Z.of_nat n) <= inject_Z t)%Q).
    { setoid_replace (inject_Z t)
        with ((inject_Z t / inject_Z (Z.of_nat n)) * inject_Z (Z.of_nat n))%Q
        by (field; intros Z0; rewrite Z0 in Hn; apply (Qlt_irrefl 0); exact Hn).
      apply Qmult_le_compat_r; [exact H | apply Qlt_le_weak; exact Hn]. }
    change 4%Q with (inject_Z 4) in K.
    rewrite <- inject_Z_mult, <- Zle_Qle in K. exact K.
Qed.

(** The answer of [recommend_style] read off the records of the lesson,
    when every record carries a score. *)
Lemma recommend_style_graded (orc : oracle) (w : world) (lesson_id : Z) :
  fits_int64 lesson_id = true ->
  graded lesson_id (store w) ->
  exists r,
    run orc (recommend_style lesson_id) w =
      (Ok r, logged (SelectStyleAverages lesson_id) w) /\
    (lesson_dialogues lesson_id (store w) = [] -> r = None) /\
    (forall s, r = Some s ->
       (0 < record_count lesson_id s (store w))%nat /\
       (4 <= double_mean lesson_id s (store w))%Q /\
       forall s', (0 < record_count lesson_id s' (store w))%nat ->
         (double_mean lesson_id s' (store w) < double_mean lesson_id s (store w))%Q \/
         ((double_mean lesson_id s' (store w) == double_mean lesson_id s (store w))%Q /\
          (record_count lesson_id s' (store w) <= record_count lesson_id s (store w))%nat)) /\
    (r = None ->
       forall s', (0 < record_count lesson_id s' (store w))%nat ->
         (double_mean lesson_id s' (store w) < 4)%Q).
Proof.
  intros Fit G. unfold run, recommend_style. rewrite exec_bind, exec_perform.
  cbn [handle]. rewrite (binding_fits _ _ _ Fit). unfold alone, sql_style_averages.
  destruct (sort_rows (group_by_style (lesson_dialogues lesson_id (store w))))
    as [| h t] eqn:S.
  - (* no group at all *)
    eexists. split; [reflexivity |].
    assert (N : forall s', ~ (0 < record_count lesson_id s' (store w))%nat).
    { intros s' P. pose proof (graded_group lesson_id s' (store w) G P) as Hin.
      apply sort_rows_In in Hin. rewrite S in Hin. contradiction. }
    split; [reflexivity |]. split; [discriminate |].
    intros _ s' P. destruct (N s' P).
  - pose proof (sort_rows_head _ _ _ S) as Hhead.
    assert (Hh : In h (group_by_style (lesson_dialogues lesson_id (store w))))
      by (apply sort_rows_In; rewrite S; left; reflexivity).
    apply group_by_style_In in Hh. destruct Hh as (sh & Hsh & Eh).
    apply style_group_nonempty in Hsh.
    assert (Eavg : ag_avg h = Some (double_mean lesson_id sh (store w))).
    { rewrite Eh. cbn [ag_avg]. rewrite sql_avg_graded; [reflexivity | | exact Hsh].
      apply graded_style_group. exact G. }
    assert (Hcount : ag_count h = record_count lesson_id sh (store w))
      by (rewrite Eh; reflexivity).
    assert (Hstyle : ag_style h = sh) by (rewrite Eh; reflexivity).
    assert (Hall : forall s', (0 < record_count lesson_id s' (store w))%nat ->
              (double_mean lesson_id s' (store w) < double_mean lesson_id sh (store w))%Q \/
              ((double_mean lesson_id s' (store w) == double_mean lesson_id sh (store w))%Q /\
               (record_count lesson_id s' (store w) <= record_count lesson_id sh (store w))%nat)).
    { intros s' P. pose proof (graded_group lesson_id s' (store w) G P) as Hin'.
      specialize (Hhead _ Hin'). unfold ranks_no_later in Hhead.
      rewrite Eavg, Hcount in Hhead. cbn [ag_avg ag_count] in Hhead. exact Hhead. }
    rewrite Eavg, Hstyle. cbn [fst snd].
    destruct (Qle_bool 4 (double_mean lesson_id sh (store w))) eqn:T.
    + apply Qle_bool_iff in T.
      eexists. split; [reflexivity |].
      split.
      { intros Hnil. unfold record_count in Hsh. rewrite Hnil in Hsh. simpl in Hsh. lia. }
      split; [| discriminate].
      intros s Es. injection Es as <-. auto.
    + assert (T' : (double_mean lesson_id sh (store w) < 4)%Q).
      { apply Qnot_le_lt. intros K. apply Qle_bool_iff in K. congruence. }
      eexists. split; [reflexivity |].
      split; [reflexivity |]. split; [discriminate |].
      intros _ s' P. destruct (Hall s' P) as [L | [E _]]; lra.
Qed.

(** A lesson id that cannot be bound fails the query. *)
Lemma recommend_style_far (orc : oracle) (w : world) (lesson_id : Z) :
  fits_int64 lesson_id = false ->
  run orc (recommend_style lesson_id) w =
  (Raise OverflowError, logged (SelectStyleAverages lesson_id) w).
Proof.
  intros F. unfold run, recommend_style. rewrite exec_bind, exec_perform.
  cbn [handle]. rewrite (binding_far _ _ _ F). reflexivity.
Qed.


(** Every record a grading request appends carries a score, so logs
    written by the backend stay graded. *)
Lemma grade_conversation_keeps_graded {py : PyLib} (orc : oracle)
    (request : SocraticRequest) (w : world) (lesson_id : Z) :
  graded lesson_id (store w) ->
  graded lesson_id (store (snd (run orc (grade_conversation request) w))).
Proof.
  intros G. destruct (grade_conversation_appends orc request w) as (new & E & Hnew).
  unfold graded, lesson_dialogues in *. rewrite E.
  destruct (fits_int64 lesson_id); [| constructor].
  rewrite filter_app.
  apply Forall_app. split; [exact G |].
  destruct Hnew as [-> | [n ->]]; simpl; [constructor |].
  destruct (sr_lesson_id request =? lesson_id); constructor; [discriminate | constructor].
Qed.

Lemma graded_empty (lesson_id : Z) : graded lesson_id empty_db.
Proof. unfold graded, lesson_dialogues. destruct (fits_int64 lesson_id); constructor. Qed.

(** The examples of section 8 of the specification. *)
Example recommend_threshold :
  fst (run (always image_url) (recommend_style 1) (world_of sample_log)) = Ok (Some "Visual").
Proof. vm_compute. reflexivity. Qed.

Example recommend_below_threshold :
  fst (run (always image_url) (recommend_style 2) (world_of sample_log)) = Ok None.
Proof. vm_compute. reflexivity. Qed.

Example recommend_tie_break_by_count :
  fst (run (always image_url) (recommend_style 3) (world_of sample_log)) = Ok (Some "B").
Proof. vm_compute. reflexivity. Qed.

Example recommend_no_data :
  fst (run (always image_url) (recommend_style 4) (world_of sample_log)) = Ok None.
Proof. vm_compute. reflexivity. Qed.

(** ** Concrete runs *)







(** The grader answers "five": the caller gets 0 and the log stays empty.
    The grader answers "7": the caller gets 7 and the record carries 7.
    The grader answers "5" for the lesson id 2^63: the caller gets 0 and
    the log stays empty. *)
Lemma grading_failure_not_logged :
  let words := run (always (Ok "five")) (grade_conversation (py := PyRef.lib) grading_request)
                 (world_of one_lesson) in
  let seven := run (always (Ok "7")) (grade_conversation (py := PyRef.lib) grading_request)
                 (world_of one_lesson) in
  let far := run (always (Ok "5"))
               (grade_conversation (py := PyRef.lib)
                  {| sr_lesson_id := far_lesson_id; sr_style := "Visual";
                     sr_chat_history := [] |})
               (world_of one_lesson) in
  (fst words = Ok 0 /\ socratic_dialogues (store (snd words)) = []) /\
  (fst seven = Ok 7 /\
   map sd_understanding_score (socratic_dialogues (store (snd seven))) = [Some 7]) /\
  (fst far = Ok 0 /\ socratic_dialogues (store (snd far)) = []).
Proof. vm_compute. repeat split. Qed.

(** The grader answers "4": one record is appended, and its session id is
    the placeholder. *)
Lemma session_id_is_placeholder_witness :
  let w' := snd (run (always (Ok "4")) (grade_conversation (py := PyRef.lib) grading_request)
                   (world_of one_lesson)) in
  appended_dialogues (world_of one_lesson) w'
    = [graded_record (py := PyRef.lib) grading_request 4] /\
  map sd_session_id (socratic_dialogues (store w')) = ["session_placeholder"].
Proof.
  destruct (session_id_is_placeholder (py := PyRef.lib) (always (Ok "4")) grading_request
              (world_of one_lesson)) as (A & _ & B & _).
  destruct (B "4" 4 eq_refl eq_refl eq_refl eq_refl) as [E _].
  intros w'. split; [exact E |].
  unfold w'. rewrite A, E. reflexivity.
Defined.

(** Lesson 7 was deleted after its Visual content was cached: the lesson
    has no record, and the request is answered from the cache. *)
Lemma deleted_lesson_served_from_cache :
  sql_select_lesson 7 (store orphan_world) = None /\
  fst (run (always image_url) (generate_adapted_content (py := PyRef.lib) visual_request)
         orphan_world) =
  Ok {| ac_lesson_id := 7; ac_lesson_title := "Unknown Topic";
        ac_learning_style := "Visual"; ac_content_type := "image";
        ac_data := infographic |}.
Proof. vm_compute. split; reflexivity. Qed.

Lemma cache_hit_skips_generation_witness :
  let out := run (always (Raise (OpenAIError "unavailable")))
               (generate_adapted_content (py := PyRef.lib) visual_request) cached_world in
  generation_calls (snd out) = generation_calls cached_world /\
  store (snd out) = store cached_world /\
  fst out = Ok {| ac_lesson_id := 7; ac_lesson_title := "What is a Cell?";
                  ac_learning_style := "Visual"; ac_content_type := "image";
                  ac_data := infographic |}.
Proof.
  edestruct (cache_hit_skips_generation (py := PyRef.lib)
               (always (Raise (OpenAIError "unavailable"))) cached_world visual_request)
    as (A & B & C).
  - vm_compute. reflexivity.
  - split; [exact A |]. split; [exact B |].
    destruct (C {| content_type := "image"; data := infographic; quiz_data := JNull |})
      as (_ & _ & R & _).
    + vm_compute. reflexivity.
    + exact R.
Defined.

Lemma generation_failure_propagates_witness :
  exists wg,
    run (always (Raise (OpenAIError "rate limit")))
      (generate_adapted_content (py := PyRef.lib) visual_request) (world_of one_lesson)
      = (Raise (OpenAIError "rate limit"), wg) /\
    store wg = one_lesson /\
    sql_select_cached 7 "Visual" (store wg) = None.
Proof.
  eexists.
  edestruct (generation_failure_propagates (py := PyRef.lib)
               (always (Raise (OpenAIError "rate limit"))) (world_of one_lesson))
    as (A & B & C & _).
  - instantiate (1 := visual_request). reflexivity.
  - reflexivity.
  - vm_compute. reflexivity.
  - split; [exact A |]. split; [exact B | exact C].
Defined.

(** A rival request commits its row for (7, Visual) between this request's
    lookup and its insert: this request still answers its own image, and
    the store keeps the rival's row. *)
Lemma own_payload_returned_witness :
  let out := exec (always image_url) racing_writer
               (generate_adapted_content (py := PyRef.lib) visual_request)
               (world_of one_lesson) in
  fst out = Ok {| ac_lesson_id := 7; ac_lesson_title := "What is a Cell?";
                  ac_learning_style := "Visual"; ac_content_type := "image";
                  ac_data := infographic |} /\
  key_rows 7 "Visual" (store (snd out)) = [rival_row] /\
  cache_reads (snd out) = [Ev (SelectCachedContent 7 "Visual")].
Proof.
  edestruct (own_payload_returned (py := PyRef.lib) (always image_url) racing_writer
               (world_of one_lesson)) as (A & B & C & D).
  - instantiate (1 := visual_request). reflexivity.
  - vm_compute. reflexivity.
  - vm_compute. reflexivity.
  - split; [exact A |]. split; [| exact D].
    edestruct C as [C1 _]; [vm_compute; reflexivity |].
    rewrite C1. vm_compute. reflexivity.
Defined.

(** * Further properties of the backend *)

(** ** Content cache *)

Lemma unique_keys_append (r : content_row) (d : db) :
  unique_keys d ->
  fits_int64 (gc_lesson_id r) = true ->
  sql_select_cached (gc_lesson_id r) (gc_style r) d = None ->
  NoDup (map (fun r => (gc_lesson_id r, gc_style r)) (generated_content d ++ [r])).
Proof.
  unfold unique_keys. intros U F H. apply (select_cached_none _ _ _ F) in H.
  rewrite map_app. simpl.
  apply NoDup_app; [exact U | repeat constructor; intros [] | ].
  intros k Hk [<- | []]. apply in_map_iff in Hk. destruct Hk as (x & Ex & Hx).
  pose proof (find_none _ _ H x Hx) as K. unfold content_key_is in K.
  injection Ex as E1 E2. rewrite E1, E2, Z.eqb_refl, String.eqb_refl in K. discriminate.
Qed.

Section ContentRequests.
Context {py : PyLib}.

(** A request that finds a row for its key leaves the store alone. *)
Lemma hit_leaves_store (orc : oracle) (w : world) (request : AdaptationRequest)
    (row : string * string * option string) :
  sql_select_cached (ar_lesson_id request) (ar_style request) (store w) = Some row ->
  store (snd (run orc (generate_adapted_content request) w)) = store w.
Proof.
  intros H. pose proof (select_cached_fits _ _ _ _ H) as F.
  unfold run, generate_adapted_content. rewrite exec_bind.
  pose proof (get_cached_content_world orc alone w (ar_lesson_id request)
                (ar_style request)) as W.
  assert (G : fst (exec orc alone
                     (get_cached_content (ar_lesson_id request) (ar_style request)) w)
              <> Ok None).
  { unfold get_cached_content. rewrite exec_bind, exec_perform. cbn [handle].
    change (alone (clock w) (store w)) with (store w).
    rewrite (binding_fits _ _ _ F), H.
    destruct row as [[r0 r1] r2]. rewrite exec_bind. unfold loads.
    destruct r2 as [q |]; [destruct (str_truthy q); [destruct (json_loads q) |] |];
      simpl; try discriminate; destruct (json_loads r1); simpl; discriminate. }
  destruct (exec orc alone
              (get_cached_content (ar_lesson_id request) (ar_style request)) w)
    as [[[c |] | e] w1]; simpl in W, G; subst w1.
  - rewrite serve_from_cache_exec by exact F. reflexivity.
  - contradiction.
  - reflexivity.
Qed.

(** X1: a content request served alone never touches the lesson table or
    the dialogue log.  The content cache is as before, or has gained one row
    at its end: the row of the payload the request answers, under the key of
    the request, with NULL quiz data, and only when that key had no row.
    Keys that were unique stay unique. *)
Theorem content_request_frame (orc : oracle) (w : world) (request : AdaptationRequest) :
  let lesson_id := ar_lesson_id request in
  let style := ar_style request in
  let out := run orc (generate_adapted_content request) w in
  lessons (store (snd out)) = lessons (store w) /\
  socratic_dialogues (store (snd out)) = socratic_dialogues (store w) /\
  (generated_content (store (snd out)) = generated_content (store w) \/
   exists answer,
     fst out = Ok answer /\
     sql_select_cached lesson_id style (store w) = None /\
     generated_content (store (snd out)) =
       (generated_content (store w) ++
        [{| gc_lesson_id := lesson_id; gc_style := style;
            gc_content_type := ac_content_type answer;
            gc_data := json_dumps (ac_data answer);
            gc_quiz_data := None |}])%list) /\
  (unique_keys (store w) -> unique_keys (store (snd out))).
Proof.
  intros lesson_id style out. subst out.
  destruct (sql_select_cached lesson_id style (store w)) as [row |] eqn:H.
  - rewrite (hit_leaves_store orc w request row H). auto.
  - destruct (fits_int64 lesson_id) eqn:F;
      [| unfold run; rewrite generate_adapted_content_far by exact F;
         cbn [snd store]; unfold alone; auto].
    rewrite (generate_adapted_content_miss orc w request F H).
    fold lesson_id style.
    destruct (sql_select_lesson lesson_id (store w)) as [[title text] |];
      [| simpl; auto].
    pose proof (generate_fn_store orc
                  (logged (SelectLesson lesson_id)
                     (logged (SelectCachedContent lesson_id style) w)) style text) as K.
    destruct (run orc (generate_fn style text)
                (logged (SelectLesson lesson_id)
                   (logged (SelectCachedContent lesson_id style) w)))
      as [[[ct d] | e] wg]; simpl in K; [| simpl; rewrite K; auto].
    cbn [fst snd store]. rewrite K.
    rewrite insert_content_fresh by assumption. cbn [snd lessons socratic_dialogues
                                                   generated_content].
    split; [reflexivity |]. split; [reflexivity |]. split.
    + right. eexists. split; [reflexivity |]. split; [reflexivity |]. reflexivity.
    + intros U. unfold unique_keys. cbn [generated_content].
      apply (unique_keys_append (content_row_of lesson_id style ct d JNull) (store w) U F H).
Qed.

(** X2: writing under one key does not change what is stored, or read
    back, under another key. *)
Theorem cache_content_other_key (orc : oracle) (w : world)
    (lesson_id : Z) (style ct : string) (d q : json) (lesson_id' : Z) (style' : string) :
  lesson_id' <> lesson_id \/ style' <> style ->
  let w' := snd (run orc (cache_content lesson_id style ct d q) w) in
  sql_select_cached lesson_id' style' (store w') = sql_select_cached lesson_id' style' (store w) /\
  fst (run orc (get_cached_content lesson_id' style') w') =
  fst (run orc (get_cached_content lesson_id' style') w).
Proof.
  intros Hne w'.
  assert (E : sql_select_cached lesson_id' style' (store w') =
              sql_select_cached lesson_id' style' (store w)).
  { unfold w', run. rewrite cache_content_exec. cbn [snd store]. unfold alone.
    unfold sql_insert_content, binding.
    destruct (fits_int64 _); [| reflexivity].
    destruct (existsb _ (generated_content (store w))); [reflexivity |].
    unfold sql_select_cached. cbn [snd generated_content].
    destruct (fits_int64 lesson_id'); [| reflexivity].
    assert (F : forall l, find (content_key_is lesson_id' style')
                            (l ++ [content_row_of lesson_id style ct d q]) =
                          find (content_key_is lesson_id' style') l).
    { induction l as [| x l IH]; simpl.
      - unfold content_key_is. simpl.
        destruct (Z.eqb_spec lesson_id lesson_id'), (String.eqb_spec style style');
          simpl; try reflexivity.
        destruct Hne; congruence.
      - destruct (content_key_is lesson_id' style' x); [reflexivity | exact IH]. }
    rewrite F. reflexivity. }
  split; [exact E |].
  unfold run, get_cached_content.
  rewrite !exec_bind, !exec_perform. cbn [handle]. unfold alone. rewrite E.
  unfold binding. destruct (fits_int64 lesson_id'); [| reflexivity].
  destruct (sql_select_cached lesson_id' style' (store w)) as [[[r0 r1] r2] |];
    [| reflexivity].
  rewrite !exec_bind. unfold loads.
  destruct r2 as [x |]; [destruct (str_truthy x); [destruct (json_loads x) |] |];
    simpl; try reflexivity; destruct (json_loads r1); reflexivity.
Qed.

(** X3: once a request was answered by generation, the same request is
    answered from the cache, whichever collaborators are then at hand: the
    answer is the same, no collaborator is called and the store stays as it
    is.  The generated data must survive the JSON encoding. *)
Theorem second_request_is_a_hit (orc orc2 : oracle) (w wg : world)
    (request : AdaptationRequest) (title text ct : string) (d : json) :
  let lesson_id := ar_lesson_id request in
  let style := ar_style request in
  sql_select_cached lesson_id style (store w) = None ->
  sql_select_lesson lesson_id (store w) = Some (title, text) ->
  run orc (generate_fn style text)
    (logged (SelectLesson lesson_id) (logged (SelectCachedContent lesson_id style) w))
    = (Ok (ct, d), wg) ->
  json_loads (json_dumps d) = Some d ->
  let first := run orc (generate_adapted_content request) w in
  let second := run orc2 (generate_adapted_content request) (snd first) in
  fst second = fst first /\
  fst second = Ok {| ac_lesson_id := lesson_id; ac_lesson_title := title;
                     ac_learning_style := style; ac_content_type := ct; ac_data := d |} /\
  generation_calls (snd second) = generation_calls (snd first) /\
  store (snd second) = store (snd first).
Proof.
  intros lesson_id style Hmiss Hlesson Hgen Hd first second.
  pose proof (select_lesson_fits _ _ _ Hlesson) as Fit.
  assert (Sg : store wg = store w).
  { pose proof (generate_fn_store orc
                  (logged (SelectLesson lesson_id)
                     (logged (SelectCachedContent lesson_id style) w)) style text) as K.
    rewrite Hgen in K. exact K. }
  assert (F : first =
              (Ok {| ac_lesson_id := lesson_id; ac_lesson_title := title;
                     ac_learning_style := style; ac_content_type := ct; ac_data := d |},
               {| store := {| lessons := lessons (store w);
                              generated_content :=
                                generated_content (store w) ++
                                [content_row_of lesson_id style ct d JNull];
                              socratic_dialogues := socratic_dialogues (store w) |};
                  trace := Ev (InsertGeneratedContent
                                 (content_row_of lesson_id style ct d JNull))
                           :: trace wg |})).
  { unfold first. rewrite (generate_adapted_content_miss orc w request Fit Hmiss).
    fold lesson_id style. rewrite Hlesson, Hgen, Sg.
    rewrite insert_content_fresh by assumption. reflexivity. }
  assert (Hrow : sql_select_cached lesson_id style (store (snd first)) =
                 Some (ct, json_dumps d, None)).
  { rewrite F. unfold sql_select_cached. cbn [snd store generated_content].
    rewrite Fit.
    rewrite find_app_none by (apply (select_cached_none _ _ _ Fit); exact Hmiss). simpl.
    rewrite (content_key_is_self (content_row_of lesson_id style ct d JNull)).
    reflexivity. }
  assert (Htitle : sql_select_lesson_title lesson_id (store (snd first)) = Some title).
  { rewrite F. cbn [snd store]. unfold sql_select_lesson_title, sql_select_lesson in *.
    cbn [lessons]. rewrite Fit in *.
    destruct (find (fun l => l_id l =? lesson_id) (lessons (store w))); [| discriminate].
    injection Hlesson as -> _. reflexivity. }
  assert (R : second =
              (Ok {| ac_lesson_id := lesson_id; ac_lesson_title := title;
                     ac_learning_style := style; ac_content_type := ct; ac_data := d |},
               logged (SelectLessonTitle lesson_id)
                 (logged (SelectCachedContent lesson_id style) (snd first)))).
  { unfold second, run, generate_adapted_content. rewrite exec_bind.
    fold lesson_id style.
    rewrite (get_cached_content_hit orc2 alone (snd first) lesson_id style ct
               (json_dumps d) None d Hrow Hd JNull eq_refl).
    rewrite serve_from_cache_exec by exact Fit. cbn [store content_type data]. unfold alone.
    rewrite Htitle. reflexivity. }
  rewrite R. cbn [fst snd]. split; [rewrite F; reflexivity |].
  split; [reflexivity |]. split; reflexivity.
Qed.

(** X4: what the generation step returns depends on the style as the
    frontend expects: for "Visual" an image with a [url]; for "Auditory"
    audio with a [url] under /temp_audio/ and the spoken script as
    [transcript]; for every other style text with a [text]. *)
Theorem generated_shape_by_style (orc : oracle) (w wg : world) (style text ct : string)
    (d : json) :
  run orc (generate_fn style text) w = (Ok (ct, d), wg) ->
  (style = "Visual" /\ ct = "image" /\ exists url, d = JDict [("url", JStr url)]) \/
  (style = "Auditory" /\ ct = "audio" /\
   exists file_name script,
     d = JDict [("url", JStr ("/temp_audio/" ++ file_name)); ("transcript", JStr script)] /\
     exists t prompt,
       chat_completion orc t "gpt-4o"
         [("system", "You are a helpful AI assistant."); ("user", prompt)] = Ok script /\
       speech_to_file orc (S t) "tts-1" "alloy" script = Ok file_name) \/
  (style <> "Visual" /\ style <> "Auditory" /\ ct = "text" /\
   exists t, d = JDict [("text", JStr t)]).
Proof.
  unfold run, generate_fn, generate_image_from_dalle, generate_audio_from_openai,
    generate_text_from_gpt.
  destruct (String.eqb_spec style "Visual") as [EV | NV];
    [| destruct (String.eqb_spec style "Auditory") as [EA | NA]].
  - rewrite exec_bind, exec_perform. cbn -[append].
    destruct (images_generate orc _ _ _) as [url | e]; cbn -[append]; intros H;
      inversion H; subst. left. eauto.
  - rewrite !exec_bind, exec_perform. cbn -[append].
    destruct (chat_completion orc _ _ _) as [script | e] eqn:C; cbn -[append];
      [| intros H; inversion H].
    destruct (speech_to_file orc _ _ _ _) as [file_name | e] eqn:T; cbn -[append];
      intros H; inversion H; subst.
    right; left. split; [reflexivity |]. split; [reflexivity |].
    exists file_name, script. split; [reflexivity |].
    do 2 eexists. split; [exact C | exact T].
  - rewrite exec_bind, exec_perform. cbn -[append].
    destruct (chat_completion orc _ _ _) as [t | e]; cbn -[append]; intros H;
      inversion H; subst. right; right. eauto.
Qed.

End ContentRequests.

(** ** Lessons *)

(** X5: deleting a lesson twice is deleting it once, and deleting an id
    that no lesson has changes nothing. *)
Theorem delete_lesson_idempotent (orc orc2 : oracle) (w : world) (lesson_id : Z) :
  let once := snd (run orc (delete_lesson lesson_id) w) in
  let twice := snd (run orc2 (delete_lesson lesson_id) once) in
  store twice = store once /\
  (sql_select_lesson lesson_id (store w) = None -> store once = store w).
Proof.
  unfold run, delete_lesson. rewrite !exec_perform. cbn [handle]. unfold binding.
  destruct (fits_int64 lesson_id) eqn:Fit; [| split; reflexivity].
  cbn [snd store]. unfold alone, sql_delete_lesson. cbn [lessons generated_content
                                                         socratic_dialogues]. split.
  - f_equal. induction (lessons (store w)) as [| l ls IH]; simpl; [reflexivity |].
    destruct (negb (l_id l =? lesson_id)) eqn:E; simpl; [rewrite E, IH |]; auto.
  - intros H. unfold sql_select_lesson in H. rewrite Fit in H.
    assert (K : filter (fun l => negb (l_id l =? lesson_id)) (lessons (store w)) =
                lessons (store w)).
    { destruct (find (fun l => l_id l =? lesson_id) (lessons (store w))) as [l |] eqn:F;
        [discriminate |].
      clear H. induction (lessons (store w)) as [| l ls IH]; simpl in *; [reflexivity |].
      destruct (l_id l =? lesson_id); [discriminate |]. simpl. rewrite IH; auto. }
    rewrite K. destruct (store w); reflexivity.
Qed.


(** ** Recommendation and grading together *)

(** The answer of [recommend_style] is read off the records of the lesson
    alone. *)
Lemma recommend_style_by_records (orc orc' : oracle) (w w' : world) (lesson_id : Z) :
  lesson_dialogues lesson_id (store w') = lesson_dialogues lesson_id (store w) ->
  fst (run orc' (recommend_style lesson_id) w') = fst (run orc (recommend_style lesson_id) w).
Proof.
  intros E. unfold run, recommend_style. rewrite !exec_bind, !exec_perform.
  cbn [handle]. unfold binding. destruct (fits_int64 lesson_id); [| reflexivity].
  unfold alone, sql_style_averages. rewrite E.
  destruct (sort_rows (group_by_style (lesson_dialogues lesson_id (store w))))
    as [| h t]; [reflexivity |].
  destruct (ag_avg h) as [a |]; [| reflexivity].
  destruct (Qle_bool 4 a); reflexivity.
Qed.

(** The one aggregate row of a log with one record. *)
Lemma group_by_style_single (r : dialogue_row) :
  sort_rows (group_by_style [r]) =
  [{| ag_style := sd_style r; ag_avg := sql_avg [sd_understanding_score r];
      ag_count := 1 |}].
Proof.
  unfold group_by_style, distinct_styles, style_group.
  cbn [map nodup]. destruct (in_dec string_dec (sd_style r) []) as [[] | _].
  cbn [map filter]. rewrite String.eqb_refl. reflexivity.
Qed.

Lemma small_fits_int64 (n : Z) : 0 <= n <= 5 -> fits_int64 n = true.
Proof.
  intros H. unfold fits_int64, int64_min, int64_max.
  apply andb_true_iff. split; apply Z.leb_le.
  - assert (0 < 2 ^ 63) by (apply Z.pow_pos_nonneg; lia). lia.
  - assert (2 ^ 3 <= 2 ^ 63) by (apply Z.pow_le_mono_r; lia).
    change (2 ^ 3) with 8 in *. lia.
Qed.

Section GradingAndRecommendation.
Context {py : PyLib}.

(** X6: grading a conversation about one lesson does not change the
    recommendation for any other lesson. *)
Theorem grading_other_lesson_keeps_recommendation (orc orc1 orc2 : oracle)
    (request : SocraticRequest) (w : world) (lesson_id : Z) :
  sr_lesson_id request <> lesson_id ->
  fst (run orc2 (recommend_style lesson_id) (snd (run orc (grade_conversation request) w))) =
  fst (run orc1 (recommend_style lesson_id) w).
Proof.
  intros Hne. apply recommend_style_by_records.
  destruct (grade_conversation_appends orc request w) as (new & E & Hnew).
  unfold lesson_dialogues. destruct (fits_int64 lesson_id); [| reflexivity].
  rewrite E, filter_app.
  destruct Hnew as [-> | [n ->]]; simpl; [apply app_nil_r |].
  destruct (Z.eqb_spec (sr_lesson_id request) lesson_id); [contradiction | apply app_nil_r].
Qed.


End GradingAndRecommendation.

Lemma sql_avg_all_null (g : list dialogue_row) :
  Forall (fun r => sd_understanding_score r = None) g ->
  sql_avg (map sd_understanding_score g) = None.
Proof.
  intros F. unfold sql_avg.
  replace (non_null (map sd_understanding_score g)) with (@nil Z); [reflexivity |].
  induction F as [| r g Hr _ IH]; simpl; [reflexivity |].
  rewrite Hr. exact IH.
Qed.

(** X8: when the lesson has records and none of them carries a score,
    the averages are all NULL and [recommend_style] raises [TypeError] on
    the comparison with 4.0 instead of answering. *)
Theorem recommend_style_null_scores (orc : oracle) (w : world) (lesson_id : Z) :
  ungraded lesson_id (store w) ->
  fst (run orc (recommend_style lesson_id) w) = Raise TypeError.
Proof.
  intros [Hne Hall].
  assert (Fit : fits_int64 lesson_id = true).
  { destruct (fits_int64 lesson_id) eqn:F; [reflexivity |].
    exfalso. apply Hne. apply lesson_dialogues_far. exact F. }
  unfold run, recommend_style. rewrite exec_bind, exec_perform.
  cbn [handle]. rewrite (binding_fits _ _ _ Fit). unfold alone, sql_style_averages.
  destruct (sort_rows (group_by_style (lesson_dialogues lesson_id (store w))))
    as [| h t] eqn:S.
  - exfalso. destruct (lesson_dialogues lesson_id (store w)) as [| r rows] eqn:L;
      [contradiction |].
    assert (Hin : In {| ag_style := sd_style r;
                        ag_avg := sql_avg (map sd_understanding_score
                                             (style_group (sd_style r) (r :: rows)));
                        ag_count := List.length (style_group (sd_style r) (r :: rows)) |}
                     (group_by_style (r :: rows))).
    { apply group_by_style_In. exists (sd_style r). split; [left |]; reflexivity. }
    apply sort_rows_In in Hin. rewrite S in Hin. contradiction.
  - assert (Hh : In h (group_by_style (lesson_dialogues lesson_id (store w))))
      by (apply sort_rows_In; rewrite S; left; reflexivity).
    apply group_by_style_In in Hh. destruct Hh as (sh & _ & ->). cbn [ag_avg ag_style].
    rewrite sql_avg_all_null; [reflexivity |].
    unfold style_group. apply Forall_forall. intros r Hr.
    apply filter_In in Hr. destruct Hr as [Hr _].
    rewrite Forall_forall in Hall. auto.
Qed.

(** ** Simulated data *)

Lemma random_choice_In {A : Type} (rng : nat -> nat) (n : nat) (seq : list A) (default : A) :
  seq <> [] -> In (random_choice rng n seq default) seq.
Proof.
  intros H. unfold random_choice. apply nth_In. apply Nat.mod_upper_bound.
  destruct seq; [contradiction | simpl; lia].
Qed.

Section Simulation.
Context {py : PyLib}.

(** The row inserted for one session and lesson of the test set. *)
Lemma simulate_lesson_row (rng : nat -> nat) (i n : nat) (rows : list dialogue_row)
    (lesson_id : Z) :
  exists r,
    simulate_lesson rng i (n, rows) lesson_id = (S (S n), (rows ++ [r])%list) /\
    sd_lesson_id r = lesson_id /\
    ((i < 100)%nat -> In lesson_id lessons_to_test -> simulated_row r).
Proof.
  eexists. split; [reflexivity |]. split; [reflexivity |].
  intros Hi Hl. unfold simulated_row. cbn [sd_lesson_id sd_style sd_session_id
                                            sd_understanding_score].
  split; [exact Hl |].
  pose proof (random_choice_In rng n sim_styles "" ltac:(discriminate)) as Hs.
  split; [exact Hs |]. split; [exists i; auto |].
  eexists. split; [reflexivity |].
  set (c := random_choice rng n sim_styles "") in *.
  pose proof (random_choice_In rng (S n) [4; 5] 0 ltac:(discriminate)) as H45.
  pose proof (random_choice_In rng (S n) [1; 2; 3] 0 ltac:(discriminate)) as H123.
  destruct (optimal_styles lesson_id) as [o |] eqn:O.
  - destruct (String.eqb_spec c o) as [E | N].
    + subst o. simpl in H45. split; [lia |]. split; [reflexivity | lia].
    + simpl in H123. split; [lia |]. split; [lia | congruence].
  - simpl in H123. split; [lia |]. split; [lia | discriminate].
Qed.

(** One pass of the outer loop inserts one row per lesson of the test
    set. *)
Lemma simulate_session_rows (rng : nat -> nat) (i n : nat) (rows : list dialogue_row) :
  exists r1 r2 r3,
    fold_left (simulate_lesson rng i) lessons_to_test (n, rows) =
      ((6 + n)%nat, (rows ++ [r1; r2; r3])%list) /\
    sd_lesson_id r1 = 1 /\ sd_lesson_id r2 = 2 /\ sd_lesson_id r3 = 3 /\
    ((i < 100)%nat -> simulated_row r1 /\ simulated_row r2 /\ simulated_row r3).
Proof.
  unfold lessons_to_test. cbn [fold_left].
  destruct (simulate_lesson_row rng i n rows 1) as (r1 & E1 & L1 & P1).
  destruct (simulate_lesson_row rng i (S (S n)) (rows ++ [r1]) 2) as (r2 & E2 & L2 & P2).
  destruct (simulate_lesson_row rng i (S (S (S (S n)))) ((rows ++ [r1]) ++ [r2]) 3)
    as (r3 & E3 & L3 & P3).
  exists r1, r2, r3. rewrite E1, E2, E3.
  split; [rewrite <- !app_assoc; reflexivity |].
  split; [exact L1 |]. split; [exact L2 |]. split; [exact L3 |].
  intros Hi. unfold lessons_to_test in *.
  exact (conj (P1 Hi (or_introl eq_refl))
           (conj (P2 Hi (or_intror (or_introl eq_refl)))
              (P3 Hi (or_intror (or_intror (or_introl eq_refl)))))).
Qed.

Lemma simulate_sessions_rows (rng : nat -> nat) (sessions : list nat) :
  forall (n : nat) (rows : list dialogue_row),
  exists new,
    snd (fold_left (fun acc i => fold_left (simulate_lesson rng i) lessons_to_test acc)
           sessions (n, rows)) = (rows ++ new)%list /\
    List.length new = (3 * List.length sessions)%nat /\
    (forall l, In l lessons_to_test ->
       List.length (filter (fun r => sd_lesson_id r =? l) new) = List.length sessions) /\
    (Forall (fun i => (i < 100)%nat) sessions -> Forall simulated_row new).
Proof.
  induction sessions as [| i sessions IH]; intros n rows.
  - exists nil. simpl. rewrite app_nil_r.
    split; [reflexivity |]. split; [reflexivity |]. split; [reflexivity |].
    intros _. constructor.
  - cbn [fold_left].
    destruct (simulate_session_rows rng i n rows) as (r1 & r2 & r3 & E & L1 & L2 & L3 & P).
    rewrite E.
    destruct (IH (6 + n)%nat (rows ++ [r1; r2; r3])%list) as (new & En & Hlen & Hcount & Hrows).
    exists ([r1; r2; r3] ++ new)%list. rewrite En, <- app_assoc.
    split; [reflexivity |]. split; [simpl in *; lia |]. split.
    + intros l Hl. rewrite filter_app, length_app, (Hcount l Hl).
      simpl. rewrite L1, L2, L3.
      destruct Hl as [<- | [<- | [<- | []]]]; reflexivity.
    + intros F. inversion F as [| ? ? Hi F']; subst.
      destruct (P Hi) as (P1 & P2 & P3).
      apply Forall_app. split; [| auto].
      constructor; [exact P1 |]. constructor; [exact P2 |].
      constructor; [exact P3 | constructor].
Qed.

(** Every row of the simulated log is as the loop writes it. *)
Lemma simulation_rows (rng : nat -> nat) (d : db) :
  Forall simulated_row (socratic_dialogues (run_simulation rng d)).
Proof.
  unfold run_simulation, simulate_sessions. cbn [socratic_dialogues].
  destruct (simulate_sessions_rows rng (seq 0 (num_students_per_group * 2)) 0 [])
    as (new & E & _ & _ & Hrows).
  rewrite E. cbn [app].
  apply Hrows. apply Forall_forall. intros i Hi. apply in_seq in Hi.
  unfold num_students_per_group in Hi. lia.
Qed.

Lemma test_lesson_fits (l : Z) : In l lessons_to_test -> fits_int64 l = true.
Proof. intros [<- | [<- | [<- | []]]]; reflexivity. Qed.

(** Every lesson of the test set gets 100 rows. *)
Lemma simulation_lesson_count (rng : nat -> nat) (d : db) (l : Z) :
  In l lessons_to_test ->
  List.length (lesson_dialogues l (run_simulation rng d)) = 100%nat.
Proof.
  intros Hl. unfold lesson_dialogues. rewrite (test_lesson_fits l Hl).
  unfold run_simulation, simulate_sessions. cbn [socratic_dialogues].
  destruct (simulate_sessions_rows rng (seq 0 (num_students_per_group * 2)) 0 [])
    as (new & E & _ & Hcount & _).
  rewrite E. cbn [app]. rewrite length_seq in Hcount. exact (Hcount l Hl).
Qed.

(** X9: whatever the random draws, [run_simulation] leaves lessons and
    cached content as they are and replaces the dialogue log by 300 rows,
    100 for each of lessons 1, 2 and 3.  Every row has a style of the three
    simulated ones, a session id [simulated_session_i] with [i] below 100,
    and a score from 1 to 5 that is 4 or 5 exactly when the style is the
    optimal one of the lesson.  Nothing of the earlier log is kept. *)
Theorem simulation_postcondition (rng : nat -> nat) (d : db) :
  let d' := run_simulation rng d in
  lessons d' = lessons d /\
  generated_content d' = generated_content d /\
  List.length (socratic_dialogues d') = 300%nat /\
  (forall l, In l lessons_to_test -> List.length (lesson_dialogues l d') = 100%nat) /\
  Forall simulated_row (socratic_dialogues d') /\
  socratic_dialogues d' = socratic_dialogues (run_simulation rng empty_db).
Proof.
  intros d'. subst d'.
  split; [reflexivity |]. split; [reflexivity |]. split.
  - unfold run_simulation, simulate_sessions. cbn [socratic_dialogues].
    destruct (simulate_sessions_rows rng (seq 0 (num_students_per_group * 2)) 0 [])
      as (new & E & Hlen & _ & _).
    rewrite E. cbn [app]. rewrite length_seq in Hlen. exact Hlen.
  - split; [intros l Hl; apply simulation_lesson_count; exact Hl |].
    split; [apply simulation_rows | reflexivity].
Qed.

End Simulation.

Lemma sum_scores_bounds (a b : Z) (g : list dialogue_row) :
  Forall (fun r => exists z, sd_understanding_score r = Some z /\ a <= z <= b) g ->
  a * Z.of_nat (List.length g) <= sum_Z (non_null (map sd_understanding_score g))
  <= b * Z.of_nat (List.length g).
Proof.
  induction 1 as [| r g (z & Ez & Hz) _ IH]; [simpl; lia |].
  cbn [map non_null flat_map List.length]. rewrite Ez.
  change (flat_map _ (map sd_understanding_score g))
    with (non_null (map sd_understanding_score g)).
  cbn [app sum_Z fold_right].
  change (fold_right Z.add 0 (non_null (map sd_understanding_score g)))
    with (sum_Z (non_null (map sd_understanding_score g))).
  rewrite Nat2Z.inj_succ. lia.
Qed.

Lemma non_null_scores (a b : Z) (g : list dialogue_row) :
  Forall (fun r => exists z, sd_understanding_score r = Some z /\ a <= z <= b) g ->
  List.length (non_null (map sd_understanding_score g)) = List.length g /\
  Forall (fun v => a <= v <= b) (non_null (map sd_understanding_score g)).
Proof.
  induction 1 as [| r g (z & Ez & Hz) _ [IH1 IH2]]; [split; [reflexivity | constructor] |].
  cbn [map non_null flat_map List.length]. rewrite Ez.
  change (flat_map _ (map sd_understanding_score g))
    with (non_null (map sd_understanding_score g)).
  cbn [app List.length]. split; [f_equal; exact IH1 | constructor; assumption].
Qed.

(** The double average of up to 100 scores from 0 to 5 against the
    thresholds 4 and 3, by bounds that hold for every score of the
    group. *)
Lemma double_mean_bounds (a b : Z) (lesson_id : Z) (s : string) (d : db) :
  0 <= a -> b <= 5 ->
  (0 < record_count lesson_id s d <= 100)%nat ->
  Forall (fun r => exists z, sd_understanding_score r = Some z /\ a <= z <= b)
    (style_group s (lesson_dialogues lesson_id d)) ->
  (4 <= a -> (4 <= double_mean lesson_id s d)%Q) /\
  (b <= 3 -> (double_mean lesson_id s d <= 3)%Q).
Proof.
  intros Ha Hb P F. pose proof (sum_scores_bounds a b _ F) as B.
  destruct (non_null_scores a b _ F) as [L V].
  unfold record_count in P.
  destruct (double_avg_small
              (non_null (map sd_understanding_score
                           (style_group s (lesson_dialogues lesson_id d)))))
    as [T4 T3].
  - rewrite L. lia.
  - eapply Forall_impl; [| exact V]. cbv beta. intros v Hv. lia.
  - rewrite L in T4, T3. unfold double_mean. split; intros K.
    + apply Qle_bool_iff. rewrite T4. apply Z.leb_le. nia.
    + apply Qle_bool_iff. rewrite T3. apply Z.leb_le. nia.
Qed.

Lemma optimal_lesson (lesson_id : Z) (optimal : string) :
  optimal_styles lesson_id = Some optimal -> In lesson_id lessons_to_test.
Proof.
  unfold optimal_styles, lessons_to_test. intros H.
  destruct (Z.eqb_spec lesson_id 1); [left; congruence |].
  destruct (Z.eqb_spec lesson_id 2); [right; left; congruence |].
  destruct (Z.eqb_spec lesson_id 3); [right; right; left; congruence | discriminate].
Qed.

(** The recommendation on a log whose rows are all as the simulation
    writes them, with at most 100 rows for the lesson. *)
Lemma simulated_log_recommendation (orc : oracle) (d' : db) (lesson_id : Z)
    (optimal : string) :
  Forall simulated_row (socratic_dialogues d') ->
  (List.length (lesson_dialogues lesson_id d') <= 100)%nat ->
  optimal_styles lesson_id = Some optimal ->
  fst (run orc (recommend_style lesson_id) (world_of d')) =
  Ok (if (0 <? record_count lesson_id optimal d')%nat then Some optimal else None).
Proof.
  intros Hrows Hlen Ho. rewrite Forall_forall in Hrows.
  pose proof (test_lesson_fits lesson_id (optimal_lesson lesson_id optimal Ho)) as Fit.
  assert (Hcount : forall s, (record_count lesson_id s d' <= 100)%nat).
  { intros s. unfold record_count, style_group.
    pose proof (filter_length_le (fun r => (sd_style r =? s)%string)
                  (lesson_dialogues lesson_id d')). lia. }
  assert (Hgroup : forall s r, In r (style_group s (lesson_dialogues lesson_id d')) ->
            exists z, sd_understanding_score r = Some z /\ 1 <= z <= 5 /\
                      (4 <= z <-> s = optimal)).
  { intros s r Hr. unfold style_group, lesson_dialogues in Hr. rewrite Fit in Hr.
    apply filter_In in Hr. destruct Hr as [Hr Es]. apply filter_In in Hr.
    destruct Hr as [Hr El]. apply String.eqb_eq in Es. apply Z.eqb_eq in El.
    destruct (Hrows r Hr) as (_ & _ & _ & z & Ez & Hz & Hopt).
    exists z. rewrite El, Es, Ho in Hopt. split; [exact Ez |]. split; [exact Hz |].
    rewrite Hopt. split; congruence. }
  assert (G : graded lesson_id (store (world_of d'))).
  { unfold graded. apply Forall_forall. intros r Hr. cbn [store world_of] in Hr.
    unfold lesson_dialogues in Hr. rewrite Fit in Hr.
    apply filter_In in Hr. destruct Hr as [Hr _].
    destruct (Hrows r Hr) as (_ & _ & _ & z & Ez & _). congruence. }
  assert (Hhigh : (0 < record_count lesson_id optimal d')%nat ->
                  (4 <= double_mean lesson_id optimal d')%Q).
  { intros P.
    apply (double_mean_bounds 4 5 lesson_id optimal d'); try lia.
    - split; [exact P | apply Hcount].
    - apply Forall_forall. intros r Hr. destruct (Hgroup _ _ Hr) as (z & Ez & Hz & Hopt).
      exists z. split; [exact Ez |]. assert (4 <= z) by (apply Hopt; reflexivity). lia. }
  assert (Hlow : forall s, s <> optimal -> (0 < record_count lesson_id s d')%nat ->
                 (double_mean lesson_id s d' <= 3)%Q).
  { intros s Hs P.
    apply (double_mean_bounds 1 3 lesson_id s d'); try lia.
    - split; [exact P | apply Hcount].
    - apply Forall_forall. intros r Hr. destruct (Hgroup _ _ Hr) as (z & Ez & Hz & Hopt).
      exists z. split; [exact Ez |].
      assert (~ 4 <= z) by (intros K; apply Hopt in K; contradiction). lia. }
  destruct (recommend_style_graded orc (world_of d') lesson_id Fit G)
    as (r & R & _ & HS & HN).
  rewrite R. cbn [store world_of fst] in *. f_equal.
  destruct r as [s |].
  - destruct (HS s eq_refl) as (P & M & _).
    destruct (string_dec s optimal) as [-> | Hne].
    + apply Nat.ltb_lt in P. rewrite P. reflexivity.
    + pose proof (Hlow s Hne P) as K. exfalso.
      apply (Qlt_irrefl 4). apply (Qle_lt_trans _ _ _ M).
      apply (Qle_lt_trans _ _ _ K). reflexivity.
  - destruct (0 <? record_count lesson_id optimal d')%nat eqn:P; [| reflexivity].
    apply Nat.ltb_lt in P. pose proof (HN eq_refl optimal P) as K1.
    pose proof (Hhigh P) as K2. exfalso.
    exact (Qlt_irrefl _ (Qlt_le_trans _ _ _ K1 K2)).
Qed.

(** X10: after [run_simulation], whatever the random draws, the
    recommendation for a lesson of the test set is its optimal style when
    at least one simulated session drew that style for the lesson, and none
    otherwise; no other style is ever recommended. *)
Theorem simulation_recommends_optimal {py : PyLib} (rng : nat -> nat) (orc : oracle)
    (d : db) (lesson_id : Z) (optimal : string) :
  optimal_styles lesson_id = Some optimal ->
  fst (run orc (recommend_style lesson_id) (world_of (run_simulation rng d))) =
  Ok (if (0 <? record_count lesson_id optimal (run_simulation rng d))%nat
      then Some optimal else None).
Proof.
  intros Ho. apply simulated_log_recommendation; [| | exact Ho].
  - apply simulation_rows.
  - rewrite (simulation_lesson_count rng d lesson_id (optimal_lesson _ _ Ho)). lia.
Qed.


(** ** Similar lessons *)

Section SimilarLessons.
Context {py : PyLib}.

Lemma other_ids_ok (lesson_id : Z) (matches : list string) (ns : list Z) :
  other_ids lesson_id matches = Ok ns ->
  ~ In lesson_id ns /\
  forall n, In n ns -> exists m, In m matches /\ int_of_str m = Some n.
Proof.
  revert ns. induction matches as [| m rest IH]; intros ns H; simpl in H.
  - injection H as <-. split; [intros [] | intros n []].
  - destruct (int_of_str m) as [n |] eqn:P; [| discriminate].
    destruct (other_ids lesson_id rest) as [ns' | e]; [| discriminate].
    injection H as <-. destruct (IH ns' eq_refl) as [Hnot Hfrom].
    destruct (Z.eqb_spec n lesson_id) as [E | N].
    + split; [exact Hnot |]. intros k Hk. destruct (Hfrom k Hk) as (m' & Hm & Pm).
      exists m'. split; [right; exact Hm | exact Pm].
    + split.
      * intros [E | Hin]; [congruence | contradiction].
      * intros k [<- | Hk]; [exists m; split; [left; reflexivity | exact P] |].
        destruct (Hfrom k Hk) as (m' & Hm & Pm).
        exists m'. split; [right; exact Hm | exact Pm].
Qed.

Lemma find_similar_lessons_excludes (svc : vector_service) (lesson_id : Z) (top_k : nat) :
  exists ids, find_similar_lessons svc lesson_id top_k = Ok ids /\ ~ In lesson_id ids.
Proof.
  unfold find_similar_lessons.
  destruct (index_fetch svc (py_str lesson_id)) as [[v |] | e];
    try (exists nil; split; [reflexivity | intros []]).
  destruct (index_query svc v top_k) as [matches | e];
    try (exists nil; split; [reflexivity | intros []]).
  destruct (other_ids lesson_id matches) as [ns | e] eqn:O;
    try (exists nil; split; [reflexivity | intros []]).
  exists ns. split; [reflexivity | exact (proj1 (other_ids_ok _ _ _ O))].
Qed.

(** X11: [find_similar_lessons] never raises and never returns the lesson
    it was asked about.  Every id it returns is the integer value of a
    match the index reported for the lesson's own vector.  When the lesson
    has no vector in the index, or the index fails, or one reported id is
    not an integer, the result is empty. *)
Theorem find_similar_lessons_outcome (svc : vector_service) (lesson_id : Z) (top_k : nat) :
  exists ids,
    find_similar_lessons svc lesson_id top_k = Ok ids /\
    ~ In lesson_id ids /\
    (forall n, In n ids ->
       exists v matches m,
         index_fetch svc (py_str lesson_id) = Ok (Some v) /\
         index_query svc v top_k = Ok matches /\
         In m matches /\ int_of_str m = Some n) /\
    ((forall v, index_fetch svc (py_str lesson_id) <> Ok (Some v)) -> ids = []) /\
    (forall v e, index_fetch svc (py_str lesson_id) = Ok (Some v) ->
       index_query svc v top_k = Raise e -> ids = []) /\
    (forall v matches m, index_fetch svc (py_str lesson_id) = Ok (Some v) ->
       index_query svc v top_k = Ok matches -> In m matches -> int_of_str m = None ->
       ids = []).
Proof.
  unfold find_similar_lessons.
  destruct (index_fetch svc (py_str lesson_id)) as [[v |] | e] eqn:F.
  - destruct (index_query svc v top_k) as [matches | e] eqn:Q.
    + destruct (other_ids lesson_id matches) as [ns | e] eqn:O.
      * destruct (other_ids_ok _ _ _ O) as [Hnot Hfrom].
        exists ns. split; [reflexivity |]. split; [exact Hnot |]. split.
        { intros n Hn. destruct (Hfrom n Hn) as (m & Hm & Pm).
          exists v, matches, m. auto. }
        split; [intros K; destruct (K v eq_refl) |].
        split; [intros v' e' Ev; injection Ev as <-; congruence |].
        intros v' ms m Ev Eq Hm Pm. injection Ev as <-.
        assert (ms = matches) by congruence. subst ms. exfalso.
        clear - O Hm Pm. revert ns O.
        induction matches as [| x rest IH]; intros ns O; [contradiction |].
        simpl in O. destruct Hm as [-> | Hm]; [rewrite Pm in O; discriminate |].
        destruct (int_of_str x); [| discriminate].
        destruct (other_ids lesson_id rest) as [ns' |]; [| discriminate].
        exact (IH Hm ns' eq_refl).
      * exists nil. split; [reflexivity |]. split; [intros [] |].
        split; [intros n [] |]. repeat split; reflexivity.
    + exists nil. split; [reflexivity |]. split; [intros [] |].
      split; [intros n [] |]. repeat split; reflexivity.
  - exists nil. split; [reflexivity |]. split; [intros [] |].
    split; [intros n [] |]. repeat split; reflexivity.
  - exists nil. split; [reflexivity |]. split; [intros [] |].
    split; [intros n [] |]. repeat split; reflexivity.
Qed.

(** X12: every row [get_similar_lessons] returns is a lesson that is in
    the lesson table, other than the lesson asked about, whose course is in
    the course table: deleted lessons and lessons of a missing course are
    never listed. *)
Theorem get_similar_lessons_rows (svc : vector_service) (lesson_id : Z) (c : catalog)
    (rows : list (Z * string * string)) :
  get_similar_lessons svc lesson_id c = Ok rows ->
  forall id title course_name,
    In (id, title, course_name) rows ->
    id <> lesson_id /\
    exists l co,
      In l (lessons (cat_store c)) /\ l_id l = id /\ l_lesson_title l = title /\
      In co (cat_courses c) /\ c_id co = l_course_id l /\ c_course_name co = course_name.
Proof.
  unfold get_similar_lessons.
  destruct (find_similar_lessons_excludes svc lesson_id 5) as (ids & E & Hnot).
  rewrite E. destruct ids as [| i ids]; [intros H; injection H as <-; intros ? ? ? [] |].
  destruct (forallb fits_int64 (i :: ids)); [| discriminate].
  intros H. injection H as <-. intros id title course_name Hin.
  unfold sql_similar_lessons in Hin. apply in_flat_map in Hin.
  destruct Hin as (l & Hl & Hin).
  destruct (existsb (Z.eqb (l_id l)) (i :: ids)) eqn:X; [| contradiction].
  apply in_map_iff in Hin. destruct Hin as (co & Eco & Hco).
  apply filter_In in Hco. destruct Hco as [Hco Ek]. apply Z.eqb_eq in Ek.
  injection Eco as <- <- <-.
  apply existsb_exists in X. destruct X as (k & Hk & Ekk). apply Z.eqb_eq in Ekk.
  split; [intros K; apply Hnot; rewrite <- K, Ekk; exact Hk |].
  exists l, co. repeat split; assumption || reflexivity.
Qed.

End SimilarLessons.

(** ** Creating courses and lessons *)

Lemma fold_max_bound (ids : list Z) (x : Z) :
  In x ids -> x <= fold_right Z.max 0 ids.
Proof.
  induction ids as [| y ids IH]; simpl; [intros [] |].
  intros [<- | H]; [lia | specialize (IH H); lia].
Qed.

Lemma next_rowid_fresh (seq : Z) (ids : list Z) :
  seq < next_rowid seq ids /\ forall x, In x ids -> x < next_rowid seq ids.
Proof.
  unfold next_rowid. split; [lia |].
  intros x H. pose proof (fold_max_bound ids x H). lia.
Qed.

Lemma find_lesson_app (id : Z) (ls : list lesson_row) (l : lesson_row) :
  find (fun x => l_id x =? id) (ls ++ [l]) =
  match find (fun x => l_id x =? id) ls with
  | Some x => Some x
  | None => if l_id l =? id then Some l else None
  end.
Proof.
  induction ls as [| y ls IH]; simpl; [reflexivity |].
  destruct (l_id y =? id); [reflexivity | exact IH].
Qed.

(** Failures of the embedding model and of the index are swallowed. *)
Lemma upsert_lesson_returns (svc : vector_service) (lesson_id : Z) (text : string) :
  upsert_lesson svc lesson_id text = Ok tt.
Proof.
  unfold upsert_lesson. destruct (model_encode svc text); [| reflexivity].
  destruct (index_upsert svc _ _); reflexivity.
Qed.

Lemma next_rowid_fits (seq : Z) (ids : list Z) :
  next_rowid seq ids <= int64_max -> fits_int64 (next_rowid seq ids) = true.
Proof.
  intros H. unfold fits_int64. apply andb_true_iff. split; apply Z.leb_le; [| exact H].
  unfold next_rowid, int64_min.
  assert (0 < 2 ^ 63) by (apply Z.pow_pos_nonneg; lia).
  assert (M : forall l, 0 <= fold_right Z.max 0 l) by (induction l; simpl; lia).
  specialize (M ids).
  lia.
Qed.

(** X13: [create_lesson] by its three outcomes.  A course id outside the
    64-bit range cannot be bound: [OverflowError], nothing changes.  A
    lesson table whose largest id ever is the largest 64-bit integer is
    full: [OperationalError], nothing changes.  Otherwise the call
    succeeds, whether or not the vector index can be reached: the new id
    exceeds every id in the lesson table and the table's counter, so no id
    is ever used twice; the lesson is found under that id and listed for
    its course; lessons that were found before are found as before;
    courses, cached content and the dialogue log are as before. *)
Theorem create_lesson_fresh (svc : vector_service) (lesson : LessonCreate) (c : catalog) :
  let out := create_lesson svc lesson c in
  let c' := snd out in
  let lesson_id := next_rowid (cat_lesson_seq c) (map l_id (lessons (cat_store c))) in
  (fits_int64 (lc_course_id lesson) = false ->
   fst out = Raise OverflowError /\ c' = c) /\
  (fits_int64 (lc_course_id lesson) = true -> int64_max < lesson_id ->
   fst out = Raise OperationalError /\ c' = c) /\
  (fits_int64 (lc_course_id lesson) = true -> lesson_id <= int64_max ->
   fst out = Ok (lesson_id, lesson) /\
   cat_lesson_seq c < lesson_id /\
   cat_lesson_seq c' = lesson_id /\
   (forall l, In l (lessons (cat_store c)) -> l_id l < lesson_id) /\
   sql_select_lesson lesson_id (cat_store c') =
     Some (lc_lesson_title lesson, lc_original_text lesson) /\
   In (lesson_id, lc_lesson_title lesson) (get_lessons_for_course (lc_course_id lesson) c') /\
   (forall id found, sql_select_lesson id (cat_store c) = Some found ->
      sql_select_lesson id (cat_store c') = Some found) /\
   cat_courses c' = cat_courses c /\
   generated_content (cat_store c') = generated_content (cat_store c) /\
   socratic_dialogues (cat_store c') = socratic_dialogues (cat_store c)).
Proof.
  intros out c' lesson_id. subst c' out. unfold create_lesson. fold lesson_id.
  split; [| split].
  - intros F. rewrite F. split; reflexivity.
  - intros F Hfull. rewrite F.
    destruct (Z.leb_spec lesson_id int64_max); [lia | split; reflexivity].
  - intros F Hroom. rewrite F.
    destruct (Z.leb_spec lesson_id int64_max) as [_ |]; [| lia].
    pose proof (next_rowid_fits _ _ Hroom) as Fid. fold lesson_id in Fid.
    destruct (next_rowid_fresh (cat_lesson_seq c) (map l_id (lessons (cat_store c))))
      as [Hseq Hids]. fold lesson_id in Hseq, Hids.
    assert (Hlt : forall l, In l (lessons (cat_store c)) -> l_id l < lesson_id).
    { intros l Hl. apply Hids. apply in_map. exact Hl. }
    assert (Hnone : find (fun x => l_id x =? lesson_id) (lessons (cat_store c)) = None).
    { destruct (find (fun x => l_id x =? lesson_id) (lessons (cat_store c))) as [l |] eqn:E;
        [| reflexivity].
      apply find_some in E. destruct E as [Hl El]. apply Z.eqb_eq in El.
      specialize (Hlt l Hl). lia. }
    rewrite upsert_lesson_returns.
    cbn [fst snd cat_store cat_courses cat_lesson_seq lessons generated_content
           socratic_dialogues].
    split; [reflexivity |]. split; [exact Hseq |].
    split; [reflexivity |]. split; [exact Hlt |]. split.
    { unfold sql_select_lesson. rewrite Fid. cbn [lessons].
      rewrite find_lesson_app, Hnone.
      cbn [l_id]. rewrite Z.eqb_refl. reflexivity. }
    split.
    { unfold get_lessons_for_course. cbn [cat_store lessons].
      apply in_map_iff. eexists. split; [| apply filter_In; split;
        [apply in_or_app; right; left; reflexivity | cbn [l_course_id]; apply Z.eqb_refl]].
      reflexivity. }
    split; [| auto].
    intros id found H. unfold sql_select_lesson in *. cbn [lessons].
    destruct (fits_int64 id); [| discriminate].
    rewrite find_lesson_app.
    destruct (find (fun x => l_id x =? id) (lessons (cat_store c))); [exact H | discriminate].
Qed.

(** X14: [create_course] by its three outcomes.  A teacher id outside the
    64-bit range cannot be bound: [OverflowError], nothing changes.  A
    course table whose largest id ever is the largest 64-bit integer is
    full: [OperationalError], nothing changes.  Otherwise the call returns
    an id that exceeds every id in the course table and the table's
    counter; the course is listed last by [get_all_courses], after the
    courses listed before; the store of lessons, cached content and
    dialogues is untouched. *)
Theorem create_course_fresh (course : CourseCreate) (c : catalog) :
  let out := create_course course c in
  let c' := snd out in
  let course_id := next_rowid (cat_course_seq c) (map c_id (cat_courses c)) in
  (fits_int64 (cc_teacher_id course) = false ->
   fst out = Raise OverflowError /\ c' = c) /\
  (fits_int64 (cc_teacher_id course) = true -> int64_max < course_id ->
   fst out = Raise OperationalError /\ c' = c) /\
  (fits_int64 (cc_teacher_id course) = true -> course_id <= int64_max ->
   fst out = Ok (course_id, cc_course_name course) /\
   cat_course_seq c < course_id /\
   (forall co, In co (cat_courses c) -> c_id co < course_id) /\
   get_all_courses c' = (get_all_courses c ++ [(course_id, cc_course_name course)])%list /\
   cat_store c' = cat_store c /\
   cat_lesson_seq c' = cat_lesson_seq c).
Proof.
  cbv zeta. unfold create_course.
  split; [| split].
  - intros F. rewrite F. split; reflexivity.
  - intros F Hfull. rewrite F.
    destruct (Z.leb_spec (next_rowid (cat_course_seq c) (map c_id (cat_courses c)))
                int64_max); [lia | split; reflexivity].
  - intros F Hroom. rewrite F.
    destruct (Z.leb_spec (next_rowid (cat_course_seq c) (map c_id (cat_courses c)))
                int64_max) as [_ |]; [| lia].
    cbn [fst snd cat_store cat_courses cat_lesson_seq].
    destruct (next_rowid_fresh (cat_course_seq c) (map c_id (cat_courses c)))
      as [Hseq Hids].
    split; [reflexivity |]. split; [exact Hseq |]. split.
    + intros co Hco. apply Hids. apply in_map. exact Hco.
    + split; [| auto]. unfold get_all_courses. cbn [cat_courses].
      rewrite map_app. reflexivity.
Qed.

(** ** Lesson ids are not used twice *)

Section IdsBounded.
Context {py : PyLib}.

(** The store after a content request: as before, or with one more
    cached row for a lesson that is in the lesson table. *)
Lemma content_request_store (orc : oracle) (w : world) (request : AdaptationRequest) :
  let out := run orc (generate_adapted_content request) w in
  store (snd out) = store w \/
  exists title text ct d,
    sql_select_lesson (ar_lesson_id request) (store w) = Some (title, text) /\
    store (snd out) =
      {| lessons := lessons (store w);
         generated_content :=
           generated_content (store w) ++
           [content_row_of (ar_lesson_id request) (ar_style request) ct d JNull];
         socratic_dialogues := socratic_dialogues (store w) |}.
Proof.
  cbv zeta.
  destruct (sql_select_cached (ar_lesson_id request) (ar_style request) (store w))
    as [row |] eqn:H.
  - left. exact (hit_leaves_store orc w request row H).
  - destruct (fits_int64 (ar_lesson_id request)) eqn:Fit;
      [| left; unfold run; rewrite generate_adapted_content_far by exact Fit; reflexivity].
    rewrite (generate_adapted_content_miss orc w request Fit H).
    destruct (sql_select_lesson (ar_lesson_id request) (store w)) as [[title text] |];
      [| left; reflexivity].
    pose proof (generate_fn_store orc
                  (logged (SelectLesson (ar_lesson_id request))
                     (logged (SelectCachedContent (ar_lesson_id request)
                                (ar_style request)) w))
                  (ar_style request) text) as K.
    destruct (run orc (generate_fn (ar_style request) text)
                (logged (SelectLesson (ar_lesson_id request))
                   (logged (SelectCachedContent (ar_lesson_id request)
                              (ar_style request)) w)))
      as [[[ct d] | e] wg]; simpl in K; [| left; exact K].
    right. exists title, text, ct, d. split; [reflexivity |].
    cbn [snd store]. rewrite K. rewrite insert_content_fresh by assumption. reflexivity.
Qed.

(** X15: if no lesson id in the lesson table or in the content cache
    exceeds the counter of the lesson table, this remains so after a
    content request, after a lesson deletion and after a grading
    request. *)
Theorem ids_bounded_kept (orc : oracle) (w : world) (seq : Z) :
  ids_bounded seq (store w) ->
  (forall request,
     ids_bounded seq (store (snd (run orc (generate_adapted_content request) w)))) /\
  (forall lesson_id, ids_bounded seq (store (snd (run orc (delete_lesson lesson_id) w)))) /\
  (forall request, ids_bounded seq (store (snd (run orc (grade_conversation request) w)))).
Proof.
  intros [Hl Hc]. split; [| split].
  - intros request.
    destruct (content_request_store orc w request)
      as [E | (title & text & ct & d & Hfound & E)]; rewrite E; [split; assumption |].
    split; [exact Hl |]. cbn [generated_content].
    apply Forall_app. split; [exact Hc |]. constructor; [| constructor].
    cbn [gc_lesson_id content_row_of].
    unfold sql_select_lesson in Hfound.
    destruct (fits_int64 (ar_lesson_id request)); [| discriminate].
    destruct (find (fun l => l_id l =? ar_lesson_id request) (lessons (store w)))
      as [l |] eqn:F; [| discriminate].
    apply find_some in F. destruct F as [Hin El]. apply Z.eqb_eq in El.
    rewrite Forall_forall in Hl. specialize (Hl l Hin). lia.
  - intros lesson_id. unfold run, delete_lesson. rewrite exec_perform. cbn [handle].
    unfold binding. destruct (fits_int64 lesson_id); [| split; assumption].
    cbn [snd store]. unfold alone, sql_delete_lesson. split; simpl; [| exact Hc].
    rewrite Forall_forall in *. intros l Hin. apply filter_In in Hin. apply Hl, Hin.
  - intros request.
    pose proof (grade_conversation_run orc request w) as R. simpl in R. rewrite R.
    destruct (grader_answer orc (clock w) request) as [s | e];
      [destruct (int_of_str s) as [n |] |]; cbn [snd store logged]; try (split; assumption).
    rewrite insert_dialogue_store.
    destruct (fits_int64 (sr_lesson_id request) && fits_int64 n); split; assumption.
Qed.

End IdsBounded.

(** X16: under that bound a lesson just created has no cached content for
    any style, although rows of deleted lessons stay in the cache: its id
    was never used before.  The bound holds again with the new counter,
    and also when the call fails and changes nothing. *)
Theorem created_lesson_has_no_cache (svc : vector_service) (lesson : LessonCreate)
    (c : catalog) (lesson_id : Z) (echo : LessonCreate) :
  ids_bounded (cat_lesson_seq c) (cat_store c) ->
  fst (create_lesson svc lesson c) = Ok (lesson_id, echo) ->
  let c' := snd (create_lesson svc lesson c) in
  cat_lesson_seq c' = lesson_id /\
  (forall style, sql_select_cached lesson_id style (cat_store c') = None) /\
  (forall style, key_rows lesson_id style (cat_store c') = []) /\
  ids_bounded (cat_lesson_seq c') (cat_store c').
Proof.
  intros [Hl Hc] E c'. subst c'. revert E. unfold create_lesson.
  destruct (fits_int64 (lc_course_id lesson)); [| discriminate].
  set (new_id := next_rowid (cat_lesson_seq c) (map l_id (lessons (cat_store c)))).
  destruct (new_id <=? int64_max); [| discriminate].
  destruct (next_rowid_fresh (cat_lesson_seq c) (map l_id (lessons (cat_store c))))
    as [Hseq _]. fold new_id in Hseq.
  rewrite upsert_lesson_returns. cbn [fst snd cat_store cat_lesson_seq].
  intros E. injection E as E _. subst lesson_id.
  cbn [cat_store cat_lesson_seq].
  assert (Hnone : forall style,
            find (content_key_is new_id style) (generated_content (cat_store c)) = None).
  { intros style.
    destruct (find (content_key_is new_id style) (generated_content (cat_store c)))
      as [r |] eqn:F; [| reflexivity].
    apply find_some in F. destruct F as [Hin Hk]. unfold content_key_is in Hk.
    apply andb_true_iff in Hk. destruct Hk as [Hk _]. apply Z.eqb_eq in Hk.
    rewrite Forall_forall in Hc. specialize (Hc r Hin). lia. }
  split; [reflexivity |]. split; [| split].
  - intros style. unfold sql_select_cached. cbn [generated_content].
    rewrite Hnone. destruct (fits_int64 new_id); reflexivity.
  - intros style. unfold key_rows. cbn [generated_content].
    apply find_none_filter, Hnone.
  - split; cbn [lessons generated_content].
    + apply Forall_app. split.
      * rewrite Forall_forall in *. intros l Hin. specialize (Hl l Hin). lia.
      * constructor; [cbn [l_id]; lia | constructor].
    + rewrite Forall_forall in *. intros r Hin. specialize (Hc r Hin). lia.
Qed.

(** ** The learning-style quiz *)

Lemma tally_counts (answers : list (option string)) :
  forall c c', tally answers c = Some c' ->
  forall l, count_of c' l = (count_of c l + votes l answers)%nat.
Proof.
  induction answers as [| a answers IH]; intros c c' H l.
  - simpl in H. injection H as <-. unfold votes. simpl. lia.
  - destruct a as [[| ch rest] |]; simpl in H.
    + rewrite (IH _ _ H l). unfold votes. simpl. reflexivity.
    + destruct (vark_of_char ch) as [l' |] eqn:E; [| discriminate].
      rewrite (IH _ _ H l). unfold votes. cbn [filter]. rewrite E.
      match goal with
      | |- context [filter ?f answers] => set (fl := filter f answers); clearbody fl
      end.
      destruct l, l'; simpl; lia.
    + rewrite (IH _ _ H l). unfold votes. simpl. reflexivity.
Qed.

Lemma tally_key_error (answers : list (option string)) :
  forall c, tally answers c = None ->
  exists ch rest, In (Some (String ch rest)) answers /\ vark_of_char ch = None.
Proof.
  induction answers as [| a answers IH]; intros c H; [discriminate |].
  destruct a as [[| ch rest] |]; simpl in H.
  - destruct (IH _ H) as (x & y & Hin & E). exists x, y. split; [right |]; assumption.
  - destruct (vark_of_char ch) as [l |] eqn:E.
    + destruct (IH _ H) as (x & y & Hin & E'). exists x, y. split; [right |]; assumption.
    + exists ch, rest. split; [left; reflexivity | exact E].
  - destruct (IH _ H) as (x & y & Hin & E). exists x, y. split; [right |]; assumption.
Qed.

(** X17: [calculate_style] picks the style of a letter with the most
    answers, and among letters with as many answers the first of V, A, R,
    K, so a quiz without answers gives "Visual".  It fails only when an
    answer starts with another letter. *)
Theorem calculate_style_dominant (answers : list (option string)) :
  match calculate_style answers with
  | Some style =>
      exists l,
        style = style_map l /\
        (forall l', (votes l' answers <= votes l answers)%nat) /\
        (forall l', (vark_rank l' < vark_rank l)%nat ->
                    (votes l' answers < votes l answers)%nat)
  | None =>
      exists ch rest, In (Some (String ch rest)) answers /\ vark_of_char ch = None
  end.
Proof.
  unfold calculate_style.
  destruct (tally answers {| count_V := 0; count_A := 0; count_R := 0; count_K := 0 |})
    as [c |] eqn:T; [| exact (tally_key_error _ _ T)].
  pose proof (tally_counts _ _ _ T) as H.
  pose proof (H LetterV) as HV. pose proof (H LetterA) as HA.
  pose proof (H LetterR) as HR. pose proof (H LetterK) as HK.
  simpl in HV, HA, HR, HK.
  exists (dominant c). split; [reflexivity |].
  unfold dominant. cbn [count_of].
  destruct (count_V c <? count_A c)%nat eqn:C1; cbn [count_of];
    [destruct (count_A c <? count_R c)%nat eqn:C2
    | destruct (count_V c <? count_R c)%nat eqn:C2]; cbn [count_of];
    [destruct (count_R c <? count_K c)%nat eqn:C3
    | destruct (count_A c <? count_K c)%nat eqn:C3
    | destruct (count_R c <? count_K c)%nat eqn:C3
    | destruct (count_V c <? count_K c)%nat eqn:C3];
    repeat match goal with
           | X : (_ <? _)%nat = true |- _ => apply Nat.ltb_lt in X
           | X : (_ <? _)%nat = false |- _ => apply Nat.ltb_ge in X
           end;
    (split; intros l'; destruct l'; simpl; lia).
Qed.

(** ** What no request handler does *)

Lemma handle_unique_keys (orc : oracle) {X : Type} (a : action X) (t : nat) (d : db) :
  unique_keys d -> unique_keys (snd (handle orc a t d)).
Proof.
  intros U. destruct a; cbn [handle]; unfold binding;
    try solve [exact U | destruct (fits_int64 _); exact U].
  - unfold sql_insert_content, binding.
    destruct (fits_int64 (gc_lesson_id row)) eqn:F; [| exact U].
    destruct (existsb _ (generated_content d)) eqn:E; [exact U |].
    apply find_none_existsb, (select_cached_none _ _ _ F) in E.
    exact (unique_keys_append row d U F E).
  - unfold sql_insert_dialogue, binding.
    destruct (fits_int64 lesson_id); [| exact U]. destruct (fits_int64 score); exact U.
Qed.

(** X18: no request handler, and no interleaving of it with other
    requests that respect the constraint themselves, leaves two cached rows
    under one (lesson, style) key: the invariant holds after every program
    built from the statements of the backend. *)
Theorem unique_keys_under_interference (orc : oracle) (env : nat -> db -> db) {A : Type}
    (p : prog A) (w : world) :
  (forall t d, unique_keys d -> unique_keys (env t d)) ->
  unique_keys (store w) ->
  unique_keys (store (snd (exec orc env p w))).
Proof.
  intros Henv. revert w. induction p as [a | e | X a k IH]; intros w U; simpl; try exact U.
  pose proof (handle_unique_keys orc a (clock w) (env (clock w) (store w))
                (Henv _ _ U)) as K.
  destruct (handle orc a (clock w) (env (clock w) (store w))) as [r d].
  apply IH. exact K.
Qed.

Lemma handle_appends (orc : oracle) {X : Type} (a : action X) (t : nat) (d : db) :
  exists cached dialogues,
    generated_content (snd (handle orc a t d)) = (generated_content d ++ cached)%list /\
    socratic_dialogues (snd (handle orc a t d)) = (socratic_dialogues d ++ dialogues)%list.
Proof.
  destruct a; cbn [handle]; unfold binding;
    try solve [exists nil, nil; rewrite !app_nil_r; split; reflexivity
              | destruct (fits_int64 _); exists nil, nil; rewrite !app_nil_r;
                split; reflexivity].
  - unfold sql_insert_content, binding.
    destruct (fits_int64 (gc_lesson_id row));
      [| exists nil, nil; rewrite !app_nil_r; split; reflexivity].
    destruct (existsb _ (generated_content d)); simpl.
    + exists nil, nil. rewrite !app_nil_r. split; reflexivity.
    + eexists [_], nil. rewrite app_nil_r. split; reflexivity.
  - unfold sql_insert_dialogue, binding.
    destruct (fits_int64 lesson_id);
      [| exists nil, nil; rewrite !app_nil_r; split; reflexivity].
    destruct (fits_int64 score); simpl.
    + eexists nil, [_]. rewrite app_nil_r. split; reflexivity.
    + exists nil, nil. rewrite !app_nil_r. split; reflexivity.
Qed.

(** X19: a request served alone never removes or rewrites a cached row or
    a dialogue record: after any program built from the statements of the
    backend, both tables are the tables as they were, followed by the rows
    added. *)
Theorem tables_append_only (orc : oracle) {A : Type} (p : prog A) (w : world) :
  exists cached dialogues,
    generated_content (store (snd (run orc p w))) =
      (generated_content (store w) ++ cached)%list /\
    socratic_dialogues (store (snd (run orc p w))) =
      (socratic_dialogues (store w) ++ dialogues)%list.
Proof.
  unfold run. revert w. induction p as [a | e | X a k IH]; intros w; simpl;
    try (exists nil, nil; rewrite !app_nil_r; split; reflexivity).
  change (alone (clock w) (store w)) with (store w).
  destruct (handle_appends orc a (clock w) (store w)) as (c1 & d1 & E1 & E2).
  destruct (handle orc a (clock w) (store w)) as [r d]. simpl in E1, E2.
  destruct (IH r {| store := d; trace := Ev a :: trace w |}) as (c2 & d2 & F1 & F2).
  exists (c1 ++ c2)%list, (d1 ++ d2)%list.
  rewrite F1, F2. cbn [store]. rewrite E1, E2, !app_assoc. split; reflexivity.
Qed.

(** X20: a cached row whose [data] text is not JSON makes the content
    request fail with [JSONDecodeError]; the content is not generated anew
    and the store stays as it is. *)
Theorem corrupt_cache_row_fails {py : PyLib} (orc : oracle) (w : world)
    (request : AdaptationRequest) (ct dj : string) (qj : option string) :
  sql_select_cached (ar_lesson_id request) (ar_style request) (store w) = Some (ct, dj, qj) ->
  json_loads dj = None ->
  let out := run orc (generate_adapted_content request) w in
  fst out = Raise JSONDecodeError /\
  generation_calls (snd out) = generation_calls w /\
  store (snd out) = store w.
Proof.
  intros H Hd. cbv zeta. unfold run, generate_adapted_content, get_cached_content.
  rewrite !exec_bind, exec_perform. cbn [handle].
  change (alone (clock w) (store w)) with (store w).
  rewrite (binding_fits _ _ _ (select_cached_fits _ _ _ _ H)), H.
  rewrite exec_bind. unfold loads. rewrite Hd.
  destruct qj as [q |]; [destruct (str_truthy q); [destruct (json_loads q) |] |];
    simpl; auto.
Qed.

(** ** Further concrete runs *)

Lemma cache_content_other_key_witness :
  let w' := snd (run (always image_url)
                   (cache_content (py := PyRef.lib) 7 "Visual" "image" infographic JNull)
                   cached_world) in
  sql_select_cached 7 "Auditory" (store w') = sql_select_cached 7 "Auditory" (store cached_world) /\
  fst (run (always image_url) (get_cached_content (py := PyRef.lib) 7 "Auditory") w') =
  fst (run (always image_url) (get_cached_content (py := PyRef.lib) 7 "Auditory") cached_world).
Proof.
  apply (cache_content_other_key (py := PyRef.lib) (always image_url) cached_world
           7 "Visual" "image" infographic JNull 7 "Auditory").
  right. discriminate.
Defined.

Lemma second_request_is_a_hit_witness :
  let first := run (always image_url)
                 (generate_adapted_content (py := PyRef.lib) visual_request)
                 (world_of one_lesson) in
  let second := run (always (Raise (OpenAIError "unavailable")))
                  (generate_adapted_content (py := PyRef.lib) visual_request) (snd first) in
  fst second = fst first /\
  generation_calls (snd second) = generation_calls (snd first).
Proof.
  edestruct (second_request_is_a_hit (py := PyRef.lib) (always image_url)
               (always (Raise (OpenAIError "unavailable"))) (world_of one_lesson))
    as (E1 & _ & E2 & _).
  - instantiate (1 := visual_request). reflexivity.
  - reflexivity.
  - vm_compute. reflexivity.
  - vm_compute. reflexivity.
  - split; [exact E1 | exact E2].
Defined.

Lemma generated_shape_by_style_witness :
  exists file_name script,
    JDict [("url", JStr "/temp_audio/clip.mp3"); ("transcript", JStr "clip.mp3")] =
    JDict [("url", JStr ("/temp_audio/" ++ file_name)); ("transcript", JStr script)].
Proof.
  destruct (generated_shape_by_style (always (Ok "clip.mp3")) (world_of one_lesson)
              (snd (run (always (Ok "clip.mp3")) (generate_fn "Auditory" "A cell.")
                      (world_of one_lesson)))
              "Auditory" "A cell." "audio"
              (JDict [("url", JStr "/temp_audio/clip.mp3"); ("transcript", JStr "clip.mp3")])
              eq_refl)
    as [(E & _) | [(_ & _ & f & sc & Ed & _) | (_ & N & _)]].
  - discriminate E.
  - exists f, sc. exact Ed.
  - destruct (N eq_refl).
Defined.

Lemma grading_other_lesson_witness :
  fst (run (always image_url) (recommend_style 1)
         (snd (run (always (Ok "1"))
                 (grade_conversation (py := PyRef.lib) other_lesson_grading)
                 (world_of sample_log)))) =
  fst (run (always image_url) (recommend_style 1) (world_of sample_log)).
Proof.
  apply (grading_other_lesson_keeps_recommendation (py := PyRef.lib)).
  discriminate.
Defined.


Lemma recommend_style_null_scores_witness :
  fst (run (always image_url) (recommend_style 5) (world_of null_scored_log)) = Raise TypeError.
Proof.
  apply recommend_style_null_scores. split.
  - discriminate.
  - repeat constructor.
Defined.

Lemma simulation_recommends_optimal_witness :
  fst (run (always image_url) (recommend_style 2)
         (world_of (run_simulation (py := PyRef.lib) (fun n => (7 * n + 3)%nat) sample_log))) =
  Ok (if (0 <? record_count 2 "Reading/Writing"
                 (run_simulation (py := PyRef.lib) (fun n => (7 * n + 3)%nat) sample_log))%nat
      then Some "Reading/Writing" else None).
Proof.
  apply (simulation_recommends_optimal (py := PyRef.lib)). reflexivity.
Defined.

Lemma get_similar_lessons_rows_witness :
  get_similar_lessons (py := PyRef.lib) sample_service 7 sample_catalog =
    Ok [(8, "Mitosis", "Biology")] /\
  forall id title course_name,
    In (id, title, course_name) [(8, "Mitosis", "Biology")] -> id <> 7.
Proof.
  assert (E : get_similar_lessons (py := PyRef.lib) sample_service 7 sample_catalog =
              Ok [(8, "Mitosis", "Biology")]) by (vm_compute; reflexivity).
  split; [exact E |].
  intros id title course_name Hin.
  exact (proj1 (get_similar_lessons_rows (py := PyRef.lib) sample_service 7 sample_catalog
                  _ E id title course_name Hin)).
Defined.

Lemma ids_bounded_kept_witness :
  ids_bounded 7 (store (snd (run (always image_url)
                               (generate_adapted_content (py := PyRef.lib) visual_request)
                               (world_of one_lesson)))).
Proof.
  apply (ids_bounded_kept (py := PyRef.lib) (always image_url) (world_of one_lesson) 7).
  split; simpl.
  - constructor; [simpl; lia | constructor].
  - constructor.
Defined.

Lemma created_lesson_has_no_cache_witness :
  key_rows 7 "Visual" (cat_store orphan_catalog) <> [] /\
  let c' := snd (create_lesson sample_service new_lesson orphan_catalog) in
  cat_lesson_seq c' = 8 /\
  forall style, sql_select_cached 8 style (cat_store c') = None.
Proof.
  split; [vm_compute; discriminate |].
  assert (B : ids_bounded (cat_lesson_seq orphan_catalog) (cat_store orphan_catalog)).
  { split.
    - constructor.
    - change (generated_content (cat_store orphan_catalog))
        with (generated_content (store orphan_world)).
      assert (E : generated_content (store orphan_world) =
                  [content_row_of (py := PyRef.lib) 7 "Visual" "image" infographic JNull])
        by (vm_compute; reflexivity).
      rewrite E. constructor; [simpl; lia | constructor]. }
  destruct (created_lesson_has_no_cache sample_service new_lesson orphan_catalog
              8 new_lesson B eq_refl) as (S & N & _).
  split; [exact S | exact N].
Defined.

Lemma unique_keys_under_interference_witness :
  unique_keys (store (snd (exec (always image_url) racing_writer
                             (generate_adapted_content (py := PyRef.lib) visual_request)
                             (world_of one_lesson)))).
Proof.
  apply unique_keys_under_interference.
  - intros t d U. unfold racing_writer. destruct (t =? 2)%nat; [| exact U].
    exact (handle_unique_keys (always image_url) (InsertGeneratedContent rival_row) t d U).
  - constructor.
Defined.

Lemma corrupt_cache_row_fails_witness :
  let out := run (always image_url) (generate_adapted_content (py := PyRef.lib) visual_request)
               corrupt_world in
  fst out = Raise JSONDecodeError /\
  generation_calls (snd out) = generation_calls corrupt_world /\
  store (snd out) = store corrupt_world.
Proof.
  eapply (corrupt_cache_row_fails (py := PyRef.lib)).
  - reflexivity.
  - vm_compute. reflexivity.
Defined.

